(** * gfs-stats-go: the ingest engine and the fetch orchestrator

    A shallow embedding of [cmd/ingest/main.go] and [cmd/download/main.go].
    Go values are modelled as follows:
    - [int] and [int64] are [Z] with the 64-bit wrap-around written out;
    - [float64] is the primitive binary64 type [float];
    - [string] is [string] (a sequence of bytes);
    - [time.Time] is the number of nanoseconds since 0001-01-01 00:00 UTC;
    - the file system is a finite map from directories to finite maps from
      file names to sizes;
    - what the programs obtain from their environment (the clock, the glob,
      the external decoder, the network, goroutine scheduling) is an
      explicit argument. *)

From Stdlib Require Import ZArith List String Ascii Bool Lia Floats.
From Stdlib Require Import Sorting.Sorted.
From stdpp Require Import base option list gmap strings sorting.

Set Warnings "-inexact-float,-register-all".

Local Open Scope string_scope.
Local Open Scope Z_scope.

(** ** Part I. Definitions *)

(** *** The pieces of Go's [strings], [path/filepath] and [strconv] the
    programs call *)

Module GoStrings.

(** [s[n:]] for [n <= len(s)]. *)
Fixpoint drop_str (n : nat) (s : string) : string :=
  match n, s with
  | O, _ => s
  | S k, String _ t => drop_str k t
  | S _, EmptyString => EmptyString
  end.

(** [s[:n]] for [n <= len(s)]. *)
Fixpoint take_str (n : nat) (s : string) : string :=
  match n, s with
  | O, _ => EmptyString
  | S k, String c t => String c (take_str k t)
  | S _, EmptyString => EmptyString
  end.

(** [strings.HasPrefix]. *)
Definition HasPrefix (s p : string) : bool := String.prefix p s.

(** [strings.HasSuffix]. *)
Definition HasSuffix (s p : string) : bool :=
  (String.length p <=? String.length s)%nat &&
  String.eqb (drop_str (String.length s - String.length p) s) p.

(** [strings.TrimPrefix]. *)
Definition TrimPrefix (s p : string) : string :=
  if HasPrefix s p then drop_str (String.length p) s else s.

(** [strings.TrimSuffix]. *)
Definition TrimSuffix (s p : string) : string :=
  if HasSuffix s p then take_str (String.length s - String.length p) s else s.

(** [strings.Split(s, sep)] for a separator of one byte: the pieces between
    the separators, one more than there are separators. *)
Fixpoint Split1 (sep : ascii) (s : string) : list string :=
  match s with
  | EmptyString => [EmptyString]
  | String c t =>
      if Ascii.eqb c sep then EmptyString :: Split1 sep t
      else match Split1 sep t with
           | p :: ps => String c p :: ps
           | [] => [String c EmptyString]
           end
  end.

(** The encodings of the runes for which [unicode.IsSpace] holds: the six
    ASCII ones, U+0085, U+00A0, U+1680, U+2000..U+200A, U+2028, U+2029,
    U+202F, U+205F and U+3000. [space_prefix s] is the length of such an
    encoding at the head of [s], or 0. *)
Definition byte (n : nat) : ascii := ascii_of_nat n.

Definition space_prefix (s : string) : nat :=
  match s with
  | String c1 t1 =>
      let n1 := nat_of_ascii c1 in
      if Ascii.is_space c1 then 1%nat
      else match t1 with
      | String c2 t2 =>
          let n2 := nat_of_ascii c2 in
          if (n1 =? 194)%nat && ((n2 =? 133)%nat || (n2 =? 160)%nat) then 2%nat
          else match t2 with
          | String c3 _ =>
              let n3 := nat_of_ascii c3 in
              if (n1 =? 225)%nat && (n2 =? 154)%nat && (n3 =? 128)%nat then 3%nat
              else if (n1 =? 226)%nat && (n2 =? 128)%nat &&
                      (((128 <=? n3)%nat && (n3 <=? 138)%nat) ||
                       (n3 =? 168)%nat || (n3 =? 169)%nat || (n3 =? 175)%nat)
                   then 3%nat
              else if (n1 =? 226)%nat && (n2 =? 129)%nat && (n3 =? 159)%nat then 3%nat
              else if (n1 =? 227)%nat && (n2 =? 128)%nat && (n3 =? 128)%nat then 3%nat
              else 0%nat
          | EmptyString => 0%nat
          end
      | EmptyString => 0%nat
      end
  | EmptyString => 0%nat
  end.

(** The same reading from the end of the string, on the reversed bytes. *)
Definition space_suffix_rev (r : string) : nat :=
  match r with
  | String c1 t1 =>
      if Ascii.is_space c1 then 1%nat
      else match t1 with
      | String c2 t2 =>
          if (space_prefix (String c2 (String c1 EmptyString)) =? 2)%nat then 2%nat
          else match t2 with
          | String c3 _ =>
              if (space_prefix (String c3 (String c2 (String c1 EmptyString))) =? 3)%nat
              then 3%nat else 0%nat
          | EmptyString => 0%nat
          end
      | EmptyString => 0%nat
      end
  | EmptyString => 0%nat
  end.

Fixpoint trim_left (fuel : nat) (s : string) : string :=
  match fuel with
  | O => s
  | S k => match space_prefix s with
           | O => s
           | n => trim_left k (drop_str n s)
           end
  end.

Fixpoint trim_right_rev (fuel : nat) (r : string) : string :=
  match fuel with
  | O => r
  | S k => match space_suffix_rev r with
           | O => r
           | n => trim_right_rev k (drop_str n r)
           end
  end.

(** [strings.TrimSpace]: all leading and trailing white space removed. *)
Definition TrimSpace (s : string) : string :=
  let l := trim_left (String.length s) s in
  String.rev (trim_right_rev (String.length l) (String.rev l)).

(** [filepath.Base] on a system whose separator is the slash. *)
Fixpoint strip_slashes_rev (r : string) : string :=
  match r with
  | String "/" t => strip_slashes_rev t
  | _ => r
  end.

Fixpoint until_slash (r : string) : string :=
  match r with
  | EmptyString => EmptyString
  | String c t => if Ascii.eqb c "/" then EmptyString else String c (until_slash t)
  end.

Definition Base (path : string) : string :=
  match path with
  | EmptyString => "."
  | _ =>
      match strip_slashes_rev (String.rev path) with
      | EmptyString => "/"
      | r => String.rev (until_slash r)
      end
  end.

(** The value of a decimal digit, when the byte is one. *)
Definition digit_of (c : ascii) : option Z :=
  let n := Z.of_nat (nat_of_ascii c) in
  if (48 <=? n) && (n <=? 57) then Some (n - 48) else None.

Definition is_digit (c : ascii) : bool :=
  match digit_of c with Some _ => true | None => false end.

(** The number a string of decimal digits denotes; [None] when a byte is
    not a digit. *)
Fixpoint digits_value (acc : Z) (s : string) : option Z :=
  match s with
  | EmptyString => Some acc
  | String c t =>
      match digit_of c with
      | Some d => digits_value (10 * acc + d) t
      | None => None
      end
  end.

Definition maxInt64 : Z := 2 ^ 63 - 1.
Definition minInt64 : Z := - 2 ^ 63.

(** [strconv.Atoi] with a 64-bit [int]: the value and whether an error was
    returned. A syntax error comes with 0, a range error with the nearest
    bound. *)
Definition Atoi (s : string) : Z * bool :=
  let '(neg, body) :=
    match s with
    | String "-" t => (true, t)
    | String "+" t => (false, t)
    | _ => (false, s)
    end in
  match body with
  | EmptyString => (0, true)
  | _ =>
      match digits_value 0 body with
      | None => (0, true)
      | Some n =>
          if neg then (if 2 ^ 63 <? n then (minInt64, true) else (- n, false))
          else (if 2 ^ 63 <=? n then (maxInt64, true) else (n, false))
      end
  end.

End GoStrings.

(** *** The pieces of Go's [time] the programs call

    Instants are in UTC, where [time.Parse] puts them when the layout has no
    zone. The engine uses [time.Now] for its date alone, formatted in the
    zone of the host: its clock is the wall clock of the host, written as
    the instant of UTC that shows the same date and time, which on a host
    in UTC is the instant itself. The calendar is the proleptic Gregorian
    one. *)

Module GoTime.

Definition Time := Z.
Definition Duration := Z.

Definition Second : Duration := 1000000000.
Definition Minute : Duration := 60 * Second.
Definition Hour : Duration := 60 * Minute.
Definition Day : Duration := 24 * Hour.

(** The value an [int64] holds after an operation whose exact result is [z]. *)
Definition wrap64 (z : Z) : Z := (z + 2 ^ 63) mod 2 ^ 64 - 2 ^ 63.

(** [time.Duration(n) * time.Hour]. *)
Definition hours (n : Z) : Duration := wrap64 (n * Hour).

(** [t.Add(d)] and [t.Before(u)]. *)
Definition Add (t : Time) (d : Duration) : Time := t + d.
Definition Before (t u : Time) : bool := t <? u.

(** The zero [time.Time], which [time.Parse] returns beside an error. *)
Definition zeroTime : Time := 0.

Definition isLeap (y : Z) : bool :=
  (y mod 4 =? 0) && (negb (y mod 100 =? 0) || (y mod 400 =? 0)).

Definition daysInYear (y : Z) : Z := if isLeap y then 366 else 365.

Definition daysIn (y m : Z) : Z :=
  match m with
  | 1 | 3 | 5 | 7 | 8 | 10 | 12 => 31
  | 4 | 6 | 9 | 11 => 30
  | 2 => if isLeap y then 29 else 28
  | _ => 0
  end.

(** Days from 0001-01-01 to the first of January of year [y]. *)
Definition daysBeforeYear (y : Z) : Z :=
  365 * (y - 1) + (y - 1) / 4 - (y - 1) / 100 + (y - 1) / 400.

(** Days from the first of January to the first of month [m]. *)
Definition daysBeforeMonth (y m : Z) : Z :=
  let leap := if isLeap y then 1 else 0 in
  match m with
  | 1 => 0
  | 2 => 31
  | 3 => 59 + leap
  | 4 => 90 + leap
  | 5 => 120 + leap
  | 6 => 151 + leap
  | 7 => 181 + leap
  | 8 => 212 + leap
  | 9 => 243 + leap
  | 10 => 273 + leap
  | 11 => 304 + leap
  | _ => 334 + leap
  end.

(** [time.Date(y, m, d, hh, mm, 0, 0, time.UTC)] for fields in range. *)
Definition Date (y m d hh mm : Z) : Time :=
  (((daysBeforeYear y + daysBeforeMonth y m + (d - 1)) * 24 + hh) * 60 + mm) * Minute.

(** The year that holds the day [d] days after the first of January of
    year [y], with the day's number in that year. *)
Fixpoint yearOf (fuel : nat) (y d : Z) : Z * Z :=
  match fuel with
  | O => (y, d)
  | S k =>
      if d <? 0 then yearOf k (y - 1) (d + daysInYear (y - 1))
      else if d <? daysInYear y then (y, d)
      else yearOf k (y + 1) (d - daysInYear y)
  end.

Fixpoint monthOf (fuel : nat) (y m d : Z) : Z * Z :=
  match fuel with
  | O => (m, d)
  | S k => if d <? daysIn y m then (m, d) else monthOf k y (m + 1) (d - daysIn y m)
  end.

(** Year, month and day of the month of the day numbered [days] from
    0001-01-01. *)
Definition civil (days : Z) : Z * Z * Z :=
  let '(y, yd) := yearOf (Z.to_nat (Z.abs days / 365 + 1)) 1 days in
  let '(m, md) := monthOf 11 y 1 yd in
  (y, m, md + 1).

(** The minute that holds [t], counted from the origin. *)
Definition minuteOf (t : Time) : Z := t / Minute.

(** [t.Truncate(time.Minute)] for the times of this model. *)
Definition truncMinute (t : Time) : Time := minuteOf t * Minute.

(** [t.Hour()]. *)
Definition hourOf (t : Time) : Z := (minuteOf t / 60) mod 24.

Definition digit_char (d : Z) : ascii := ascii_of_nat (Z.to_nat (48 + d)).

(** The decimal digits of [n >= 0], most significant first, before [rest]. *)
Fixpoint decimal (fuel : nat) (n : Z) (rest : string) : string :=
  match fuel with
  | O => rest
  | S k =>
      let rest' := String (digit_char (n mod 10)) rest in
      if n <? 10 then rest' else decimal k (n / 10) rest'
  end.

(** The layout element [01], [02], [15] or [04]: two digits. *)
Definition pad2 (n : Z) (rest : string) : string :=
  String (digit_char (n / 10 mod 10)) (String (digit_char (n mod 10)) rest).

(** The layout element [2006]: the year on four digits at least, after a
    minus sign when it is negative. *)
Definition pad4 (y : Z) (rest : string) : string :=
  let u := Z.abs y in
  let body :=
    if u <? 10000 then
      String (digit_char (u / 1000 mod 10)) (String (digit_char (u / 100 mod 10))
        (pad2 u rest))
    else decimal (Z.to_nat (Z.log2 u) + 1) u rest in
  if y <? 0 then String "-" body else body.

(** [t.Format("20060102")]. *)
Definition FormatDate (t : Time) : string :=
  let '(y, m, d) := civil (minuteOf t / 1440) in
  pad4 y (pad2 m (pad2 d EmptyString)).

(** [t.Format("2006-01-02 15:04")]. *)
Definition FormatMinute (t : Time) : string :=
  let mi := minuteOf t in
  let '(y, m, d) := civil (mi / 1440) in
  pad4 y (String "-" (pad2 m (String "-" (pad2 d (String " "
    (pad2 (mi / 60 mod 24) (String ":" (pad2 (mi mod 60) EmptyString)))))))).

(** [getnum(s, true)]: two digits exactly. *)
Definition getnum2 (s : string) : option (Z * string) :=
  match s with
  | String a (String b rest) =>
      match GoStrings.digit_of a, GoStrings.digit_of b with
      | Some x, Some y => Some (10 * x + y, rest)
      | _, _ => None
      end
  | _ => None
  end.

(** [getnum(s, false)]: one digit, or two when a second one follows. *)
Definition getnum12 (s : string) : option (Z * string) :=
  match s with
  | String a rest =>
      match GoStrings.digit_of a with
      | Some x =>
          match rest with
          | String b rest' =>
              match GoStrings.digit_of b with
              | Some y => Some (10 * x + y, rest')
              | None => Some (x, rest)
              end
          | EmptyString => Some (x, rest)
          end
      | None => None
      end
  | EmptyString => None
  end.

(** The layout element [2006] read: four digits. *)
Definition getyear (s : string) : option (Z * string) :=
  match getnum2 s with
  | Some (hi, s') =>
      match getnum2 s' with
      | Some (lo, rest) => Some (100 * hi + lo, rest)
      | None => None
      end
  | None => None
  end.

(** A literal byte of the layout. *)
Definition expect (c : ascii) (s : string) : option string :=
  match s with
  | String a rest => if Ascii.eqb a c then Some rest else None
  | EmptyString => None
  end.

(** A space of the layout: it stands for a run of spaces of the value,
    and is refused before any other byte. *)
Fixpoint cutspace (s : string) : string :=
  match s with
  | String " " rest => cutspace rest
  | _ => s
  end.

Definition skipSpace (s : string) : option string :=
  match s with
  | String a _ => if Ascii.eqb a " " then Some (cutspace s) else None
  | EmptyString => Some EmptyString
  end.

(** The range checks [time.Parse] makes on the fields it has read. *)
Definition fields_ok (y m d hh mm : Z) : bool :=
  (1 <=? m) && (m <=? 12) && (1 <=? d) && (d <=? daysIn y m) &&
  (hh <? 24) && (mm <? 60).

(** [time.Parse("200601021504", s)]; [None] stands for the error. *)
Definition ParseCompact (s : string) : option Time :=
  '(y, s1) ← getyear s;
  '(m, s2) ← getnum2 s1;
  '(d, s3) ← getnum2 s2;
  '(hh, s4) ← getnum12 s3;
  '(mm, s5) ← getnum2 s4;
  match s5 with
  | EmptyString => if fields_ok y m d hh mm then Some (Date y m d hh mm) else None
  | _ => None
  end.

(** [time.Parse("2006-01-02 15:04", s)]; [None] stands for the error. *)
Definition ParseMinute (s : string) : option Time :=
  '(y, s1) ← getyear s;
  s1' ← expect "-" s1;
  '(m, s2) ← getnum2 s1';
  s2' ← expect "-" s2;
  '(d, s3) ← getnum2 s2';
  s3' ← skipSpace s3;
  '(hh, s4) ← getnum12 s3';
  s4' ← expect ":" s4;
  '(mm, s5) ← getnum2 s4';
  match s5 with
  | EmptyString => if fields_ok y m d hh mm then Some (Date y m d hh mm) else None
  | _ => None
  end.

(** Two terms of the properties of the second part: the first instant of
    year 10000, and the start of the day that holds [t]. *)
Definition endOfYears : Time := daysBeforeYear 10000 * Day.

Definition dayStart (t : Time) : Time := minuteOf t / 1440 * Day.

End GoTime.

(** *** Control outcomes of a Go function

    A function returns, ends the process ([log.Fatal]), panics, or is still
    in a loop when the fuel given to the model is used up. *)

Inductive outcome (A : Type) : Type :=
| Returns (a : A)
| Exits
| Panics
| Spins.

Arguments Returns {A} a.
Arguments Exits {A}.
Arguments Panics {A}.
Arguments Spins {A}.

#[global] Instance outcome_ret : MRet outcome := fun A a => Returns a.

#[global] Instance outcome_bind : MBind outcome := fun A B k m =>
  match m with
  | Returns a => k a
  | Exits => Exits
  | Panics => Panics
  | Spins => Spins
  end.

(** *** [float64] conversions *)

Module GoFloat.

(** [int(x)] as the amd64 instruction computes it: the value truncated
    towards zero, and the smallest [int64] for a NaN or a value out of
    range. *)
Definition toInt (x : float) : Z :=
  match Prim2SF x with
  | S754_zero _ => 0
  | S754_finite s m e =>
      let mag := if 0 <=? e then Z.pos m * 2 ^ e else Z.pos m / 2 ^ (- e) in
      let v := if s then - mag else mag in
      if (GoStrings.minInt64 <=? v) && (v <=? GoStrings.maxInt64) then v
      else GoStrings.minInt64
  | _ => GoStrings.minInt64
  end.

(** [math.Pi] as a [float64]. *)
Definition Pi : float := 0x1.921fb54442d18p+1%float.

(** A binary64 number that is not a negative finite one. *)
Definition not_neg_finite (x : spec_float) : bool :=
  match x with
  | S754_finite true _ _ => false
  | _ => true
  end.

End GoFloat.

(** *** What the ingest engine takes from Go's library

    [strconv.ParseFloat] (the value and whether the error is set),
    [math.Atan2], [sort.Slice] and the order in which [range] visits a map
    are used through their contracts: [sort.Slice] returns a permutation
    that is sorted for the given order and promises nothing on ties, and
    [range] visits every entry once in an order of its own. *)

Class GoLib : Type := {
  ParseFloat : string -> float * bool;
  Atan2 : float -> float -> float;
  sortSlice : forall {A : Type}, (A -> A -> bool) -> list A -> list A;
  mapRange : forall {V : Type}, gmap string V -> list (string * V);
  sortSlice_perm : forall (A : Type) (less : A -> A -> bool) (l : list A),
    sortSlice less l ≡ₚ l;
  sortSlice_sorted : forall (A : Type) (key : A -> Z) (l : list A),
    Sorted (fun a b => key a <= key b) (sortSlice (fun a b => key a <? key b) l);
  mapRange_perm : forall (V : Type) (m : gmap string V),
    mapRange m ≡ₚ map_to_list m
}.

(** *** cmd/ingest/main.go *)

Module Ingest.
Import GoStrings GoTime GoFloat.

Record ForecastData : Type := {
  Timestamp : Time;
  Temp2m : float;
  UWind10m : float;
  VWind10m : float;
  WindGust : float;
  WindSpeed : float;
  WindDir : float
}.

Record ForecastOutput : Type := {
  oTimestamp : string;
  TempC : float;
  WindKt : float;
  GustKt : float;
  Direction : string
}.

(** The errors [processGFSFile] builds, by their message. *)
Inductive IngestError : Type :=
| InvalidFilenameFormat
| ErrorParsingCycleTime
| InvalidForecastHour
| ErrorCreatingPipe
| ErrorStartingWgrib2
| ErrorRunningAwk
| Wgrib2Error
| InsufficientData
| ErrorParsingWindGust
| ErrorParsingTemperature
| ErrorParsingUWind
| ErrorParsingVWind.

Inductive result (A : Type) : Type :=
| Ok (a : A)
| Err (e : IngestError).

Arguments Ok {A} a.
Arguments Err {A} e.

(** How a run of [wgrib2 ... | awk ...] ends: one of the four failures the
    code tests for, or the text [awk] printed. *)
Inductive DecoderRun : Type :=
| PipeFails
| StartFails
| AwkFails
| WaitFails
| Prints (output : string).

(** The environment of one request: whether [exec.LookPath] finds wgrib2,
    what [filepath.Glob] returns ([None] is its error), what [time.Now]
    reads while a given file is processed, and what the decoder does for a
    file and a coordinate. *)
Record World : Type := {
  lookPath_ok : bool;
  glob : option (list string);
  clock : string -> Time;
  decoder : string -> float -> float -> DecoderRun
}.

Definition directions : list string :=
  ["N"; "NNE"; "NE"; "ENE"; "E"; "ESE"; "SE"; "SSE";
   "S"; "SSW"; "SW"; "WSW"; "W"; "WNW"; "NW"; "NNW"].

(** [for degrees < 0 { degrees += 360 }] *)
Fixpoint normalizeUp (fuel : nat) (degrees : float) : option float :=
  match fuel with
  | O => None
  | S k => if (degrees <? 0)%float then normalizeUp k (degrees + 360)%float
           else Some degrees
  end.

(** [for degrees >= 360 { degrees -= 360 }] *)
Fixpoint normalizeDown (fuel : nat) (degrees : float) : option float :=
  match fuel with
  | O => None
  | S k => if (360 <=? degrees)%float then normalizeDown k (degrees - 360)%float
           else Some degrees
  end.

(** [directions[index]]: a panic when the index is out of range. *)
Definition index_directions (index : Z) : outcome string :=
  if index <? 0 then Panics
  else match nth_error directions (Z.to_nat index) with
       | Some s => Returns s
       | None => Panics
       end.

Definition cardinalIndex (degrees : float) : Z :=
  Z.rem (toInt ((degrees + 11.25) / 22.5)%float) 16.

Definition degreesToCardinal (fuel : nat) (degrees : float) : outcome string :=
  match normalizeUp fuel degrees with
  | None => Spins
  | Some d1 =>
      match normalizeDown fuel d1 with
      | None => Spins
      | Some d2 => index_directions (cardinalIndex d2)
      end
  end.

Definition getForecastHour (filename : string) : Z :=
  let base := Base filename in
  let parts := Split1 "." base in
  if (length parts <? 5)%nat then -1
  else
    let hourStr := TrimPrefix (nth 4 parts "") "f" in
    fst (Atoi hourStr).

Definition newline : ascii := byte 10.

(** The end of [processGFSFile], from the decoder's output on: the four
    values in the order gust, temperature, U, V. *)
Definition parseOutput `{GoLib} (stamp : Time) (output : string) : result ForecastData :=
  let lines := Split1 newline (TrimSpace output) in
  if (length lines <? 4)%nat then Err InsufficientData
  else
    let '(gust, e0) := ParseFloat (nth 0 lines "") in
    if e0 then Err ErrorParsingWindGust else
    let '(temp, e1) := ParseFloat (nth 1 lines "") in
    if e1 then Err ErrorParsingTemperature else
    let '(u, e2) := ParseFloat (nth 2 lines "") in
    if e2 then Err ErrorParsingUWind else
    let '(v, e3) := ParseFloat (nth 3 lines "") in
    if e3 then Err ErrorParsingVWind else
    Ok {| Timestamp := stamp; Temp2m := temp; UWind10m := u; VWind10m := v;
          WindGust := gust; WindSpeed := 0; WindDir := 0 |}.

(** The cycle time [processGFSFile] parses: today's date, read from the
    clock, followed by the cycle hour of the file name and "00". *)
Definition cycleTimeOf (now : Time) (parts : list string) : option Time :=
  let cycleHour := TrimSuffix (TrimPrefix (nth 1 parts "") "t") "z" in
  ParseCompact (FormatDate now +:+ cycleHour +:+ "00").

Definition processGFSFile `{GoLib} (w : World) (file : string) (lon lat : float)
  : result ForecastData :=
  let base := Base file in
  let parts := Split1 "." base in
  if (length parts <? 5)%nat then Err InvalidFilenameFormat
  else
    match cycleTimeOf (clock w file) parts with
    | None => Err ErrorParsingCycleTime
    | Some cycleTime =>
        let forecastHour := getForecastHour file in
        if forecastHour <? 0 then Err InvalidForecastHour
        else
          let stamp := Add cycleTime (hours forecastHour) in
          match decoder w file lon lat with
          | PipeFails => Err ErrorCreatingPipe
          | StartFails => Err ErrorStartingWgrib2
          | AwkFails => Err ErrorRunningAwk
          | WaitFails => Err Wgrib2Error
          | Prints output => parseOutput stamp output
          end
    end.

(** The wind direction in degrees the merge loop computes, before the
    cardinal label. *)
Definition windDirOf `{GoLib} (f : ForecastData) : float :=
  let windDirRad := Atan2 (- UWind10m f)%float (- VWind10m f)%float in
  let windDir := (windDirRad * 180 / Pi)%float in
  if (windDir <? 0)%float then (windDir + 360)%float else windDir.

(** The body of the merge loop for one sample: the output record. *)
Definition toOutput `{GoLib} (fuel : nat) (f : ForecastData) : outcome ForecastOutput :=
  let tempC := (Temp2m f - 273.15)%float in
  let windSpeed := PrimFloat.sqrt (UWind10m f * UWind10m f + VWind10m f * VWind10m f)%float in
  let windDir := windDirOf f in
  let windSpeedKnots := (windSpeed * 1.94384)%float in
  let windGustKnots := (WindGust f * 1.94384)%float in
  cardinalDir ← degreesToCardinal fuel windDir;
  let timestampStr := FormatMinute (Timestamp f) in
  Returns {| oTimestamp := timestampStr; TempC := tempC; WindKt := windSpeedKnots;
             GustKt := windGustKnots; Direction := cardinalDir |}.

(** The merge loop: each sample overwrites the entry of its timestamp. *)
Fixpoint mergeAll `{GoLib} (fuel : nat) (forecasts : list ForecastData)
  (timestampMap : gmap string ForecastOutput) : outcome (gmap string ForecastOutput) :=
  match forecasts with
  | [] => Returns timestampMap
  | f :: rest =>
      o ← toOutput fuel f;
      mergeAll fuel rest (<[oTimestamp o := o]> timestampMap)
  end.

Definition maxWorkers : nat := 4.

(** The samples in the order the workers append them: [sched] lists the
    positions of the files in the order their goroutines reach the append;
    a file whose processing fails appends nothing. *)
Definition collect `{GoLib} (w : World) (files : list string) (sched : list nat)
  (lon lat : float) : list ForecastData :=
  flat_map (fun i =>
    match files !! i with
    | Some f => match processGFSFile w f lon lat with
                | Ok data => [data]
                | Err _ => []
                end
    | None => []
    end) sched.

(** The schedules the Go run time can produce for [n] files: every file
    once, and, as the semaphore holds four slots, the goroutine that
    finishes in place [k] is among the first [k + 4] started. *)
Fixpoint within_semaphore (k : nat) (sched : list nat) : bool :=
  match sched with
  | [] => true
  | i :: rest => (i <? k + maxWorkers)%nat && within_semaphore (S k) rest
  end.

Definition schedule_ok (n : nat) (sched : list nat) : Prop :=
  sched ≡ₚ seq 0 n /\ within_semaphore 0 sched = true.

(** The time the last sort reads in a timestamp string; the error of
    [time.Parse] is dropped, and the zero time stands in. *)
Definition parsedTime (o : ForecastOutput) : Time :=
  match ParseMinute (oTimestamp o) with
  | Some t => t
  | None => zeroTime
  end.

Definition Ingest `{GoLib} (w : World) (sched : list nat) (fuel : nat) (lon lat : float)
  : outcome (list ForecastOutput * option IngestError) :=
  if negb (lookPath_ok w) then Exits
  else
    match glob w with
    | None => Exits
    | Some files =>
        let files := sortSlice (fun a b => getForecastHour a <? getForecastHour b) files in
        let forecasts := collect w files sched lon lat in
        let forecasts := sortSlice (fun a b => Timestamp a <? Timestamp b) forecasts in
        timestampMap ← mergeAll fuel forecasts ∅;
        let output := (mapRange timestampMap).*2 in
        let output := sortSlice (fun a b => parsedTime a <? parsedTime b) output in
        Returns (output, None)
    end.

(** What the handler of [GET /forecast] answers. *)
Inductive Response : Type :=
| BadRequest
| InternalServerError (e : IngestError)
| StatusOK (forecast : list ForecastOutput).

Definition handler `{GoLib} (w : World) (sched : list nat) (fuel : nat) (lon lat : string)
  : outcome Response :=
  let '(lonFloat, e1) := ParseFloat lon in
  if e1 then Returns BadRequest else
  let '(latFloat, e2) := ParseFloat lat in
  if e2 then Returns BadRequest else
  r ← Ingest w sched fuel lonFloat latFloat;
  match r with
  | (_, Some e) => Returns (InternalServerError e)
  | (forecast, None) => Returns (StatusOK forecast)
  end.

(** *** The terms of the properties

    What follows is not part of the program: it names what the properties
    of the second part speak of. *)

(** The pattern [Ingest] gives to [filepath.Glob], below the directory:
    a star stands for any run of bytes other than the separator, and the
    pattern has no other special character. *)
Definition globPattern : string := "gfs.t*z.pgrb2.0p25.f*".

Fixpoint globMatch (pattern : string) : string -> bool :=
  match pattern with
  | EmptyString => fun name => String.eqb name EmptyString
  | String "*" p =>
      fix star (name : string) : bool :=
        globMatch p name ||
        match name with
        | String c rest => negb (Ascii.eqb c "/") && star rest
        | EmptyString => false
        end
  | String c p => fun name =>
      match name with
      | String d rest => Ascii.eqb c d && globMatch p rest
      | EmptyString => false
      end
  end.

(** The call [degreesToCardinal(d)] returns [s]. *)
Definition labelOf (d : float) (s : string) : Prop :=
  exists fuel, degreesToCardinal fuel d = Returns s.

(** The call never leaves its loops. *)
Definition loopsForever (d : float) : Prop :=
  forall fuel, degreesToCardinal fuel d = Spins.

(** A direction of at least 0 and at most 360 degrees, or none (a NaN):
    what the merge loop hands to [degreesToCardinal] when [math.Atan2]
    stays between minus pi and pi. *)
Definition inTurn (d : float) : Prop :=
  (d <? 0)%float = false /\ (360 <? d)%float = false.

(** The clock readings for which every timestamp the engine can build has
    a year of four digits: an [int64] of nanoseconds, about 292 years, and
    a day away from the ends of the years 1 to 9999. *)
Definition clockInRange (t : Time) : Prop :=
  2 ^ 63 + Day <= t <= endOfYears - Day - 2 ^ 63.

(** The merge loop as a fold: each output overwrites the entry of its key. *)
Definition overwrite (m : gmap string ForecastOutput) (o : ForecastOutput)
  : gmap string ForecastOutput := <[oTimestamp o := o]> m.

End Ingest.

(** *** A reference implementation of the library interface

    [sort.Slice] as Go runs it on slices of at most twelve elements (an
    insertion sort), [range] in the order of the map's list of entries,
    [strconv.ParseFloat] on decimal literals and on the names of the
    infinities and of NaN, and [math.Atan2] by the library's own algorithm.
    Hexadecimal literals and digits separated by underscores, which
    [strconv.ParseFloat] reads as well, are refused by this instance. The
    properties of the engine are proved for every instance of the
    interface; this one runs the examples. *)

Module RefLib.
Import GoStrings.

(** The inner loop of the insertion sort, on the sorted prefix read from
    its end: the new element moves down while it is less than its
    neighbour. *)
Fixpoint sink {A : Type} (less : A -> A -> bool) (x : A) (rprefix : list A) : list A :=
  match rprefix with
  | [] => [x]
  | y :: rest => if less x y then y :: sink less x rest else x :: rprefix
  end.

Definition insertionSort {A : Type} (less : A -> A -> bool) (l : list A) : list A :=
  rev (fold_left (fun rprefix x => sink less x rprefix) l []).

Definition lower (c : ascii) : ascii :=
  let n := nat_of_ascii c in
  if (65 <=? n)%nat && (n <=? 90)%nat then ascii_of_nat (n + 32) else c.

Fixpoint eq_fold (s t : string) : bool :=
  match s, t with
  | EmptyString, EmptyString => true
  | String a s', String b t' => Ascii.eqb (lower a) b && eq_fold s' t'
  | _, _ => false
  end.

Definition is_inf_name (s : string) : bool := eq_fold s "inf" || eq_fold s "infinity".

(** The special values [ParseFloat] recognises, in any case: the
    infinities, with an optional sign, and NaN, without one. *)
Definition special (s : string) : option float :=
  match s with
  | String "+" t => if is_inf_name t then Some infinity else None
  | String "-" t => if is_inf_name t then Some neg_infinity else None
  | _ => if is_inf_name s then Some infinity
         else if eq_fold s "nan" then Some nan else None
  end.

(** A run of digits: its value after [acc], how many there are, the rest. *)
Fixpoint read_digits (s : string) (acc : Z) (count : Z) : Z * Z * string :=
  match s with
  | String c t =>
      match digit_of c with
      | Some d => read_digits t (10 * acc + d) (count + 1)
      | None => (acc, count, s)
      end
  | EmptyString => (acc, count, s)
  end.

(** The exponent part, when there is one: [e] or [E], a sign, digits. *)
Definition read_exponent (s : string) : option (Z * string) :=
  match s with
  | String c t =>
      if Ascii.eqb (lower c) "e" then
        let '(neg, body) :=
          match t with
          | String "-" u => (true, u)
          | String "+" u => (false, u)
          | _ => (false, t)
          end in
        let '(e, n, rest) := read_digits body 0 0 in
        if n =? 0 then None else Some (if neg then - e else e, rest)
      else Some (0, s)
  | EmptyString => Some (0, s)
  end.

(** A decimal literal as sign, mantissa and power of ten. *)
Definition read_decimal (s : string) : option (bool * Z * Z) :=
  let '(neg, body) :=
    match s with
    | String "-" t => (true, t)
    | String "+" t => (false, t)
    | _ => (false, s)
    end in
  let '(ip, ni, rest) := read_digits body 0 0 in
  let '(m, nf, rest') :=
    match rest with
    | String "." t => read_digits t ip 0
    | _ => (ip, 0, rest)
    end in
  if ni + nf =? 0 then None
  else
    match read_exponent rest' with
    | Some (e, EmptyString) => Some (neg, m, e - nf)
    | _ => None
    end.

(** The binary64 number nearest to [m * 10 ^ e], ties to even. *)
Definition nearest (neg : bool) (m e : Z) : spec_float :=
  match m with
  | Z.pos p =>
      let num := if 0 <=? e then Z.to_pos (Z.pos p * 10 ^ e) else p in
      let den := if 0 <=? e then 1%positive else Z.to_pos (10 ^ (- e)) in
      SFdiv prec emax (S754_finite neg num 0) (S754_finite false den 0)
  | _ => S754_zero neg
  end.

Definition parseFloat (s : string) : float * bool :=
  match special s with
  | Some f => (f, false)
  | None =>
      match read_decimal s with
      | Some (neg, m, e) =>
          match nearest neg m e with
          | S754_infinity sg => (SF2Prim (S754_infinity sg), true)
          | x => (SF2Prim x, false)
          end
      | None => (0%float, true)
      end
  end.

Local Open Scope float_scope.

(** [xatan]: the rational approximation of the arc tangent on [0, 0.66]. *)
Definition xatan (x : float) : float :=
  let P0 := -8.750608600031904122785e-01 in
  let P1 := -1.615753718733365076637e+01 in
  let P2 := -7.500855792314704667340e+01 in
  let P3 := -1.228866684490136173410e+02 in
  let P4 := -6.485021904942025371773e+01 in
  let Q0 := 2.485846490142306297962e+01 in
  let Q1 := 1.650270098316988542046e+02 in
  let Q2 := 4.328810604912902668951e+02 in
  let Q3 := 4.853903996359136964868e+02 in
  let Q4 := 1.945506571482613964425e+02 in
  let z := x * x in
  let z := z * ((((P0 * z + P1) * z + P2) * z + P3) * z + P4) /
               (((((z + Q0) * z + Q1) * z + Q2) * z + Q3) * z + Q4) in
  x * z + x.

(** [satan]: the argument, known to be positive, reduced to [0, 0.66]. *)
Definition satan (x : float) : float :=
  let Morebits := 6.123233995736765886130e-17 in
  let Tan3pio8 := 2.41421356237309504880 in
  if x <=? 0.66 then xatan x
  else if Tan3pio8 <? x then GoFloat.Pi / 2 - xatan (1 / x) + Morebits
  else GoFloat.Pi / 4 + xatan ((x - 1) / (x + 1)) + 0.5 * Morebits.

Definition atan (x : float) : float :=
  if x =? 0 then x
  else if 0 <? x then satan x
  else - satan (- x).

Definition signbit (x : float) : bool :=
  match Prim2SF x with
  | S754_zero s | S754_infinity s | S754_finite s _ _ => s
  | S754_nan => false
  end.

Definition copysign (x y : float) : float :=
  if signbit y then - abs x else abs x.

Definition is_inf (x : float) : bool := (x =? infinity) || (x =? neg_infinity).

Definition atan2 (y x : float) : float :=
  if is_nan x || is_nan y then nan
  else if y =? 0 then
    (if (0 <=? x) && negb (signbit x) then copysign 0 y else copysign GoFloat.Pi y)
  else if x =? 0 then copysign (GoFloat.Pi / 2) y
  else if is_inf x then
    (if x =? infinity then
       (if is_inf y then copysign (GoFloat.Pi / 4) y else copysign 0 y)
     else
       (if is_inf y then copysign (3 * GoFloat.Pi / 4) y else copysign GoFloat.Pi y))
  else if is_inf y then copysign (GoFloat.Pi / 2) y
  else
    let q := atan (y / x) in
    if x <? 0 then (if q <=? 0 then q + GoFloat.Pi else q - GoFloat.Pi)
    else q.

End RefLib.

(** *** cmd/download/main.go

    The file system holds directories, each a finite map from file names
    to sizes in bytes: the size is all the orchestrator reads of a file.
    The run threads the file system and a log of what it did to the world
    (requests sent, pauses, whole directories removed or renamed). *)

Module Download.
Import GoStrings GoTime.

Abbreviation Dir := (gmap string Z).
Abbreviation FS := (gmap string (gmap string Z)).

Inductive Event : Type :=
| Request (url : string)
| Sleep (d : Duration)
| RemovedAll (dir : string)
| RenamedDir (from to : string).

Record State : Type := {
  fs : FS;
  log : list Event
}.

Definition M (A : Type) : Type := State -> A * State.

#[global] Instance M_ret : MRet M := fun A a st => (a, st).

#[global] Instance M_bind : MBind M := fun A B k m st =>
  let '(a, st') := m st in k a st'.

Definition emit (e : Event) : M unit :=
  fun st => (tt, {| fs := fs st; log := log st ++ [e] |}).

Definition getFS : M FS := fun st => (fs st, st).

Definition putFS (f : FS) : M unit := fun st => (tt, {| fs := f; log := log st |}).

Inductive DownloadError : Type :=
| CreatingRequest
| CreatingOutputFile
| MakingRequest
| UnexpectedStatusCode (code : Z)
| DownloadingFile
| FileTooSmall
| DownloadFailed (cause : DownloadError)
| FailedToRenameTempFile
| FailedAfterAttempts (hour : string) (attempts : nat) (last : option DownloadError)
| FailedToCreateParentDirectory
| FailedToCreateTempDirectory
| DownloadsFailed (failed : nat)
| FailedToRemoveOldOutputDirectory
| FailedToMoveTempDirectory.

Definition baseURL : string := "https://nomads.ncep.noaa.gov/pub/data/nccf/com/gfs/prod".
Definition resolution : string := "0p25".
Definition outputDir : string := "./gfs_data".
Definition maxParallel : nat := 4.
Definition maxRetries : nat := 3.
Definition retryDelay : Duration := 5 * Second.

Definition forecastHours : list string :=
  ["000"; "001"; "002"; "003"; "004"; "005"; "006"; "007"; "008"; "009";
   "010"; "011"; "012"; "013"; "014"; "015"; "016"; "017"; "018"; "019";
   "020"; "021"; "022"; "023"; "024"].

(** [1<<20] *)
Definition minSize : Z := Z.shiftl 1 20.

(** What one call of [downloadFile] meets outside the program. *)
Inductive Fetch : Type :=
| RequestInvalid
| CreateFails
| TransportFails
| Responds (status : Z) (body : Z)
| CopyFails (written : Z).

(** One turn of the retry loop: how the fetch goes, and whether the rename
    that follows a good download fails. *)
Record Attempt : Type := {
  fetch : Fetch;
  renameFails : bool
}.

(** The world of one run: whether [os.MkdirAll] fails, the directory
    [os.MkdirTemp] creates ([None] is its error), the clock, the attempts
    of each forecast hour by number, and whether removing the old output
    directory or moving the new one into place fails. A removal of the
    old directory that fails has removed the files [removedFirst] before
    its error: [os.RemoveAll] removes what it can. The two removals
    whose error the code drops, [os.Remove] of a temporary file and the
    deferred [os.RemoveAll] of the staging directory, have no entry
    here: they are taken to succeed. *)
Record World : Type := {
  mkdirAllFails : bool;
  mkdirTemp : option string;
  now : Time;
  net : string -> nat -> Attempt;
  removeOldFails : bool;
  removedFirst : list string;
  moveFails : bool
}.

(** [os.Stat(dir/name)]: the size, when the file exists. *)
Definition stat (dir name : string) : M (option Z) :=
  f ← getFS; mret (f !! dir ≫= fun d => d !! name).

(** [os.Create(dir/name)], which truncates; it needs the directory. *)
Definition create (dir name : string) (fails : bool) : M bool :=
  f ← getFS;
  match f !! dir with
  | Some d => if fails then mret false
              else _ ← putFS (<[dir := <[name := 0]> d]> f); mret true
  | None => mret false
  end.

(** The bytes [io.Copy] wrote to the open file. *)
Definition write (dir name : string) (size : Z) : M unit :=
  f ← getFS;
  match f !! dir with
  | Some d => putFS (<[dir := <[name := size]> d]> f)
  | None => mret tt
  end.

(** [os.Remove(dir/name)], its error dropped. *)
Definition remove (dir name : string) : M unit :=
  f ← getFS;
  match f !! dir with
  | Some d => putFS (<[dir := delete name d]> f)
  | None => mret tt
  end.

(** [os.Rename(dir/old, dir/new)] for files of one directory. *)
Definition rename (dir old new : string) (fails : bool) : M bool :=
  f ← getFS;
  match f !! dir with
  | Some d =>
      match d !! old with
      | Some size =>
          if fails then mret false
          else _ ← putFS (<[dir := <[new := size]> (delete old d)]> f); mret true
      | None => mret false
      end
  | None => mret false
  end.

Definition downloadFile (url dir name : string) (a : Fetch) : M (option DownloadError) :=
  match a with
  | RequestInvalid => mret (Some CreatingRequest)
  | _ =>
      created ← create dir name (match a with CreateFails => true | _ => false end);
      if negb created then mret (Some CreatingOutputFile)
      else
        _ ← emit (Request url);
        match a with
        | Responds status body =>
            if negb (status =? 200) then mret (Some (UnexpectedStatusCode status))
            else _ ← write dir name body; mret None
        | CopyFails written => _ ← write dir name written; mret (Some DownloadingFile)
        | _ => mret (Some MakingRequest)
        end
  end.

Definition filenameOf (cycle hour : string) : string :=
  "gfs.t" +:+ cycle +:+ "z.pgrb2." +:+ resolution +:+ ".f" +:+ hour.

Definition urlOf (date cycle filename : string) : string :=
  baseURL +:+ "/gfs." +:+ date +:+ "/" +:+ cycle +:+ "/atmos/" +:+ filename.

(** The retry loop of [downloadWithRetry], with [remaining] turns left. *)
Fixpoint retry (w : World) (tmpOutputDir url filename hour : string)
  (remaining attempt : nat) (lastErr : option DownloadError) : M (option DownloadError) :=
  match remaining with
  | O =>
      _ ← remove tmpOutputDir (filename +:+ ".tmp");
      mret (Some (FailedAfterAttempts hour maxRetries lastErr))
  | S k =>
      let tempName := filename +:+ ".tmp" in
      let a := net w hour attempt in
      let again (e : DownloadError) : M (option DownloadError) :=
        _ ← (if (attempt <? maxRetries)%nat then emit (Sleep retryDelay) else mret tt);
        retry w tmpOutputDir url filename hour k (S attempt) (Some e) in
      err ← downloadFile url tmpOutputDir tempName (fetch a);
      match err with
      | None =>
          info ← stat tmpOutputDir tempName;
          match info with
          | Some size =>
              if minSize <? size then
                renamed ← rename tmpOutputDir tempName filename (renameFails a);
                if negb renamed
                then _ ← remove tmpOutputDir tempName; mret (Some FailedToRenameTempFile)
                else mret None
              else again FileTooSmall
          | None => again FileTooSmall
          end
      | Some e => again (DownloadFailed e)
      end
  end.

Definition downloadWithRetry (w : World) (tmpOutputDir date cycle hour : string)
  : M (option DownloadError) :=
  let filename := filenameOf cycle hour in
  let url := urlOf date cycle filename in
  info ← stat tmpOutputDir filename;
  match info with
  | Some size =>
      if minSize <? size then mret None
      else retry w tmpOutputDir url filename hour maxRetries 1 None
  | None => retry w tmpOutputDir url filename hour maxRetries 1 None
  end.

Definition getCurrentCycle (now : Time) : string * string :=
  let hour := hourOf now in
  if 23 <=? hour then (FormatDate now, "18")
  else if 17 <=? hour then (FormatDate now, "12")
  else if 11 <=? hour then (FormatDate now, "06")
  else if 5 <=? hour then (FormatDate now, "00")
  else (FormatDate (Add now (- 24 * Hour)), "18").

(** [fmt.Sprintf("%d", n)]. *)
Definition sprintInt (n : Z) : string :=
  let u := Z.abs n in
  let body := decimal (Z.to_nat (Z.log2 u) + 1) u EmptyString in
  if n <? 0 then String "-" body else body.

(** [float64(n)] for an [int64]: the nearest binary64 number, ties to
    even. *)
Definition ofInt64 (n : Z) : float := SF2Prim (binary_normalize prec emax n 0 false).

(** [fmt.Sprintf("%.1f", x)]: the decimal of one digit after the point
    that is nearest to the exact value of [x], ties to the even digit. *)
Definition sprintTenths (x : float) : string :=
  match Prim2SF x with
  | S754_nan => "NaN"
  | S754_infinity s => if s then "-Inf" else "+Inf"
  | S754_zero s => if s then "-0.0" else "0.0"
  | S754_finite s m e =>
      let num := 10 * Z.pos m in
      let t :=
        if 0 <=? e then num * 2 ^ e
        else
          let den := 2 ^ (- e) in
          let q := num / den in
          let r := num mod den in
          if (den <? 2 * r) || ((den =? 2 * r) && Z.odd q) then q + 1 else q in
      let body := sprintInt (t / 10) +:+ "." +:+ String (digit_char (t mod 10)) "" in
      if s then String "-" body else body
  end.

(** The letters of ["KMGTPE"]. *)
Definition unitLetters : list ascii := ["K"; "M"; "G"; "T"; "P"; "E"]%char.

(** [for n := bytes / unit; n >= unit; n /= unit { div *= unit; exp++ }] *)
Fixpoint unitLoop (fuel : nat) (n div : Z) (exp : nat) : option (Z * nat) :=
  match fuel with
  | O => None
  | S k =>
      if 1024 <=? n then unitLoop k (Z.quot n 1024) (wrap64 (div * 1024)) (S exp)
      else Some (div, exp)
  end.

Definition formatSize (fuel : nat) (bytes : Z) : outcome string :=
  if bytes <? 1024 then Returns (sprintInt bytes +:+ " B")
  else
    match unitLoop fuel (Z.quot bytes 1024) 1024 0 with
    | None => Spins
    | Some (div, exp) =>
        match nth_error unitLetters exp with
        | None => Panics
        | Some c =>
            Returns (sprintTenths (ofInt64 bytes / ofInt64 div)%float
                     +:+ " " +:+ String c "B")
        end
    end.

(** The jobs, one result each. The four workers take the hours from the
    queue in order and write files of different names, so their effects
    on the file system commute; the model runs the jobs in queue order. *)
Fixpoint runJobs (w : World) (tmpOutputDir date cycle : string) (hours : list string)
  : M (list (option DownloadError)) :=
  match hours with
  | [] => mret []
  | hour :: rest =>
      r ← downloadWithRetry w tmpOutputDir date cycle hour;
      rs ← runJobs w tmpOutputDir date cycle rest;
      mret (r :: rs)
  end.

Definition countFailed (results : list (option DownloadError)) : nat :=
  length (filter (fun r => is_Some r) results).

(** [os.RemoveAll(dir)] and [os.Rename(from, to)] on directories. *)
Definition removeAll (dir : string) : M unit :=
  f ← getFS; _ ← putFS (delete dir f); emit (RemovedAll dir).

Definition renameDir (from to : string) : M unit :=
  f ← getFS;
  match f !! from with
  | Some d => _ ← putFS (<[to := d]> (delete from f)); emit (RenamedDir from to)
  | None => mret tt
  end.

(** An [os.RemoveAll(dir)] that returns an error after it has removed the
    files [names]: the directory stays, with what is left. *)
Definition removeFiles (names : list string) (d : Dir) : Dir := foldr delete d names.

Definition removePartly (dir : string) (names : list string) : M unit :=
  f ← getFS;
  match f !! dir with
  | Some d => putFS (<[dir := removeFiles names d]> f)
  | None => mret tt
  end.

(** [run] after the temporary directory exists and before the deferred
    clean-up. *)
Definition publish (w : World) (tmpOutputDir : string) : M (option DownloadError) :=
  let '(date, cycle) := getCurrentCycle (now w) in
  results ← runJobs w tmpOutputDir date cycle forecastHours;
  let failed := countFailed results in
  if (0 <? failed)%nat then mret (Some (DownloadsFailed failed))
  else
    f ← getFS;
    let move : M (option DownloadError) :=
      if moveFails w then mret (Some FailedToMoveTempDirectory)
      else _ ← renameDir tmpOutputDir outputDir; mret None in
    match f !! outputDir with
    | Some _ =>
        if removeOldFails w
        then _ ← removePartly outputDir (removedFirst w);
             mret (Some FailedToRemoveOldOutputDirectory)
        else _ ← removeAll outputDir; move
    | None => move
    end.

Definition run (w : World) : M (option DownloadError) :=
  if mkdirAllFails w then mret (Some FailedToCreateParentDirectory)
  else
    match mkdirTemp w with
    | None => mret (Some FailedToCreateTempDirectory)
    | Some tmpOutputDir =>
        f ← getFS;
        _ ← putFS (<[tmpOutputDir := ∅]> f);
        r ← publish w tmpOutputDir;
        f' ← getFS;
        _ ← (match f' !! tmpOutputDir with
             | Some _ => removeAll tmpOutputDir
             | None => mret tt
             end);
        mret r
    end.

(** *** The terms of the properties

    What follows is not part of the program: it names what the properties
    of the second part speak of. *)

(** The cycle hours [getCurrentCycle] can return. *)
Definition cycles : list string := ["00"; "06"; "12"; "18"].

(** The state in which the staging directory [tmp] holds [d], the rest of
    the file system is [f0] and the log is [l]. *)
Definition staged (f0 : FS) (tmp : string) (d : Dir) (l : list Event) : State :=
  {| fs := <[tmp := d]> f0; log := l |}.

(** The size an attempt brings home: a response of status 200 whose body
    is above the threshold. Every other attempt is a failed one. *)
Definition good (a : Attempt) : option Z :=
  match fetch a with
  | Responds status body =>
      if (status =? 200) && (minSize <? body) then Some body else None
  | _ => None
  end.

(** The pauses in a stretch of the log, and the number of requests. *)
Definition pauses (evs : list Event) : list Duration :=
  flat_map (fun e => match e with Sleep d => [d] | _ => [] end) evs.

Definition requests (evs : list Event) : nat :=
  length (flat_map (fun e => match e with Request _ => [e] | _ => [] end) evs).

(** The events a job can add: requests and pauses. *)
Definition jobEvent (e : Event) : Prop :=
  match e with Request _ | Sleep _ => True | _ => False end.

(** The test that lets a job skip its download. *)
Definition complete (d : Dir) (filename : string) : bool :=
  match d !! filename with
  | Some size => minSize <? size
  | None => false
  end.

(** How a job ends when its first good attempt is the [k]-th and brings
    [b] bytes: [k - 1] pauses, a request for the good attempt and none
    after it, and the file in place, or, when the rename fails, an error
    and the directory as it was. *)
Definition endsAt (w : World) (hour filename : string) (k : nat) (b : Z) (d : Dir)
  (r : option DownloadError) (d' : Dir) (evs : list Event) : Prop :=
  pauses evs = replicate (k - 1) retryDelay /\
  (1 <= requests evs <= k)%nat /\
  if renameFails (net w hour k)
  then r = Some FailedToRenameTempFile /\ d' = d
  else r = None /\ d' = <[filename := b]> d.

(** How a job ends when the three attempts fail: the error, two pauses,
    and the directory as it was. *)
Definition givesUp (hour : string) (d : Dir)
  (r : option DownloadError) (d' : Dir) (evs : list Event) : Prop :=
  (exists e, r = Some (FailedAfterAttempts hour 3 (Some e))) /\
  pauses evs = [retryDelay; retryDelay] /\
  (requests evs <= 3)%nat /\
  d' = d.

(** The three attempts of an hour all fail: the job exhausts its retries. *)
Definition allFail (w : World) (hour : string) : Prop :=
  good (net w hour 1) = None /\ good (net w hour 2) = None /\ good (net w hour 3) = None.

(** The staging directory holds nothing but files of hours already done. *)
Definition onlyFilesOf (cycle : string) (done : list string) (d : Dir) : Prop :=
  forall n, is_Some (d !! n) -> exists h, h ∈ done /\ n = filenameOf cycle h.

(** The events that would touch the published directory. *)
Definition touchesOutput (e : Event) : Prop :=
  e = RemovedAll outputDir \/ exists from, e = RenamedDir from outputDir.

(** The size of the file a job puts in place: that of its first good
    attempt, unless the rename that follows it fails. *)
Definition delivered (w : World) (hour : string) : option Z :=
  match good (net w hour 1), good (net w hour 2), good (net w hour 3) with
  | Some b, _, _ => if renameFails (net w hour 1) then None else Some b
  | None, Some b, _ => if renameFails (net w hour 2) then None else Some b
  | None, None, Some b => if renameFails (net w hour 3) then None else Some b
  | None, None, None => None
  end.

(** A computation that only appends to the log, and only events of [P]. *)
Definition appends {A : Type} (P : Event -> Prop) (m : M A) : Prop :=
  forall st, exists evs, log (m st).2 = (log st ++ evs)%list /\ Forall P evs.

(** The requests and the pauses a run may make: a request for a file of
    the current cycle, a pause of the retry delay. *)
Definition fetchEvent (w : World) (e : Event) : Prop :=
  let '(date, cycle) := getCurrentCycle (now w) in
  match e with
  | Request url =>
      exists h, h ∈ forecastHours /\ url = urlOf date cycle (filenameOf cycle h)
  | Sleep d => d = retryDelay
  | _ => True
  end.

(** The staging directory after the jobs of [hours], started on [d]. *)
Definition stagedFiles (w : World) (cycle : string) (hours : list string) (d : Dir) : Dir :=
  foldl (fun d hour => match delivered w hour with
                       | Some b => <[filenameOf cycle hour := b]> d
                       | None => d
                       end) d hours.

End Download.

(** *** Worlds for the examples *)

Module Examples.
Import GoStrings GoTime Ingest.

(** What [awk] prints: each value followed by a newline. *)
Fixpoint unlines (values : list string) : string :=
  match values with
  | [] => EmptyString
  | v :: rest => v +:+ String newline (unlines rest)
  end.

(** 2024-05-01 09:30 UTC. *)
Definition may1 : Time := Date 2024 5 1 9 30.

Definition lon : float := 18.6%float.
Definition lat : float := 54.4%float.

(** Three files of the 00 cycle, the same values in each. *)
Definition threeFiles : World := {|
  lookPath_ok := true;
  glob := Some ["gfs_data/gfs.t00z.pgrb2.0p25.f000";
                "gfs_data/gfs.t00z.pgrb2.0p25.f001";
                "gfs_data/gfs.t00z.pgrb2.0p25.f002"];
  clock := fun _ => may1;
  decoder := fun _ _ _ => Prints (unlines ["5.0"; "293.15"; "2.0"; "-2.0"])
|}.

(** Two files for 06:00 of the same day: hour 6 of the 00 cycle and
    hour 0 of the 06 cycle, with different values. *)
Definition largerOffset : string := "gfs_data/gfs.t00z.pgrb2.0p25.f006".
Definition smallerOffset : string := "gfs_data/gfs.t06z.pgrb2.0p25.f000".

Definition collision : World := {|
  lookPath_ok := true;
  glob := Some [largerOffset; smallerOffset];
  clock := fun _ => may1;
  decoder := fun file _ _ =>
    if String.eqb file largerOffset
    then Prints (unlines ["5.0"; "293.15"; "2.0"; "-2.0"])
    else Prints (unlines ["7.0"; "283.15"; "1.0"; "1.0"])
|}.

(** A decoder that prints NaN for the gust. *)
Definition nanGust : World := {|
  lookPath_ok := true;
  glob := Some ["gfs_data/gfs.t00z.pgrb2.0p25.f000"];
  clock := fun _ => may1;
  decoder := fun _ _ _ => Prints (unlines ["NaN"; "293.15"; "2.0"; "-2.0"])
|}.

(** The same world a day later. *)
Definition aDayLater (w : World) : World := {|
  lookPath_ok := lookPath_ok w;
  glob := glob w;
  clock := fun file => clock w file + Day;
  decoder := decoder w
|}.

(** An input so large that taking 360 away rounds back to it. *)
Definition absorbing : float := 0x1p70%float.

(** An input just below the first sector boundary, 11.25 - 2^-47. *)
Definition belowBoundary : float := (11.25 - 0x1p-47)%float.

(** What the engine is to answer on these worlds. *)
Definition northWest (stamp : string) : ForecastOutput :=
  {| oTimestamp := stamp; TempC := 20%float; WindKt := 5.4980097821666343%float;
     GustKt := 9.7192000000000007%float; Direction := "NW" |}.

Definition threeFilesOutput : list ForecastOutput :=
  [northWest "2024-05-01 00:00"; northWest "2024-05-01 01:00";
   northWest "2024-05-01 02:00"].

Definition largerSample : ForecastData :=
  {| Timestamp := Date 2024 5 1 6 0; Temp2m := 293.15%float;
     UWind10m := 2%float; VWind10m := (-2)%float; WindGust := 5%float;
     WindSpeed := 0%float; WindDir := 0%float |}.

Definition smallerSample : ForecastData :=
  {| Timestamp := Date 2024 5 1 6 0; Temp2m := 283.15%float;
     UWind10m := 1%float; VWind10m := 1%float; WindGust := 7%float;
     WindSpeed := 0%float; WindDir := 0%float |}.

Definition largerOutput : ForecastOutput := northWest "2024-05-01 06:00".

Definition smallerOutput : ForecastOutput :=
  {| oTimestamp := "2024-05-01 06:00"; TempC := 10%float;
     WindKt := 2.7490048910833171%float; GustKt := 13.60688%float;
     Direction := "SW" |}.

Definition collisionOutput : list ForecastOutput := [smallerOutput].

(** 2024-05-01 03:00 UTC, when the orchestrator fetches the 18 cycle of
    the day before. *)
Definition may1early : Time := Date 2024 5 1 3 0.

(** Hour 003 of that cycle, ingested at the same time. *)
Definition fetchedEarly : string := "gfs_data/gfs.t18z.pgrb2.0p25.f003".

Definition earlyFetch : World := {|
  lookPath_ok := true;
  glob := Some [fetchedEarly];
  clock := fun _ => may1early;
  decoder := fun _ _ _ => Prints (unlines ["5.0"; "293.15"; "2.0"; "-2.0"])
|}.

Definition earlySample : ForecastData :=
  {| Timestamp := Date 2024 5 1 21 0; Temp2m := 293.15%float;
     UWind10m := 2%float; VWind10m := (-2)%float; WindGust := 5%float;
     WindSpeed := 0%float; WindDir := 0%float |}.

(** 2024-05-01 17:00 UTC, when the orchestrator fetches the 12 cycle of
    the day, read on a host whose zone is eight hours east of UTC: the
    wall clock there shows 01:00 of the second of May. *)
Definition may1evening : Time := Date 2024 5 1 17 0.

Definition eightEast : Z := 8 * Hour.

Definition fetchedEast : string := "gfs_data/gfs.t12z.pgrb2.0p25.f003".

Definition eastFetch : World := {|
  lookPath_ok := true;
  glob := Some [fetchedEast];
  clock := fun _ => may1evening + eightEast;
  decoder := fun _ _ _ => Prints (unlines ["5.0"; "293.15"; "2.0"; "-2.0"])
|}.

Definition eastSample : ForecastData :=
  {| Timestamp := Date 2024 5 2 15 0; Temp2m := 293.15%float;
     UWind10m := 2%float; VWind10m := (-2)%float; WindGust := 5%float;
     WindSpeed := 0%float; WindDir := 0%float |}.

End Examples.

(** *** Worlds for the examples of the fetch orchestrator *)

Module FetchWorlds.
Import GoTime Download.

Definition MiB : Z := 1048576.

(** The directory [os.MkdirTemp] creates. *)
Definition staging : string := "./gfs_download_3141592653".

(** A response of status 200 with two MiB, and a rename that works. *)
Definition fine : Attempt := {| fetch := Responds 200 (2 * MiB); renameFails := false |}.

(** The published directory of an earlier run: hour 000 of the 00 cycle,
    five MiB. *)
Definition published : FS :=
  {[ outputDir := {[ filenameOf "00" "000" := 5 * MiB ]} ]}.

(** Every download works. *)
Definition allFine : World := {|
  mkdirAllFails := false;
  mkdirTemp := Some staging;
  now := Examples.may1;
  net := fun _ _ => fine;
  removeOldFails := false;
  removedFirst := [];
  moveFails := false
|}.

(** Hour 007 answers 503 to every request; the other hours work. *)
Definition oneHourDown : World := {|
  mkdirAllFails := false;
  mkdirTemp := Some staging;
  now := Examples.may1;
  net := fun hour _ =>
    if String.eqb hour "007" then {| fetch := Responds 503 0; renameFails := false |}
    else fine;
  removeOldFails := false;
  removedFirst := [];
  moveFails := false
|}.

(** The temporary file cannot be created at the first attempt of a job;
    the later attempts work. *)
Definition createFailsOnce : World := {|
  mkdirAllFails := false;
  mkdirTemp := Some staging;
  now := Examples.may1;
  net := fun _ attempt =>
    if (attempt =? 1)%nat then {| fetch := CreateFails; renameFails := false |}
    else fine;
  removeOldFails := false;
  removedFirst := [];
  moveFails := false
|}.

(** Every download works, and the removal of the old directory fails
    after it has deleted the file of hour 000. *)
Definition removeBlocked : World := {|
  mkdirAllFails := false;
  mkdirTemp := Some staging;
  now := Examples.may1;
  net := fun _ _ => fine;
  removeOldFails := true;
  removedFirst := [filenameOf "00" "000"];
  moveFails := false
|}.

Definition hour000 : string := filenameOf "00" "000".
Definition url000 : string := urlOf "20240501" "00" hour000.

(** Every download works, and the move into place fails. *)
Definition moveBlocked : World := {|
  mkdirAllFails := false;
  mkdirTemp := Some staging;
  now := Examples.may1;
  net := fun _ _ => fine;
  removeOldFails := false;
  removedFirst := [];
  moveFails := true
|}.

End FetchWorlds.

(** ** Part II. Properties *)

(** *** The file-name codec *)

Module CodecFacts.
Import GoStrings Ingest.

(** X1. Decoding inverts the orchestrator's encoding: the file written
    for the [i]-th forecast hour of any cycle decodes to [i]. *)
Lemma getForecastHour_filenameOf (cycle : string) (i : nat) :
  In cycle Download.cycles -> (i < 25)%nat ->
  getForecastHour (Download.filenameOf cycle (nth i Download.forecastHours "")) = Z.of_nat i.
Proof.
  intros Hc Hi.
  assert (Hall : forallb (fun c =>
            forallb (fun i => getForecastHour
                       (Download.filenameOf c (nth i Download.forecastHours "")) =? Z.of_nat i)
                    (seq 0 25)) Download.cycles = true) by (vm_compute; reflexivity).
  rewrite forallb_forall in Hall. specialize (Hall _ Hc).
  rewrite forallb_forall in Hall. apply Z.eqb_eq, Hall, in_seq. lia.
Qed.

(** The theorem of X1 on hour 007 of the 06 cycle. *)
Lemma getForecastHour_filenameOf_witness :
  getForecastHour (Download.filenameOf "06" (nth 7 Download.forecastHours "")) = 7.
Proof.
  apply (getForecastHour_filenameOf "06" 7); [right; left; reflexivity | lia].
Defined.

(** The same below the published directory, as the glob returns the path. *)
Lemma getForecastHour_published (cycle : string) (i : nat) :
  In cycle Download.cycles -> (i < 25)%nat ->
  getForecastHour ("gfs_data/" +:+
    Download.filenameOf cycle (nth i Download.forecastHours "")) = Z.of_nat i.
Proof.
  intros Hc Hi.
  assert (Hall : forallb (fun c =>
            forallb (fun i => getForecastHour ("gfs_data/" +:+
                       Download.filenameOf c (nth i Download.forecastHours "")) =? Z.of_nat i)
                    (seq 0 25)) Download.cycles = true) by (vm_compute; reflexivity).
  rewrite forallb_forall in Hall. specialize (Hall _ Hc).
  rewrite forallb_forall in Hall. apply Z.eqb_eq, Hall, in_seq. lia.
Qed.

(** The sentinel is what a name of fewer than five dot-separated parts
    decodes to; no other guard produces it. *)
Lemma getForecastHour_short (filename : string) :
  (length (Split1 "." (Base filename)) < 5)%nat -> getForecastHour filename = -1.
Proof.
  intros H. unfold getForecastHour.
  destruct (Nat.ltb_spec (length (Split1 "." (Base filename))) 5); [reflexivity | lia].
Qed.

(** With five parts or more the result is whatever [strconv.Atoi] returns
    beside its error, which is dropped. *)
Lemma getForecastHour_long (filename : string) :
  (5 <= length (Split1 "." (Base filename)))%nat ->
  getForecastHour filename =
    fst (Atoi (TrimPrefix (nth 4 (Split1 "." (Base filename)) "") "f")).
Proof.
  intros H. unfold getForecastHour.
  destruct (Nat.ltb_spec (length (Split1 "." (Base filename))) 5); [lia | reflexivity].
Qed.

(** C4. A name the glob returns whose forecast-hour part is not a number
    ("fxyz", or the bare "f") is malformed, yet it decodes to 0, the offset
    of the analysis hour, and not to a negative sentinel; [processGFSFile]
    tests the result for [< 0] to reject an invalid forecast hour, and
    never rejects such a name on that ground. *)
Theorem getForecastHour_malformed_hour_is_zero :
  globMatch globPattern "gfs.t00z.pgrb2.0p25.fxyz" = true /\
  getForecastHour "gfs_data/gfs.t00z.pgrb2.0p25.fxyz" = 0 /\
  globMatch globPattern "gfs.t00z.pgrb2.0p25.f" = true /\
  getForecastHour "gfs_data/gfs.t00z.pgrb2.0p25.f" = 0 /\
  snd (Atoi "xyz") = true /\ snd (Atoi "") = true /\
  (forall (lib : GoLib) (w : World) (lon lat : float),
     processGFSFile w "gfs_data/gfs.t00z.pgrb2.0p25.fxyz" lon lat
       <> Err InvalidForecastHour).
Proof.
  do 6 (split; [vm_compute; reflexivity|]).
  intros lib w lon lat. unfold processGFSFile.
  change (Split1 "." (Base "gfs_data/gfs.t00z.pgrb2.0p25.fxyz"))
    with ["gfs"; "t00z"; "pgrb2"; "0p25"; "fxyz"].
  change (getForecastHour "gfs_data/gfs.t00z.pgrb2.0p25.fxyz") with 0.
  cbv beta iota zeta.
  change (length ["gfs"; "t00z"; "pgrb2"; "0p25"; "fxyz"] <? 5)%nat with false.
  change (0 <? 0) with false. cbv iota.
  destruct (cycleTimeOf _ _); [|discriminate].
  destruct (decoder _ _ _ _); try discriminate.
  unfold parseOutput.
  destruct (length _ <? 4)%nat; [discriminate|].
  repeat (destruct (ParseFloat _) as [? []]; [discriminate|]).
  discriminate.
Qed.

End CodecFacts.

(** *** Signs of binary64 results, from the specification of the operations *)

Module FloatFacts.
Import GoStrings GoFloat.

Lemma binary_round_aux_sign (sx : bool) (mx ex : Z) (lx : location) :
  match binary_round_aux prec emax sx mx ex lx with
  | S754_finite s _ _ => s = sx
  | _ => True
  end.
Proof.
  unfold binary_round_aux.
  destruct (shr_fexp prec emax mx ex lx) as [mrs' e'].
  destruct (shr_fexp prec emax _ e' loc_Exact) as [mrs'' e''].
  destruct (shr_m mrs''); try exact I.
  destruct (e'' <=? emax - prec); [reflexivity | exact I].
Qed.

Lemma binary_round_sign (sx : bool) (mx : positive) (ex : Z) :
  match binary_round prec emax sx mx ex with
  | S754_finite s _ _ => s = sx
  | _ => True
  end.
Proof.
  unfold binary_round.
  destruct (shl_align mx ex _) as [mz ez]. apply binary_round_aux_sign.
Qed.

Lemma binary_normalize_nonneg (m e : Z) :
  0 <= m -> not_neg_finite (binary_normalize prec emax m e false) = true.
Proof.
  intros Hm. unfold binary_normalize. destruct m as [|p|p]; [reflexivity | | lia].
  pose proof (binary_round_sign false p e) as H.
  destruct (binary_round prec emax false p e) as [| | |s ? ?]; try reflexivity.
  subst s. reflexivity.
Qed.

Lemma add_pos_const_sign (x : spec_float) (m : positive) (e : Z) :
  not_neg_finite x = true ->
  not_neg_finite (SF64add x (S754_finite false m e)) = true.
Proof.
  intros Hx. destruct x as [s|s| |[|] mx ex]; try discriminate; try reflexivity.
  unfold SF64add, SFadd. apply binary_normalize_nonneg. unfold cond_Zopp. lia.
Qed.

Lemma div_pos_const_sign (x : spec_float) (m : positive) (e : Z) :
  not_neg_finite x = true ->
  not_neg_finite (SF64div x (S754_finite false m e)) = true.
Proof.
  intros Hx. destruct x as [s|s| |[|] mx ex]; try discriminate; try reflexivity.
  unfold SF64div, SFdiv. simpl xorb.
  destruct (SFdiv_core_binary prec emax (Z.pos mx) ex (Z.pos m) e) as [[mz ez] lz].
  pose proof (binary_round_aux_sign false mz ez lz) as H.
  destruct (binary_round_aux prec emax false mz ez lz) as [| | |s ? ?]; try reflexivity.
  subst s. reflexivity.
Qed.

(** A float that is not below zero is not a negative finite number. *)
Lemma not_ltb_zero_sign (d : float) :
  (d <? 0)%float = false -> not_neg_finite (Prim2SF d) = true.
Proof.
  rewrite ltb_spec. change (Prim2SF 0) with (S754_zero false).
  destruct (Prim2SF d) as [s|s| |s m e]; try reflexivity.
  destruct s; [|reflexivity]. unfold SFltb, SFcompare. discriminate.
Qed.

Lemma toInt_range (x : float) :
  not_neg_finite (Prim2SF x) = true ->
  toInt x = minInt64 \/ 0 <= toInt x.
Proof.
  unfold toInt. destruct (Prim2SF x) as [s|s| |[|] m e]; intros H; auto; try discriminate.
  - right. lia.
  - assert (Hmag : 0 <= (if 0 <=? e then Z.pos m * 2 ^ e else Z.pos m / 2 ^ (- e))).
    { destruct (Z.leb_spec 0 e).
      - apply Z.mul_nonneg_nonneg; [lia|]. apply Z.pow_nonneg. lia.
      - apply Z.div_pos; [lia|]. apply Z.pow_pos_nonneg; lia. }
    cbv zeta.
    destruct ((minInt64 <=? _) && (_ <=? maxInt64)); auto.
Qed.

Lemma digits2_pos_size (m : positive) : digits2_pos m = Pos.size m.
Proof. induction m; simpl; congruence. Qed.

(** A valid finite number whose exponent is above the least one carries a
    full mantissa. *)
Lemma valid_full_mantissa (s : bool) (m : positive) (e : Z) :
  valid_binary (S754_finite s m e) = true -> -1074 < e -> 2 ^ 52 <= Z.pos m.
Proof.
  unfold SpecFloat.valid_binary, bounded, canonical_mantissa, fexp.
  intros H He. apply andb_prop in H as [H _]. apply Z.eqb_eq in H.
  change (SpecFloat.emin prec emax) with (-1074) in H. change prec with 53 in H.
  assert (Hd : Z.pos (digits2_pos m) = 53) by lia.
  rewrite digits2_pos_size in Hd.
  pose proof (Pos.size_le m) as Hle.
  assert (Hs : Pos.size m = 53%positive) by lia. rewrite Hs in Hle.
  change (2 ^ 53)%positive with 9007199254740992%positive in Hle. lia.
Qed.

Lemma shl_align_value (m : positive) (e ez : Z) :
  ez <= e -> Z.pos (fst (shl_align m e ez)) = Z.pos m * 2 ^ (e - ez).
Proof.
  intros H. unfold shl_align.
  destruct (ez - e) as [|p|p] eqn:Hd.
  - assert (e - ez = 0) as -> by lia. simpl. lia.
  - lia.
  - simpl. change (Pos.iter xO m p) with (shift_pos p m).
    rewrite shift_pos_correct, Z.pow_pos_fold.
    assert (e - ez = Z.pos p) as -> by lia. lia.
Qed.

(** Subtracting 360 from a number that is at least 360 gives no negative
    number. *)
Lemma sub_360_sign (x : float) :
  (360 <=? x)%float = true -> not_neg_finite (Prim2SF (x - 360)) = true.
Proof.
  rewrite leb_spec, sub_spec.
  pose proof (Prim2SF_valid x) as Hv.
  change (Prim2SF 360) with (S754_finite false 6333186975989760 (-44)).
  destruct (Prim2SF x) as [[|]|[|]| |[|] m e]; try reflexivity; try discriminate.
  unfold SFleb, SFcompare. intros Hle.
  unfold SF64sub, SFsub. apply binary_normalize_nonneg. unfold cond_Zopp.
  change IntDef.Z.sub with Z.sub.
  destruct (Z.compare_spec (-44) e) as [He|He|He]; try discriminate.
  - subst e. rewrite Z.min_id.
    rewrite !shl_align_value by lia. rewrite Z.sub_diag. change (2 ^ 0) with 1.
    destruct (Pos.compare_cont Eq 6333186975989760 m) eqn:Hc; try discriminate.
    + apply Pos.compare_eq_iff in Hc. subst m. lia.
    + assert (Hlt : (6333186975989760 < m)%positive) by exact Hc. lia.
  - rewrite Z.min_r by lia. rewrite !shl_align_value by lia.
    rewrite Z.sub_diag. change (2 ^ 0) with 1.
    pose proof (valid_full_mantissa false m e Hv ltac:(lia)) as Hm.
    assert (2 ^ 1 <= 2 ^ (e - -44)) by (apply Z.pow_le_mono_r; lia).
    change (2 ^ 52) with 4503599627370496 in Hm. change (2 ^ 1) with 2 in H. nia.
Qed.

(** What the rounding of a number of sign [sx] returns carries that sign,
    also when it is a zero or an infinity. *)
Lemma binary_round_aux_sign_all (sx : bool) (mx ex : Z) (lx : location) :
  match binary_round_aux prec emax sx mx ex lx with
  | S754_zero s | S754_infinity s | S754_finite s _ _ => s = sx
  | S754_nan => True
  end.
Proof.
  unfold binary_round_aux.
  destruct (shr_fexp prec emax mx ex lx) as [mrs' e'].
  destruct (shr_fexp prec emax _ e' loc_Exact) as [mrs'' e''].
  destruct (shr_m mrs''); try exact I; try reflexivity.
  destruct (e'' <=? emax - prec); reflexivity.
Qed.

Lemma binary_normalize_not_below (m e : Z) :
  0 <= m -> SFltb (binary_normalize prec emax m e false) (S754_zero false) = false.
Proof.
  intros Hm. unfold binary_normalize. destruct m as [|p|p]; [reflexivity | | lia].
  unfold binary_round. destruct (shl_align p e _) as [mz ez].
  pose proof (binary_round_aux_sign_all false (Z.pos mz) ez loc_Exact) as H.
  destruct (binary_round_aux prec emax false (Z.pos mz) ez loc_Exact) as [s|s| |s ? ?];
    try reflexivity; subst s; reflexivity.
Qed.

(** Subtracting 360 from a number that is at least 360 gives a number
    that is not below zero: the first loop has nothing to do on it. *)
Lemma sub_360_not_below (x : float) :
  (360 <=? x)%float = true -> (x - 360 <? 0)%float = false.
Proof.
  rewrite leb_spec, ltb_spec, sub_spec.
  pose proof (Prim2SF_valid x) as Hv.
  change (Prim2SF 360) with (S754_finite false 6333186975989760 (-44)).
  change (Prim2SF 0) with (S754_zero false).
  destruct (Prim2SF x) as [[|]|[|]| |[|] m e]; try reflexivity; try discriminate.
  unfold SFleb, SFcompare. intros Hle.
  unfold SF64sub, SFsub. apply binary_normalize_not_below. unfold cond_Zopp.
  change IntDef.Z.sub with Z.sub.
  destruct (Z.compare_spec (-44) e) as [He|He|He]; try discriminate.
  - subst e. rewrite Z.min_id.
    rewrite !shl_align_value by lia. rewrite Z.sub_diag. change (2 ^ 0) with 1.
    destruct (Pos.compare_cont Eq 6333186975989760 m) eqn:Hc; try discriminate.
    + apply Pos.compare_eq_iff in Hc. subst m. lia.
    + assert (Hlt : (6333186975989760 < m)%positive) by exact Hc. lia.
  - rewrite Z.min_r by lia. rewrite !shl_align_value by lia.
    rewrite Z.sub_diag. change (2 ^ 0) with 1.
    pose proof (valid_full_mantissa false m e Hv ltac:(lia)) as Hm.
    assert (2 ^ 1 <= 2 ^ (e - -44)) by (apply Z.pow_le_mono_r; lia).
    change (2 ^ 52) with 4503599627370496 in Hm. change (2 ^ 1) with 2 in H. nia.
Qed.

End FloatFacts.

(** *** The wind-direction label *)

Module CardinalFacts.
Import GoStrings GoFloat Ingest FloatFacts Examples.

Lemma normalizeUp_exit (fuel : nat) (d d1 : float) :
  normalizeUp fuel d = Some d1 -> (d1 <? 0)%float = false.
Proof.
  revert d. induction fuel as [|k IH]; intros d; simpl; [discriminate|].
  destruct (d <? 0)%float eqn:E; [apply IH|]. intros [= <-]. exact E.
Qed.

Lemma normalizeDown_exit (fuel : nat) (d d2 : float) :
  normalizeDown fuel d = Some d2 ->
  (360 <=? d2)%float = false /\
  (d2 = d \/ exists x, (360 <=? x)%float = true /\ d2 = (x - 360)%float).
Proof.
  revert d. induction fuel as [|k IH]; intros d; simpl; [discriminate|].
  destruct (360 <=? d)%float eqn:E.
  - intros H. destruct (IH _ H) as [H1 [-> | H2]]; split; auto.
    right. exists d. auto.
  - intros [= <-]. auto.
Qed.

Lemma normalizeUp_more (fuel k : nat) (d d1 : float) :
  normalizeUp fuel d = Some d1 -> normalizeUp (fuel + k) d = Some d1.
Proof.
  revert d. induction fuel as [|n IH]; intros d; simpl; [discriminate|].
  destruct (d <? 0)%float; [apply IH | auto].
Qed.

Lemma normalizeDown_more (fuel k : nat) (d d2 : float) :
  normalizeDown fuel d = Some d2 -> normalizeDown (fuel + k) d = Some d2.
Proof.
  revert d. induction fuel as [|n IH]; intros d; simpl; [discriminate|].
  destruct (360 <=? d)%float; [apply IH | auto].
Qed.

Lemma degreesToCardinal_more (fuel k : nat) (d : float) (s : string) :
  degreesToCardinal fuel d = Returns s -> degreesToCardinal (fuel + k) d = Returns s.
Proof.
  unfold degreesToCardinal.
  destruct (normalizeUp fuel d) as [d1|] eqn:E1; [|discriminate].
  destruct (normalizeDown fuel d1) as [d2|] eqn:E2; [|discriminate].
  rewrite (normalizeUp_more _ k _ _ E1), (normalizeDown_more _ k _ _ E2). auto.
Qed.

Lemma index_directions_in_range (i : Z) :
  0 <= i < 16 -> exists s, index_directions i = Returns s /\ In s directions.
Proof.
  intros H. unfold index_directions.
  destruct (Z.ltb_spec i 0); [lia|].
  destruct (nth_error directions (Z.to_nat i)) as [s|] eqn:E.
  - exists s. split; [reflexivity|]. eapply nth_error_In, E.
  - apply nth_error_None in E. simpl in E. lia.
Qed.

Lemma cardinalIndex_range (d : float) :
  not_neg_finite (Prim2SF d) = true -> 0 <= cardinalIndex d < 16.
Proof.
  intros H. unfold cardinalIndex.
  assert (Hs : not_neg_finite (Prim2SF ((d + 11.25) / 22.5)%float) = true).
  { rewrite div_spec, add_spec.
    change (Prim2SF 22.5) with (S754_finite false 6333186975989760 (-48)).
    change (Prim2SF 11.25) with (S754_finite false 6333186975989760 (-49)).
    apply div_pos_const_sign, add_pos_const_sign, H. }
  destruct (toInt_range _ Hs) as [-> | Hp].
  - change (Z.rem minInt64 16) with 0. lia.
  - apply Z.rem_bound_pos; lia.
Qed.

(** Once the loops are left the index is in range. *)
Lemma normalized_sign (fuel : nat) (d d1 d2 : float) :
  normalizeUp fuel d = Some d1 -> normalizeDown fuel d1 = Some d2 ->
  not_neg_finite (Prim2SF d2) = true.
Proof.
  intros H1 H2. apply normalizeUp_exit in H1.
  apply normalizeDown_exit in H2 as [_ [-> | (x & Hx & ->)]].
  - apply not_ltb_zero_sign, H1.
  - apply sub_360_sign, Hx.
Qed.

Lemma degreesToCardinal_cases (fuel : nat) (d : float) :
  degreesToCardinal fuel d = Spins \/
  exists s, degreesToCardinal fuel d = Returns s /\ In s directions.
Proof.
  unfold degreesToCardinal.
  destruct (normalizeUp fuel d) as [d1|] eqn:E1; [|auto].
  destruct (normalizeDown fuel d1) as [d2|] eqn:E2; [|auto].
  right. apply index_directions_in_range, cardinalIndex_range.
  eapply normalized_sign; eauto.
Qed.

Lemma labelOf_shift (d : float) (s : string) :
  (d <? 0)%float = true -> labelOf d s <-> labelOf (d + 360)%float s.
Proof.
  intros Hneg. unfold labelOf, degreesToCardinal. split; intros [fuel H].
  - destruct fuel as [|k]; [discriminate|]. exists (S k).
    simpl normalizeUp in H. rewrite Hneg in H.
    destruct (normalizeUp k (d + 360)) as [d1|] eqn:E1; [|discriminate].
    replace (S k) with (k + 1)%nat by lia.
    rewrite (normalizeUp_more _ 1 _ _ E1).
    replace (k + 1)%nat with (S k) by lia. exact H.
  - exists (S fuel). simpl normalizeUp. rewrite Hneg.
    destruct (normalizeUp fuel (d + 360)) as [d1|] eqn:E1; [|discriminate].
    destruct (normalizeDown fuel d1) as [d2|] eqn:E2; [|discriminate].
    replace (S fuel) with (fuel + 1)%nat by lia.
    rewrite (normalizeDown_more _ 1 _ _ E2). exact H.
Qed.

(** An input in [0, 360) leaves both loops at their first test. *)
Lemma degreesToCardinal_at_once (d : float) (fuel : nat) :
  (d <? 0)%float = false -> (360 <=? d)%float = false ->
  exists s, degreesToCardinal (S fuel) d = Returns s /\ In s directions.
Proof.
  intros H0 H360.
  destruct (degreesToCardinal_cases (S fuel) d) as [E | ?]; [|assumption].
  unfold degreesToCardinal in E. simpl in E. rewrite H0, H360 in E.
  destruct (index_directions_in_range (cardinalIndex d)) as (s & Hs & _).
  { apply cardinalIndex_range, not_ltb_zero_sign, H0. }
  congruence.
Qed.

Lemma leb_not_ltb_360 (d : float) :
  (360 <=? d)%float = true -> (360 <? d)%float = false -> d = 360%float.
Proof.
  rewrite leb_spec, ltb_spec. intros Hle Hlt.
  apply Prim2SF_inj.
  change (Prim2SF 360) with (S754_finite false 6333186975989760 (-44)) in *.
  destruct (Prim2SF d) as [[|]|[|]| |[|] m e]; try discriminate.
  unfold SFleb, SFltb, SFcompare in *.
  destruct (Z.compare_spec (-44) e) as [He|He|He]; try discriminate.
  subst e.
  destruct (Pos.compare_cont Eq 6333186975989760 m) eqn:Hc; try discriminate.
  apply Pos.compare_eq_iff in Hc. subst m. reflexivity.
Qed.

(** A direction within the turn is labelled after one turn of the second
    loop at most. *)
Lemma degreesToCardinal_inTurn (d : float) (fuel : nat) :
  inTurn d -> exists s, degreesToCardinal (S (S fuel)) d = Returns s /\ In s directions.
Proof.
  intros [H0 H360].
  destruct (360 <=? d)%float eqn:E.
  - rewrite (leb_not_ltb_360 d E H360).
    exists "N". split; [reflexivity | left; reflexivity].
  - apply degreesToCardinal_at_once; assumption.
Qed.

(** The second loop: a number of 360 or more is labelled as the number
    360 below it is, and fails to return when that one does. *)
Lemma labelOf_unshift (d : float) (s : string) :
  (360 <=? d)%float = true -> labelOf d s <-> labelOf (d - 360)%float s.
Proof.
  intros Hge.
  assert (Hpos : (d <? 0)%float = false).
  { rewrite leb_spec in Hge. rewrite ltb_spec.
    change (Prim2SF 360) with (S754_finite false 6333186975989760 (-44)) in Hge.
    change (Prim2SF 0) with (S754_zero false).
    destruct (Prim2SF d) as [[|]|[|]| |[|] m e]; try reflexivity; discriminate. }
  pose proof (sub_360_not_below d Hge) as Hsub.
  unfold labelOf, degreesToCardinal. split; intros [fuel H].
  - destruct fuel as [|k]; [discriminate|]. exists (S k).
    simpl normalizeUp in *. rewrite Hpos in H. rewrite Hsub.
    simpl normalizeDown in H. rewrite Hge in H.
    destruct (normalizeDown k (d - 360)) as [d2|] eqn:E2; [|discriminate].
    replace (S k) with (k + 1)%nat by lia.
    rewrite (normalizeDown_more _ 1 _ _ E2). exact H.
  - destruct fuel as [|k]; [discriminate|]. exists (S (S k)).
    simpl normalizeUp in *. rewrite Hsub in H. rewrite Hpos.
    change (normalizeDown (S (S k)) d)
      with (if (360 <=? d)%float then normalizeDown (S k) (d - 360)%float else Some d).
    rewrite Hge. exact H.
Qed.

Lemma normalizeDown_absorbing (fuel : nat) : normalizeDown fuel absorbing = None.
Proof. induction fuel as [|k IH]; [reflexivity | exact IH]. Qed.

(** C9, as stated, fails on the code: the second loop never ends on 2^70,
    and the labels of 11.25 - 2^-47 and of that number plus 360 differ. *)
Lemma degreesToCardinal_neither_total_nor_cyclic :
  loopsForever absorbing /\
  labelOf belowBoundary "N" /\
  labelOf (belowBoundary + 360)%float "NNE".
Proof.
  split; [|split].
  - intros fuel. unfold degreesToCardinal.
    destruct fuel as [|k]; [reflexivity|].
    change (normalizeUp (S k) absorbing) with (Some absorbing). cbv beta iota.
    rewrite (normalizeDown_absorbing (S k)). reflexivity.
  - exists 1%nat. vm_compute. reflexivity.
  - exists 2%nat. vm_compute. reflexivity.
Qed.

(** C9, amended. On [float64] the mapping never indexes out of range, and
    whatever it returns is one of the sixteen labels; it returns at once,
    without a turn of either loop, for every input in [0, 360), with the
    label of the sector the input lies in; and it is cyclic as far as its
    loops go: a negative input is labelled as the input plus 360 is, and
    an input of 360 or more as the input minus 360 is, the sum and the
    difference being those of [float64]; in both cases the two calls
    return the same label or both fail to return. *)
Theorem degreesToCardinal_label (d : float) :
  (forall fuel, degreesToCardinal fuel d <> Panics /\ degreesToCardinal fuel d <> Exits) /\
  (forall s, labelOf d s -> In s directions) /\
  ((d <? 0)%float = false -> (360 <=? d)%float = false ->
     forall fuel, exists s,
       degreesToCardinal (S fuel) d = Returns s /\ In s directions /\
       nth_error directions (Z.to_nat (cardinalIndex d)) = Some s) /\
  ((d <? 0)%float = true -> forall s, labelOf d s <-> labelOf (d + 360)%float s) /\
  ((360 <=? d)%float = true -> forall s, labelOf d s <-> labelOf (d - 360)%float s).
Proof.
  split; [|split; [|split; [|split]]].
  - intros fuel.
    destruct (degreesToCardinal_cases fuel d) as [-> | (s & -> & _)]; split; discriminate.
  - intros s [fuel H].
    destruct (degreesToCardinal_cases fuel d) as [E | (s' & E & Hin)]; congruence.
  - intros H0 H360 fuel.
    destruct (degreesToCardinal_at_once d fuel H0 H360) as (s & E & Hin).
    exists s. split; [exact E|]. split; [exact Hin|].
    unfold degreesToCardinal in E. simpl in E. rewrite H0, H360 in E.
    unfold index_directions in E.
    destruct (cardinalIndex d <? 0); [discriminate|].
    destruct (nth_error directions (Z.to_nat (cardinalIndex d))); congruence.
  - intros Hneg s. apply labelOf_shift, Hneg.
  - intros Hge s. apply labelOf_unshift, Hge.
Qed.

(** The theorem at 292.5 degrees, at -67.5 degrees and at 400 degrees:
    the first is labelled at once, the second after one turn of the first
    loop and the third after one turn of the second. *)
Lemma degreesToCardinal_label_witness :
  (exists s, degreesToCardinal 1 292.5%float = Returns s /\ In s directions /\
             nth_error directions (Z.to_nat (cardinalIndex 292.5%float)) = Some s) /\
  ((labelOf (-67.5)%float "WNW" <-> labelOf (-67.5 + 360)%float "WNW") /\
   labelOf (-67.5)%float "WNW") /\
  ((labelOf 400%float "NE" <-> labelOf (400 - 360)%float "NE") /\
   labelOf 400%float "NE").
Proof.
  split; [|split].
  - exact (proj1 (proj2 (proj2 (degreesToCardinal_label 292.5%float))) eq_refl eq_refl 0%nat).
  - pose proof (proj1 (proj2 (proj2 (proj2 (degreesToCardinal_label (-67.5)%float))))
                  eq_refl "WNW") as H.
    split; [exact H|]. apply H. exists 1%nat. vm_compute. reflexivity.
  - pose proof (proj2 (proj2 (proj2 (proj2 (degreesToCardinal_label 400%float))))
                  eq_refl "NE") as H.
    split; [exact H|]. apply H. exists 1%nat. vm_compute. reflexivity.
Defined.

End CardinalFacts.

(** *** The calendar: formatting a time and parsing it back *)

Module TimeFacts.
Import GoStrings GoTime.

Ltac zdiv := Z.div_mod_to_equations; lia.

Lemma isLeap_cases (y : Z) :
  (isLeap y = true /\ (y mod 4 = 0 /\ (y mod 100 <> 0 \/ y mod 400 = 0))) \/
  (isLeap y = false /\ (y mod 4 <> 0 \/ (y mod 100 = 0 /\ y mod 400 <> 0))).
Proof.
  unfold isLeap.
  destruct (Z.eqb_spec (y mod 4) 0), (Z.eqb_spec (y mod 100) 0),
    (Z.eqb_spec (y mod 400) 0); simpl; intuition lia.
Qed.

Lemma daysInYear_bounds (y : Z) : 365 <= daysInYear y <= 366.
Proof. unfold daysInYear. destruct (isLeap y); lia. Qed.

Lemma daysBeforeYear_succ (y : Z) :
  daysBeforeYear (y + 1) = daysBeforeYear y + daysInYear y.
Proof.
  unfold daysBeforeYear, daysInYear.
  replace (y + 1 - 1) with y by lia.
  destruct (isLeap_cases y) as [[-> H] | [-> H]]; zdiv.
Qed.

Lemma daysBeforeYear_pred (y : Z) :
  daysBeforeYear (y - 1) = daysBeforeYear y - daysInYear (y - 1).
Proof.
  pose proof (daysBeforeYear_succ (y - 1)) as H.
  replace (y - 1 + 1) with y in H by lia. lia.
Qed.

Lemma daysBeforeYear_mono (y z : Z) : y <= z -> daysBeforeYear y <= daysBeforeYear z.
Proof. unfold daysBeforeYear. intros H. zdiv. Qed.

Lemma yearOf_spec (fuel : nat) (y d : Z) :
  - 365 * Z.of_nat fuel <= d < 365 * Z.of_nat fuel + daysInYear y ->
  daysBeforeYear (yearOf fuel y d).1 + (yearOf fuel y d).2 = daysBeforeYear y + d /\
  0 <= (yearOf fuel y d).2 < daysInYear (yearOf fuel y d).1.
Proof.
  revert y d. induction fuel as [|k IH]; intros y d H.
  - simpl. lia.
  - simpl yearOf.
    pose proof (daysInYear_bounds y). pose proof (daysInYear_bounds (y - 1)).
    pose proof (daysInYear_bounds (y + 1)).
    destruct (Z.ltb_spec d 0).
    + destruct (IH (y - 1) (d + daysInYear (y - 1))) as [E R]; [lia|].
      rewrite E, daysBeforeYear_pred. split; [lia | exact R].
    + destruct (Z.ltb_spec d (daysInYear y)).
      * simpl. lia.
      * destruct (IH (y + 1) (d - daysInYear y)) as [E R]; [lia|].
        rewrite E, daysBeforeYear_succ. split; [lia | exact R].
Qed.

Lemma monthOf_spec (y yd : Z) :
  0 <= yd < daysInYear y ->
  1 <= (monthOf 11 y 1 yd).1 <= 12 /\
  0 <= (monthOf 11 y 1 yd).2 < daysIn y (monthOf 11 y 1 yd).1 /\
  daysBeforeMonth y (monthOf 11 y 1 yd).1 + (monthOf 11 y 1 yd).2 = yd.
Proof.
  unfold daysInYear, monthOf, daysIn, daysBeforeMonth.
  destruct (isLeap y); intros H; simpl;
    repeat match goal with
    | |- context [?a <? ?b] => destruct (Z.ltb_spec a b); [simpl; lia|]
    end; simpl; lia.
Qed.

(** The day number of a date is the day the date was computed from. *)
Lemma civil_spec (days : Z) :
  let '(y, m, d) := civil days in
  daysBeforeYear y + daysBeforeMonth y m + (d - 1) = days /\
  1 <= m <= 12 /\ 1 <= d <= daysIn y m.
Proof.
  unfold civil.
  pose proof (yearOf_spec (Z.to_nat (Z.abs days / 365 + 1)) 1 days) as Hy.
  destruct (yearOf _ 1 days) as [y yd]. simpl in Hy.
  destruct Hy as [E R].
  { pose proof (daysInYear_bounds 1).
    rewrite Z2Nat.id by zdiv. zdiv. }
  pose proof (monthOf_spec y yd R) as Hm.
  destruct (monthOf 11 y 1 yd) as [m md]. simpl in Hm.
  change (daysBeforeYear 1) with 0 in E. lia.
Qed.

Lemma civil_year_range (days : Z) :
  0 <= days < daysBeforeYear 10000 -> 1 <= (civil days).1.1 <= 9999.
Proof.
  intros H. pose proof (civil_spec days) as S.
  destruct (civil days) as [[y m] d]. simpl. destruct S as (E & Hm & Hd).
  assert (0 <= daysBeforeMonth y m <= 335).
  { unfold daysBeforeMonth. destruct (isLeap y);
      assert (m = 1 \/ m = 2 \/ m = 3 \/ m = 4 \/ m = 5 \/ m = 6 \/ m = 7 \/ m = 8 \/
              m = 9 \/ m = 10 \/ m = 11 \/ m = 12) as Hc by lia;
      repeat (destruct Hc as [-> | Hc]; [lia|]); subst m; lia. }
  assert (d <= 31).
  { unfold daysIn in Hd. destruct (isLeap y);
      assert (m = 1 \/ m = 2 \/ m = 3 \/ m = 4 \/ m = 5 \/ m = 6 \/ m = 7 \/ m = 8 \/
              m = 9 \/ m = 10 \/ m = 11 \/ m = 12) as Hc by lia;
      repeat (destruct Hc as [-> | Hc]; [lia|]); subst m; lia. }
  split.
  - destruct (Z.le_gt_cases 1 y); [assumption|].
    pose proof (daysBeforeYear_mono y 0 ltac:(lia)) as Hmono.
    change (daysBeforeYear 0) with (-366) in Hmono. lia.
  - destruct (Z.le_gt_cases y 9999); [assumption|].
    pose proof (daysBeforeYear_mono 10000 y ltac:(lia)). lia.
Qed.

Lemma digit_of_digit_char (d : Z) : 0 <= d <= 9 -> digit_of (digit_char d) = Some d.
Proof.
  intros H.
  assert (d = 0 \/ d = 1 \/ d = 2 \/ d = 3 \/ d = 4 \/ d = 5 \/ d = 6 \/ d = 7 \/
          d = 8 \/ d = 9) as Hc by lia.
  repeat (destruct Hc as [-> | Hc]; [reflexivity|]). subst d. reflexivity.
Qed.

Lemma getnum2_pad2 (n : Z) (rest : string) :
  0 <= n < 100 -> getnum2 (pad2 n rest) = Some (n, rest).
Proof.
  intros H. unfold getnum2, pad2.
  rewrite !digit_of_digit_char by zdiv. f_equal. f_equal. zdiv.
Qed.

Lemma getnum12_pad2 (n : Z) (rest : string) :
  0 <= n < 100 -> getnum12 (pad2 n rest) = Some (n, rest).
Proof.
  intros H. unfold getnum12, pad2.
  rewrite !digit_of_digit_char by zdiv. f_equal. f_equal. zdiv.
Qed.

Lemma pad4_small (y : Z) (rest : string) :
  0 <= y < 10000 -> pad4 y rest = pad2 (y / 100) (pad2 (y mod 100) rest).
Proof.
  intros H. unfold pad4.
  destruct (Z.ltb_spec y 0); [lia|]. rewrite Z.abs_eq by lia.
  destruct (Z.ltb_spec y 10000); [|lia].
  unfold pad2.
  assert (y / 1000 mod 10 = y / 100 / 10 mod 10) as -> by zdiv.
  assert (y / 10 mod 10 = y mod 100 / 10 mod 10) as -> by zdiv.
  assert (y mod 10 = y mod 100 mod 10) as -> by zdiv.
  reflexivity.
Qed.

Lemma getyear_pad4 (y : Z) (rest : string) :
  0 <= y < 10000 -> getyear (pad4 y rest) = Some (y, rest).
Proof.
  intros H. rewrite pad4_small by assumption. unfold getyear.
  rewrite getnum2_pad2 by zdiv. rewrite getnum2_pad2 by zdiv.
  f_equal. f_equal. zdiv.
Qed.

Lemma bind_Some {A B : Type} (x : A) (f : A -> option B) : (Some x ≫= f) = f x.
Proof. reflexivity. Qed.

Ltac step := rewrite bind_Some; cbv beta iota.

Lemma expect_here (c : ascii) (rest : string) : expect c (String c rest) = Some rest.
Proof. unfold expect. rewrite Ascii.eqb_refl. reflexivity. Qed.

Lemma skipSpace_pad2 (n : Z) (rest : string) :
  0 <= n < 100 -> skipSpace (String " " (pad2 n rest)) = Some (pad2 n rest).
Proof.
  intros H. unfold pad2.
  assert (0 <= n / 10 mod 10 <= 9) as Hd by zdiv.
  assert (n / 10 mod 10 = 0 \/ n / 10 mod 10 = 1 \/ n / 10 mod 10 = 2 \/
          n / 10 mod 10 = 3 \/ n / 10 mod 10 = 4 \/ n / 10 mod 10 = 5 \/
          n / 10 mod 10 = 6 \/ n / 10 mod 10 = 7 \/ n / 10 mod 10 = 8 \/
          n / 10 mod 10 = 9) as Hc by lia.
  repeat (destruct Hc as [-> | Hc]; [reflexivity|]). rewrite Hc. reflexivity.
Qed.

Lemma minuteOf_split (t : Time) :
  let mi := minuteOf t in
  ((mi / 1440) * 24 + mi / 60 mod 24) * 60 + mi mod 60 = mi /\
  0 <= mi / 60 mod 24 < 24 /\ 0 <= mi mod 60 < 60.
Proof. cbv zeta. zdiv. Qed.

Lemma minuteOf_day_range (t : Time) :
  0 <= t < endOfYears -> 0 <= minuteOf t / 1440 < daysBeforeYear 10000.
Proof.
  unfold endOfYears, minuteOf, Day, Hour, Minute, Second.
  change (daysBeforeYear 10000) with 3652059. intros H. zdiv.
Qed.

(** Parsing a formatted time gives the time back, cut to the minute. *)
Lemma ParseMinute_FormatMinute (t : Time) :
  0 <= t < endOfYears -> ParseMinute (FormatMinute t) = Some (truncMinute t).
Proof.
  intros Ht. unfold FormatMinute, ParseMinute.
  pose proof (minuteOf_day_range t Ht) as Hd.
  pose proof (civil_spec (minuteOf t / 1440)) as S.
  pose proof (civil_year_range _ Hd) as Y.
  destruct (civil (minuteOf t / 1440)) as [[y m] d]. simpl in Y.
  destruct S as (E & Hm & Hday).
  pose proof (minuteOf_split t) as (Hs & Hh & Hmi). cbv zeta in *.
  assert (d <= 31).
  { unfold daysIn in Hday. destruct (isLeap y);
      assert (m = 1 \/ m = 2 \/ m = 3 \/ m = 4 \/ m = 5 \/ m = 6 \/ m = 7 \/ m = 8 \/
              m = 9 \/ m = 10 \/ m = 11 \/ m = 12) as Hc by lia;
      repeat (destruct Hc as [-> | Hc]; [lia|]); subst m; lia. }
  rewrite getyear_pad4 by lia. step.
  rewrite expect_here. step. rewrite getnum2_pad2 by lia. step.
  rewrite expect_here. step. rewrite getnum2_pad2 by lia. step.
  rewrite skipSpace_pad2 by lia. step. rewrite getnum12_pad2 by lia. step.
  rewrite expect_here. step. rewrite getnum2_pad2 by lia. step.
  unfold fields_ok.
  repeat match goal with
  | |- context [?a <=? ?b] => destruct (Z.leb_spec a b); [|lia]
  | |- context [?a <? ?b] => destruct (Z.ltb_spec a b); [|lia]
  end. simpl. f_equal. unfold Date, truncMinute. rewrite E. f_equal. exact Hs.
Qed.

(** Two times of one minute format alike. *)
Lemma FormatMinute_minuteOf (t u : Time) :
  minuteOf t = minuteOf u -> FormatMinute t = FormatMinute u.
Proof. unfold FormatMinute. intros ->. reflexivity. Qed.


Lemma digit_of_inv (c : ascii) (d : Z) :
  digit_of c = Some d -> 0 <= d <= 9 /\ digit_char d = c.
Proof.
  unfold digit_of, digit_char.
  destruct (Z.leb_spec 48 (Z.of_nat (nat_of_ascii c))); [|discriminate].
  destruct (Z.leb_spec (Z.of_nat (nat_of_ascii c)) 57); [|discriminate].
  simpl. intros [= <-]. split; [lia|].
  replace (48 + (Z.of_nat (nat_of_ascii c) - 48)) with (Z.of_nat (nat_of_ascii c)) by lia.
  rewrite Nat2Z.id. apply ascii_nat_embedding.
Qed.

Lemma pad2_of_digits (a b : ascii) (x y : Z) (rest : string) :
  digit_of a = Some x -> digit_of b = Some y ->
  String a (String b rest) = pad2 (10 * x + y) rest /\ 0 <= 10 * x + y < 100.
Proof.
  intros [Hx <-]%digit_of_inv [Hy <-]%digit_of_inv. unfold pad2. split; [|lia].
  assert ((10 * x + y) / 10 mod 10 = x) as -> by zdiv.
  assert ((10 * x + y) mod 10 = y) as -> by zdiv. reflexivity.
Qed.

Lemma pad2_app (n : Z) (rest s : string) : pad2 n rest +:+ s = pad2 n (rest +:+ s).
Proof. reflexivity. Qed.

Lemma pad4_app (y : Z) (rest s : string) :
  0 <= y < 10000 -> pad4 y rest +:+ s = pad4 y (rest +:+ s).
Proof. intros H. rewrite !pad4_small by assumption. reflexivity. Qed.

Lemma Date_dayStart (t : Time) (hh : Z) :
  let '(y, m, d) := civil (minuteOf t / 1440) in
  Date y m d hh 0 = dayStart t + hh * Hour.
Proof.
  pose proof (civil_spec (minuteOf t / 1440)) as S.
  destruct (civil (minuteOf t / 1440)) as [[y m] d]. destruct S as (E & _).
  unfold Date, dayStart. rewrite E. unfold Day, Hour, Minute. lia.
Qed.

(** What the cycle-time parse accepts: after today's date, two digits that
    make an hour below 24; the result is that hour of today. *)
Lemma ParseCompact_cycle (now : Time) (cycleHour : string) (cycleTime : Time) :
  0 <= now < endOfYears ->
  ParseCompact (FormatDate now +:+ cycleHour +:+ "00") = Some cycleTime ->
  exists hh, cycleHour = pad2 hh "" /\ 0 <= hh < 24 /\
             cycleTime = dayStart now + hh * Hour.
Proof.
  intros Ht. unfold FormatDate, ParseCompact.
  pose proof (minuteOf_day_range now Ht) as Hd.
  pose proof (civil_spec (minuteOf now / 1440)) as S.
  pose proof (civil_year_range _ Hd) as Y.
  pose proof (Date_dayStart now) as HD.
  destruct (civil (minuteOf now / 1440)) as [[y m] d]. simpl in Y.
  destruct S as (E & Hm & Hday).
  assert (d <= 31).
  { unfold daysIn in Hday. destruct (isLeap y);
      assert (m = 1 \/ m = 2 \/ m = 3 \/ m = 4 \/ m = 5 \/ m = 6 \/ m = 7 \/ m = 8 \/
              m = 9 \/ m = 10 \/ m = 11 \/ m = 12) as Hc by lia;
      repeat (destruct Hc as [-> | Hc]; [lia|]); subst m; lia. }
  rewrite pad4_app, !pad2_app by lia.
  change ("" +:+ cycleHour +:+ "00") with (cycleHour +:+ "00").
  rewrite getyear_pad4 by lia. step.
  rewrite getnum2_pad2 by lia. step.
  rewrite getnum2_pad2 by lia. step.
  destruct cycleHour as [|a [|b [|c r]]].
  - discriminate.
  - unfold getnum12. change (String a "" +:+ "00") with (String a "00").
    simpl. destruct (digit_of a); simpl; discriminate.
  - change (String a (String b "") +:+ "00") with (String a (String b "00")).
    unfold getnum12.
    destruct (digit_of a) as [x|] eqn:Ea; [|discriminate].
    destruct (digit_of b) as [z|] eqn:Eb.
    + step. change (getnum2 "00") with (Some (0, "")). step.
      destruct (pad2_of_digits a b x z "" Ea Eb) as [-> Hr].
      destruct (fields_ok y m d (10 * x + z) 0) eqn:F; [|discriminate].
      intros [= <-]. exists (10 * x + z). split; [reflexivity|].
      unfold fields_ok in F. rewrite !andb_true_iff in F.
      destruct F as [[_ F] _]. apply Z.ltb_lt in F.
      split; [lia|]. apply HD.
    + step. unfold getnum2. rewrite Eb. discriminate.
  - change (String a (String b (String c r)) +:+ "00")
      with (String a (String b (String c (r +:+ "00")))).
    unfold getnum12.
    destruct (digit_of a) as [x|] eqn:Ea; [|discriminate].
    destruct (digit_of b) as [z|] eqn:Eb.
    + step. unfold getnum2.
      destruct r as [|e r'].
      * change ("" +:+ "00") with "00".
        destruct (digit_of c); [|discriminate]. simpl. discriminate.
      * change (String e r' +:+ "00") with (String e (r' +:+ "00")).
        destruct (digit_of c); [|discriminate].
        destruct (digit_of e); [|discriminate]. step.
        destruct r'; discriminate.
    + step. unfold getnum2. rewrite Eb. discriminate.
Qed.

End TimeFacts.

(** *** The reference library meets the contracts *)

Module RefLibFacts.
Import RefLib.

Lemma sink_perm {A : Type} (less : A -> A -> bool) (x : A) (r : list A) :
  sink less x r ≡ₚ x :: r.
Proof.
  induction r as [|y r IH]; simpl; [reflexivity|].
  destruct (less x y); [|reflexivity].
  rewrite IH. apply Permutation_swap.
Qed.

Lemma insertionSort_perm {A : Type} (less : A -> A -> bool) (l : list A) :
  insertionSort less l ≡ₚ l.
Proof.
  unfold insertionSort.
  assert (G : forall acc, fold_left (fun r x => sink less x r) l acc ≡ₚ l ++ acc).
  { induction l as [|x l IH]; intros acc; simpl; [reflexivity|].
    rewrite IH, sink_perm. symmetry. apply Permutation_middle. }
  rewrite <- Permutation_rev, G, app_nil_r. reflexivity.
Qed.

(** The prefix read from its end is in descending order of keys. *)
Lemma sink_sorted {A : Type} (key : A -> Z) (x : A) (r : list A) :
  Sorted (fun a b => key b <= key a) r ->
  Sorted (fun a b => key b <= key a) (sink (fun a b => key a <? key b) x r).
Proof.
  induction r as [|y r IH]; intros S; simpl.
  - repeat constructor.
  - destruct (Z.ltb_spec (key x) (key y)).
    + apply Sorted_inv in S as [S Hd]. constructor; [apply IH, S|].
      destruct r as [|z r]; simpl.
      * constructor. lia.
      * destruct (Z.ltb_spec (key x) (key z)); constructor.
        -- inversion Hd; subst. assumption.
        -- lia.
    + constructor; [assumption|]. constructor. assumption.
Qed.

Lemma StronglySorted_snoc {A : Type} (key : A -> Z) (l : list A) (a : A) :
  StronglySorted (fun x y => key x <= key y) l ->
  List.Forall (fun b => key b <= key a) l ->
  StronglySorted (fun x y => key x <= key y) (l ++ [a]).
Proof.
  induction 1 as [|b l S IH Hb]; intros Hall; simpl.
  - repeat constructor.
  - inversion Hall; subst. constructor; [apply IH; assumption|].
    apply List.Forall_app. split; [assumption|]. repeat constructor. assumption.
Qed.

Lemma Sorted_rev_key {A : Type} (key : A -> Z) (r : list A) :
  Sorted (fun a b => key b <= key a) r -> Sorted (fun a b => key a <= key b) (rev r).
Proof.
  intros S. apply Sorted_StronglySorted in S; [|intros a b c; lia].
  apply StronglySorted_Sorted.
  induction S as [|a r S IH Hall]; simpl; [constructor|].
  apply StronglySorted_snoc; [exact IH|]. apply List.Forall_rev. exact Hall.
Qed.

Lemma insertionSort_sorted {A : Type} (key : A -> Z) (l : list A) :
  Sorted (fun a b => key a <= key b) (insertionSort (fun a b => key a <? key b) l).
Proof.
  unfold insertionSort. apply Sorted_rev_key.
  assert (G : forall acc, Sorted (fun a b => key b <= key a) acc ->
            Sorted (fun a b => key b <= key a)
              (fold_left (fun r x => sink (fun a b => key a <? key b) x r) l acc)).
  { induction l as [|x l IH]; intros acc S; simpl; [assumption|].
    apply IH, sink_sorted, S. }
  apply G. constructor.
Qed.

End RefLibFacts.

(** The reference library as an instance of the interface. *)
#[global] Instance refLib : GoLib := {|
  ParseFloat := RefLib.parseFloat;
  Atan2 := RefLib.atan2;
  sortSlice := @RefLib.insertionSort;
  mapRange := fun V m => map_to_list m;
  sortSlice_perm := @RefLibFacts.insertionSort_perm;
  sortSlice_sorted := @RefLibFacts.insertionSort_sorted;
  mapRange_perm := fun V m => reflexivity _
|}.

(** *** The ingest engine *)

Module IngestFacts.
Import GoStrings GoTime GoFloat Ingest TimeFacts CardinalFacts.

Section Engine.
Context {lib : GoLib}.

Lemma wrap64_range (z : Z) : - 2 ^ 63 <= wrap64 z < 2 ^ 63.
Proof. unfold wrap64. pose proof (Z.mod_pos_bound (z + 2 ^ 63) (2 ^ 64)). lia. Qed.

Lemma wrap64_small (z : Z) : - 2 ^ 63 <= z < 2 ^ 63 -> wrap64 z = z.
Proof. intros H. unfold wrap64. rewrite Z.mod_small; lia. Qed.

(** Up to 2562047 hours the duration does not wrap around. *)
Lemma hours_small (h : Z) : 0 <= h <= 2562047 -> hours h = h * Hour.
Proof.
  intros H. unfold hours. apply wrap64_small. unfold Hour, Minute, Second. lia.
Qed.

Lemma dayStart_bounds (t : Time) : dayStart t <= t < dayStart t + Day.
Proof. unfold dayStart, minuteOf, Day, Hour, Minute, Second. zdiv. Qed.

Lemma parseOutput_stamp (stamp : Time) (output : string) (data : ForecastData) :
  parseOutput stamp output = Ok data -> Timestamp data = stamp.
Proof.
  unfold parseOutput.
  destruct (length _ <? 4)%nat; [discriminate|].
  repeat (destruct (ParseFloat _) as [? []]; [discriminate|]).
  intros [= <-]. reflexivity.
Qed.

Lemma processGFSFile_inv (w : World) (file : string) (lon lat : float) (data : ForecastData) :
  processGFSFile w file lon lat = Ok data ->
  exists cycleTime output,
    (5 <= length (Split1 "." (Base file)))%nat /\
    cycleTimeOf (clock w file) (Split1 "." (Base file)) = Some cycleTime /\
    0 <= getForecastHour file /\
    decoder w file lon lat = Prints output /\
    parseOutput (Add cycleTime (hours (getForecastHour file))) output = Ok data.
Proof.
  unfold processGFSFile.
  destruct (Nat.ltb_spec (length (Split1 "." (Base file))) 5); [discriminate|].
  destruct (cycleTimeOf _ _) as [cycleTime|]; [|discriminate].
  destruct (Z.ltb_spec (getForecastHour file) 0); [discriminate|].
  destruct (decoder w file lon lat) as [| | | |output]; try discriminate.
  intros H'. exists cycleTime, output. auto.
Qed.

(** The timestamp of a sample: the hour of the cycle, on the day the clock
    shows while the file is processed, plus the forecast hours. *)
Lemma processGFSFile_stamp (w : World) (file : string) (lon lat : float) (data : ForecastData) :
  0 <= clock w file < endOfYears ->
  processGFSFile w file lon lat = Ok data ->
  exists hh,
    TrimSuffix (TrimPrefix (nth 1 (Split1 "." (Base file)) "") "t") "z" = pad2 hh "" /\
    0 <= hh < 24 /\ 0 <= getForecastHour file /\
    Timestamp data = dayStart (clock w file) + hh * Hour + hours (getForecastHour file).
Proof.
  intros Hc (cycleTime & output & _ & Hct & Hh & _ & Hp)%processGFSFile_inv.
  apply parseOutput_stamp in Hp. unfold cycleTimeOf in Hct.
  apply ParseCompact_cycle in Hct as (hh & E & R & ->); [|assumption].
  exists hh. unfold Add in Hp. auto.
Qed.

Lemma processGFSFile_stamp_range (w : World) (file : string) (lon lat : float)
  (data : ForecastData) :
  clockInRange (clock w file) ->
  processGFSFile w file lon lat = Ok data ->
  0 <= Timestamp data < endOfYears.
Proof.
  intros [Hlo Hhi] H.
  assert (Hc : 0 <= clock w file < endOfYears).
  { unfold Day, Hour, Minute, Second in *. lia. }
  destruct (processGFSFile_stamp _ _ _ _ _ Hc H) as (hh & _ & Hh & _ & ->).
  pose proof (dayStart_bounds (clock w file)).
  pose proof (wrap64_range (getForecastHour file * Hour)).
  unfold hours. unfold Day, Hour, Minute, Second in *. lia.
Qed.

Lemma toOutput_inv (fuel : nat) (f : ForecastData) (o : ForecastOutput) :
  toOutput fuel f = Returns o ->
  oTimestamp o = FormatMinute (Timestamp f) /\
  TempC o = (Temp2m f - 273.15)%float /\
  GustKt o = (WindGust f * 1.94384)%float /\
  WindKt o = (PrimFloat.sqrt (UWind10m f * UWind10m f + VWind10m f * VWind10m f)
              * 1.94384)%float /\
  degreesToCardinal fuel (windDirOf f) = Returns (Direction o).
Proof.
  unfold toOutput.
  destruct (degreesToCardinal fuel (windDirOf f)) as [s| | |]; try discriminate.
  intros [= <-]. simpl. auto.
Qed.

Lemma mergeAll_inv (fuel : nat) (forecasts : list ForecastData)
  (m m' : gmap string ForecastOutput) :
  mergeAll fuel forecasts m = Returns m' ->
  exists outs, Forall2 (fun f o => toOutput fuel f = Returns o) forecasts outs /\
               m' = foldl overwrite m outs.
Proof.
  revert m. induction forecasts as [|f rest IH]; intros m; simpl.
  - intros [= <-]. exists []. split; [constructor | reflexivity].
  - destruct (toOutput fuel f) as [o| | |] eqn:E; try discriminate.
    intros (outs & F & ->)%IH. exists (o :: outs). split; [constructor; assumption | reflexivity].
Qed.

Lemma mergeAll_total (fuel : nat) (forecasts : list ForecastData)
  (m : gmap string ForecastOutput) :
  Forall (fun f => exists o, toOutput fuel f = Returns o) forecasts ->
  exists m', mergeAll fuel forecasts m = Returns m'.
Proof.
  intros F. revert m. induction F as [|f rest [o E] _ IH]; intros m; simpl.
  - eauto.
  - rewrite E. apply IH.
Qed.

Lemma foldl_overwrite_lookup (outs : list ForecastOutput) (m : gmap string ForecastOutput)
  (k : string) (v : ForecastOutput) :
  foldl overwrite m outs !! k = Some v ->
  (v ∈ outs /\ oTimestamp v = k) \/ m !! k = Some v.
Proof.
  revert m. induction outs as [|o outs IH]; intros m; simpl; [auto|].
  intros [[Hin E] | H]%IH.
  - left. split; [right; assumption | assumption].
  - unfold overwrite in H. destruct (decide (oTimestamp o = k)) as [<- | Hne].
    + rewrite lookup_insert_eq in H. injection H as <-. left. split; [left | reflexivity].
    + rewrite lookup_insert_ne in H by assumption. auto.
Qed.

Lemma foldl_overwrite_last (outs : list ForecastOutput) (m : gmap string ForecastOutput)
  (k : string) (v : ForecastOutput) :
  foldl overwrite m outs !! k = Some v ->
  (exists pre post, outs = (pre ++ v :: post)%list /\ oTimestamp v = k /\
                    Forall (fun o => oTimestamp o <> k) post) \/
  (m !! k = Some v /\ Forall (fun o => oTimestamp o <> k) outs).
Proof.
  revert m. induction outs as [|o outs IH]; intros m; simpl; [auto|].
  intros [(pre & post & -> & E & Fp) | [Hm Fo]]%IH.
  - left. exists (o :: pre), post. auto.
  - unfold overwrite in Hm. destruct (decide (oTimestamp o = k)) as [<- | Hne].
    + rewrite lookup_insert_eq in Hm. injection Hm as <-.
      left. exists [], outs. auto.
    + rewrite lookup_insert_ne in Hm by assumption. auto.
Qed.

Lemma foldl_overwrite_covers (outs : list ForecastOutput) (m : gmap string ForecastOutput)
  (k : string) :
  is_Some (m !! k) \/ (exists o, o ∈ outs /\ oTimestamp o = k) ->
  is_Some (foldl overwrite m outs !! k).
Proof.
  revert m. induction outs as [|o outs IH]; intros m; simpl.
  - intros [H | (o & Hin & _)]; [assumption|]. inversion Hin.
  - intros H. apply IH. unfold overwrite.
    destruct (decide (oTimestamp o = k)) as [<- | Hne].
    + left. rewrite lookup_insert_eq. eauto.
    + rewrite lookup_insert_ne by assumption.
      destruct H as [H | (o' & Hin & E)]; [auto|].
      apply elem_of_cons in Hin as [-> | Hin]; [contradiction|]. right. eauto.
Qed.

Lemma keys_of_values (m : gmap string ForecastOutput) :
  (forall k v, m !! k = Some v -> oTimestamp v = k) ->
  oTimestamp <$> (map_to_list m).*2 = (map_to_list m).*1.
Proof.
  intros H.
  assert (F : Forall (fun kv => oTimestamp kv.2 = kv.1) (map_to_list m)).
  { apply Forall_forall. intros [k v] Hin. apply elem_of_map_to_list in Hin. apply H, Hin. }
  induction F as [|[k v] l E _ IH]; [reflexivity|].
  rewrite !fmap_cons. simpl in *. rewrite E, IH. reflexivity.
Qed.

Lemma Ingest_inv (w : World) (sched : list nat) (fuel : nat) (lon lat : float)
  (out : list ForecastOutput) (err : option IngestError) :
  Ingest w sched fuel lon lat = Returns (out, err) ->
  exists files timestampMap,
    lookPath_ok w = true /\ glob w = Some files /\
    mergeAll fuel
      (sortSlice (fun a b => Timestamp a <? Timestamp b)
         (collect w (sortSlice (fun a b => getForecastHour a <? getForecastHour b) files)
            sched lon lat)) ∅ = Returns timestampMap /\
    out = sortSlice (fun a b => parsedTime a <? parsedTime b) (mapRange timestampMap).*2 /\
    err = None.
Proof.
  unfold Ingest. destruct (lookPath_ok w); [|discriminate]. simpl.
  destruct (glob w) as [files|]; [|discriminate].
  destruct (mergeAll _ _ _) as [tm| | |] eqn:E; try discriminate.
  simpl. intros [= <- <-]. exists files, tm. auto.
Qed.

(** A sample is collected exactly when a scheduled file is processed
    without error. *)
Lemma elem_of_collect (w : World) (files : list string) (sched : list nat)
  (lon lat : float) (data : ForecastData) :
  data ∈ collect w files sched lon lat <->
  exists i file, i ∈ sched /\ files !! i = Some file /\
                 processGFSFile w file lon lat = Ok data.
Proof.
  unfold collect. rewrite list_elem_of_In, in_flat_map. split.
  - intros (i & Hi & Hin). apply list_elem_of_In in Hi.
    destruct (files !! i) as [file|] eqn:E; [|inversion Hin].
    destruct (processGFSFile w file lon lat) as [d|] eqn:P; [|inversion Hin].
    destruct Hin as [<- | []]. eauto.
  - intros (i & file & Hi & E & P). exists i. split; [apply list_elem_of_In, Hi|].
    rewrite E, P. left. reflexivity.
Qed.


(** Where the points of the output come from: each is the output record
    of a sample some scheduled file gave without error. *)
Lemma Ingest_outputs (w : World) (sched : list nat) (fuel : nat) (lon lat : float)
  (out : list ForecastOutput) (err : option IngestError) (files : list string) :
  glob w = Some files ->
  Ingest w sched fuel lon lat = Returns (out, err) ->
  Forall (fun o => exists i file data,
            i ∈ sched /\ file ∈ files /\
            sortSlice (fun a b => getForecastHour a <? getForecastHour b) files !! i
              = Some file /\
            processGFSFile w file lon lat = Ok data /\
            toOutput fuel data = Returns o) out.
Proof.
  intros G (files' & tm & _ & G' & M & -> & _)%Ingest_inv.
  assert (files' = files) as -> by congruence.
  apply mergeAll_inv in M as (outs & F & ->).
  apply Forall_forall. intros o Ho.
  rewrite sortSlice_perm, mapRange_perm in Ho.
  apply list_elem_of_fmap in Ho as ([k v] & -> & Hkv). simpl.
  apply elem_of_map_to_list in Hkv.
  apply foldl_overwrite_lookup in Hkv as [[Hin _] | Hkv];
    [|rewrite lookup_empty in Hkv; discriminate].
  apply list_elem_of_lookup in Hin as [j Hj].
  destruct (Forall2_lookup_r _ _ _ _ _ F Hj) as (data & Hd & Ht).
  apply list_elem_of_lookup_2 in Hd. rewrite sortSlice_perm in Hd.
  apply elem_of_collect in Hd as (i & file & Hi & Hf & Hp).
  exists i, file, data. repeat split; try assumption.
  apply list_elem_of_lookup_2 in Hf. rewrite sortSlice_perm in Hf. exact Hf.
Qed.

Lemma Ingest_keys (w : World) (sched : list nat) (fuel : nat) (lon lat : float)
  (out : list ForecastOutput) (err : option IngestError) :
  Ingest w sched fuel lon lat = Returns (out, err) ->
  NoDup (oTimestamp <$> out).
Proof.
  intros (files & tm & _ & _ & M & -> & _)%Ingest_inv.
  apply mergeAll_inv in M as (outs & F & ->).
  rewrite sortSlice_perm, mapRange_perm, keys_of_values.
  - apply NoDup_fst_map_to_list.
  - intros k v [[_ E] | H]%foldl_overwrite_lookup; [exact E|].
    rewrite lookup_empty in H. discriminate.
Qed.

Lemma strictly_sorted {A B : Type} (key : A -> Z) (tag : A -> B) (l : list A) :
  Sorted (fun a b => key a <= key b) l ->
  NoDup (tag <$> l) ->
  (forall a b, a ∈ l -> b ∈ l -> key a = key b -> tag a = tag b) ->
  StronglySorted (fun a b => key a < key b) l.
Proof.
  intros S. apply Sorted_StronglySorted in S; [|intros a b c; lia].
  induction S as [|a l S IH Hall]; intros ND Inj; [constructor|].
  rewrite fmap_cons in ND. apply NoDup_cons in ND as [Hni ND].
  constructor.
  - apply IH; [assumption|]. intros x y Hx Hy. apply Inj; right; assumption.
  - apply List.Forall_forall. intros b Hb. apply list_elem_of_In in Hb.
    rewrite List.Forall_forall in Hall.
    pose proof (Hall b ltac:(apply list_elem_of_In; exact Hb)) as Hle.
    destruct (Z.eq_dec (key a) (key b)) as [E | Hne]; [|lia].
    exfalso. apply Hni. rewrite (Inj a b ltac:(left) ltac:(right; exact Hb) E).
    apply list_elem_of_fmap. eauto.
Qed.

Lemma filter_tag_absent {A : Type} (tag : A -> string) (l : list A) (k : string) :
  k ∉ tag <$> l -> filter (fun y => tag y = k) l = [].
Proof.
  induction l as [|a l IH]; intros H; [reflexivity|].
  rewrite fmap_cons in H. apply not_elem_of_cons in H as [Hne H].
  rewrite filter_cons_False by congruence. apply IH, H.
Qed.

Lemma unique_by_tag {A : Type} (tag : A -> string) (l : list A) (x : A) :
  NoDup (tag <$> l) -> x ∈ l ->
  filter (fun y => tag y = tag x) l = [x].
Proof.
  induction l as [|a l IH]; intros ND Hx; [inversion Hx|].
  rewrite fmap_cons in ND. apply NoDup_cons in ND as [Hni ND].
  apply elem_of_cons in Hx as [<- | Hx].
  - rewrite filter_cons_True by reflexivity. f_equal.
    apply filter_tag_absent, Hni.
  - rewrite filter_cons_False; [apply IH; assumption|].
    intros E. apply Hni. rewrite E. apply list_elem_of_fmap. eauto.
Qed.

(** C3. Whatever the coordinate, the discovered files and the schedule of
    the workers, the sequence [Ingest] returns is strictly ascending in
    the time of its timestamps and holds no timestamp twice; each
    timestamp string parses back to the minute it was formatted from. The
    clock is assumed to show a year from which every timestamp keeps four
    digits. *)
Theorem Ingest_sorted_strictly (w : World) (sched : list nat) (fuel : nat) (lon lat : float)
  (out : list ForecastOutput) (err : option IngestError) :
  (forall file, clockInRange (clock w file)) ->
  Ingest w sched fuel lon lat = Returns (out, err) ->
  StronglySorted (fun a b => parsedTime a < parsedTime b) out /\
  NoDup (oTimestamp <$> out) /\
  Forall (fun o => exists t, oTimestamp o = FormatMinute t /\
                             parsedTime o = truncMinute t) out.
Proof.
  intros Hclock H.
  pose proof (Ingest_keys _ _ _ _ _ _ _ H) as ND.
  assert (Hfmt : Forall (fun o => exists t, oTimestamp o = FormatMinute t /\
                                            parsedTime o = truncMinute t) out).
  { destruct (Ingest_inv _ _ _ _ _ _ _ H) as (files & _ & _ & G & _).
    pose proof (Ingest_outputs _ _ _ _ _ _ _ files G H) as Hout.
    eapply Forall_impl; [exact Hout|]. simpl.
    intros o (i & file & data & _ & _ & _ & Hp & Ho).
    apply toOutput_inv in Ho as (Hts & _).
    exists (Timestamp data). split; [exact Hts|].
    unfold parsedTime. rewrite Hts, ParseMinute_FormatMinute; [reflexivity|].
    eapply processGFSFile_stamp_range; [apply Hclock | exact Hp]. }
  split; [|split; assumption].
  apply (strictly_sorted parsedTime oTimestamp); [|assumption|].
  - destruct (Ingest_inv _ _ _ _ _ _ _ H) as (files & tm & _ & _ & _ & -> & _).
    apply sortSlice_sorted.
  - intros a b Ha Hb E. rewrite Forall_forall in Hfmt.
    destruct (Hfmt a Ha) as (ta & -> & Pa). destruct (Hfmt b Hb) as (tb & -> & Pb).
    apply FormatMinute_minuteOf. rewrite Pa, Pb in E. unfold truncMinute, Minute, Second in E. lia.
Qed.

Lemma toOutput_returns (fuel : nat) (f : ForecastData) :
  inTurn (windDirOf f) -> exists o, toOutput (S (S fuel)) f = Returns o.
Proof.
  intros H. unfold toOutput.
  destruct (degreesToCardinal_inTurn _ fuel H) as (s & -> & _). simpl. eauto.
Qed.

(** X2. [Ingest] does return, with a nil error, when wgrib2 is found, the
    glob succeeds and the wind direction of every sample is within the
    turn: no label then takes more than one turn of a loop. *)
Lemma Ingest_returns (w : World) (sched : list nat) (fuel : nat) (lon lat : float)
  (files : list string) :
  lookPath_ok w = true ->
  glob w = Some files ->
  (forall file data, processGFSFile w file lon lat = Ok data -> inTurn (windDirOf data)) ->
  exists out, Ingest w sched (S (S fuel)) lon lat = Returns (out, None).
Proof.
  intros L G Hdir. unfold Ingest. rewrite L, G. cbn [negb].
  destruct (mergeAll_total (S (S fuel))
              (sortSlice (fun a b => Timestamp a <? Timestamp b)
                 (collect w (sortSlice (fun a b => getForecastHour a <? getForecastHour b) files)
                    sched lon lat)) ∅) as [m E].
  { apply Forall_forall. intros f Hf. rewrite sortSlice_perm in Hf.
    apply elem_of_collect in Hf as (i & file & _ & _ & Hp).
    apply toOutput_returns. eapply Hdir, Hp. }
  rewrite E. simpl. eauto.
Qed.

(** C10. Whenever [Ingest] returns, its error is nil; so the handler never
    answers with the internal server error; and every point of the output
    comes from a file that was processed without error: a file whose
    decoding fails adds nothing and fails nothing. *)
Theorem Ingest_error_is_nil (w : World) (sched : list nat) (fuel : nat) (lon lat : float)
  (out : list ForecastOutput) (err : option IngestError) :
  Ingest w sched fuel lon lat = Returns (out, err) ->
  err = None /\
  (forall lonText latText e,
     ParseFloat lonText = (lon, false) -> ParseFloat latText = (lat, false) ->
     handler w sched fuel lonText latText = Returns (StatusOK out) /\
     handler w sched fuel lonText latText <> Returns (InternalServerError e)) /\
  Forall (fun o => exists file data,
            processGFSFile w file lon lat = Ok data /\
            toOutput fuel data = Returns o) out.
Proof.
  intros H. destruct (Ingest_inv _ _ _ _ _ _ _ H) as (files & _ & _ & G & _ & _ & ->).
  split; [reflexivity|]. split.
  - intros lonText latText e E1 E2. unfold handler. rewrite E1, E2, H. simpl.
    split; [reflexivity | discriminate].
  - eapply Forall_impl; [exact (Ingest_outputs _ _ _ _ _ _ _ files G H)|]. simpl.
    intros o (i & file & data & _ & _ & _ & Hp & Ho). eauto.
Qed.

(** The handler has no path to the internal server error at all. *)
Lemma handler_never_500 (w : World) (sched : list nat) (fuel : nat) (lonText latText : string)
  (e : IngestError) :
  handler w sched fuel lonText latText <> Returns (InternalServerError e).
Proof.
  unfold handler.
  destruct (ParseFloat lonText) as [lon []]; [discriminate|].
  destruct (ParseFloat latText) as [lat []]; [discriminate|].
  destruct (Ingest w sched fuel lon lat) as [[out err]| | |] eqn:H; try discriminate.
  apply Ingest_inv in H as (_ & _ & _ & _ & _ & _ & ->). discriminate.
Qed.

(** C1, amended. When two files resolve to one timestamp, the output
    holds exactly one point for it, and that point is the output record of
    a file that resolves to this timestamp: the one whose sample stands
    last among them after the sort by timestamp. *)
Theorem Ingest_collision_one_point (w : World) (sched : list nat) (fuel : nat)
  (lon lat : float) (files : list string) (out : list ForecastOutput)
  (err : option IngestError) (f1 f2 : string) (d1 d2 : ForecastData) :
  glob w = Some files ->
  schedule_ok (length files) sched ->
  f1 ∈ files -> f2 ∈ files -> getForecastHour f1 <> getForecastHour f2 ->
  processGFSFile w f1 lon lat = Ok d1 ->
  processGFSFile w f2 lon lat = Ok d2 ->
  FormatMinute (Timestamp d1) = FormatMinute (Timestamp d2) ->
  Ingest w sched fuel lon lat = Returns (out, err) ->
  exists o file data before after,
    filter (fun p => oTimestamp p = FormatMinute (Timestamp d1)) out = [o] /\
    file ∈ files /\
    processGFSFile w file lon lat = Ok data /\
    FormatMinute (Timestamp data) = FormatMinute (Timestamp d1) /\
    toOutput fuel data = Returns o /\
    sortSlice (fun a b => Timestamp a <? Timestamp b)
      (collect w (sortSlice (fun a b => getForecastHour a <? getForecastHour b) files)
         sched lon lat) = (before ++ data :: after)%list /\
    Forall (fun d => FormatMinute (Timestamp d) <> FormatMinute (Timestamp d1)) after.
Proof.
  intros G [Hperm _] Hf1 _ _ P1 _ _ H.
  pose proof (Ingest_keys _ _ _ _ _ _ _ H) as ND.
  destruct (Ingest_inv _ _ _ _ _ _ _ H) as (files' & tm & _ & G' & M & Eout & _).
  assert (files' = files) as -> by congruence.
  apply mergeAll_inv in M as (outs & F & ->).
  set (sorted := sortSlice (fun a b => getForecastHour a <? getForecastHour b) files) in *.
  assert (Hd1 : d1 ∈ collect w sorted sched lon lat).
  { apply elem_of_collect.
    assert (Hin : f1 ∈ sorted) by (unfold sorted; rewrite sortSlice_perm; exact Hf1).
    apply list_elem_of_lookup in Hin as [i Hi]. exists i, f1. repeat split; try assumption.
    rewrite Hperm. apply list_elem_of_In, in_seq.
    apply lookup_lt_Some in Hi. unfold sorted in Hi.
    rewrite (Permutation_length (sortSlice_perm _ _ _)) in Hi. lia. }
  rewrite <- (sortSlice_perm _ (fun a b => Timestamp a <? Timestamp b)) in Hd1.
  apply list_elem_of_lookup in Hd1 as [j Hj].
  destruct (Forall2_lookup_l _ _ _ _ _ F Hj) as (o1 & Ho1 & Ht1).
  apply toOutput_inv in Ht1 as (Hk1 & _).
  destruct (foldl_overwrite_covers outs ∅ (FormatMinute (Timestamp d1))) as [o Ho].
  { right. exists o1. split; [eapply list_elem_of_lookup_2, Ho1 | exact Hk1]. }
  assert (Hin : o ∈ out).
  { rewrite Eout, sortSlice_perm, mapRange_perm. apply list_elem_of_fmap.
    exists (FormatMinute (Timestamp d1), o). split; [reflexivity|].
    apply elem_of_map_to_list, Ho. }
  apply foldl_overwrite_last in Ho as [(pre & post & -> & Hk & Hpost) | [Ho _]];
    [|rewrite lookup_empty in Ho; discriminate].
  apply Forall2_app_inv_r in F as (before & rest & _ & F & Esplit).
  apply Forall2_cons_inv_r in F as (data & after & Hto & F & ->).
  assert (Hdata : data ∈ collect w sorted sched lon lat).
  { rewrite <- (sortSlice_perm _ (fun a b => Timestamp a <? Timestamp b)), Esplit.
    apply elem_of_app. right. left. }
  apply elem_of_collect in Hdata as (i & file & _ & Hfile & Hp).
  apply list_elem_of_lookup_2 in Hfile. unfold sorted in Hfile.
  rewrite sortSlice_perm in Hfile.
  exists o, file, data, before, after. repeat split; try assumption.
  - rewrite <- Hk. apply unique_by_tag; assumption.
  - apply toOutput_inv in Hto as (E & _). congruence.
  - eapply Forall2_Forall_l; [exact F|].
    eapply Forall_impl; [exact Hpost|].
    intros o' Hne d (E & _)%toOutput_inv. congruence.
Qed.

(** C5, amended. The timestamp of a sample is the cycle hour of the file
    name, on the day the clock shows while the file is processed, plus
    the forecast hours (which wrap around as an [int64] of nanoseconds
    from 2562048 hours on); a clock reading of the same day gives the
    same sample. *)
Theorem processGFSFile_timestamp (w : World) (file : string) (lon lat : float)
  (data : ForecastData) :
  0 <= clock w file < endOfYears ->
  processGFSFile w file lon lat = Ok data ->
  (exists hh,
     TrimSuffix (TrimPrefix (nth 1 (Split1 "." (Base file)) "") "t") "z" = pad2 hh "" /\
     0 <= hh < 24 /\ 0 <= getForecastHour file /\
     Timestamp data = dayStart (clock w file) + hh * Hour + hours (getForecastHour file) /\
     (getForecastHour file <= 2562047 ->
      Timestamp data = dayStart (clock w file) + (hh + getForecastHour file) * Hour)) /\
  (forall w' : World,
     decoder w' = decoder w ->
     dayStart (clock w' file) = dayStart (clock w file) ->
     processGFSFile w' file lon lat = Ok data).
Proof.
  intros Hc H. split.
  - destruct (processGFSFile_stamp _ _ _ _ _ Hc H) as (hh & E & R & Hh & Hs).
    exists hh. repeat split; try assumption; try lia.
    intros Hle. rewrite Hs, hours_small by lia. lia.
  - intros w' Hdec Hday. rewrite <- H. unfold processGFSFile, cycleTimeOf, FormatDate.
    rewrite Hdec.
    assert (minuteOf (clock w' file) / 1440 = minuteOf (clock w file) / 1440) as ->.
    { unfold dayStart, Day, Hour, Minute, Second in Hday. lia. }
    reflexivity.
Qed.

(** C7, amended. Once the file name and the cycle time are accepted and
    the decoder has printed its output, [processGFSFile] returns an error
    exactly when the output, white space trimmed, has fewer than four
    lines or [strconv.ParseFloat] returns an error for one of the first
    four; otherwise the four values go to the fields in the order gust,
    temperature, U, V. Which literals are accepted is up to
    [strconv.ParseFloat], which takes the infinities and NaN. *)
Theorem processGFSFile_parse_errors (w : World) (file : string) (lon lat : float)
  (cycleTime : Time) (output : string) :
  (5 <= length (Split1 "." (Base file)))%nat ->
  cycleTimeOf (clock w file) (Split1 "." (Base file)) = Some cycleTime ->
  0 <= getForecastHour file ->
  decoder w file lon lat = Prints output ->
  let lines := Split1 newline (TrimSpace output) in
  ((exists e, processGFSFile w file lon lat = Err e) <->
   ((length lines < 4)%nat \/
    exists i, (i < 4)%nat /\ snd (ParseFloat (nth i lines "")) = true)) /\
  (forall data, processGFSFile w file lon lat = Ok data ->
     WindGust data = fst (ParseFloat (nth 0 lines "")) /\
     Temp2m data = fst (ParseFloat (nth 1 lines "")) /\
     UWind10m data = fst (ParseFloat (nth 2 lines "")) /\
     VWind10m data = fst (ParseFloat (nth 3 lines "")) /\
     Timestamp data = Add cycleTime (hours (getForecastHour file))).
Proof.
  intros Hparts Hct Hh Hdec lines.
  assert (E : processGFSFile w file lon lat =
              parseOutput (Add cycleTime (hours (getForecastHour file))) output).
  { unfold processGFSFile.
    destruct (Nat.ltb_spec (length (Split1 "." (Base file))) 5); [lia|].
    rewrite Hct. destruct (Z.ltb_spec (getForecastHour file) 0); [lia|].
    rewrite Hdec. reflexivity. }
  rewrite E. unfold parseOutput. fold lines.
  destruct (Nat.ltb_spec (length lines) 4) as [Hl | Hl].
  { split; [|discriminate]. split; eauto. }
  destruct (ParseFloat (nth 0 lines "")) as [gust e0] eqn:E0.
  destruct (ParseFloat (nth 1 lines "")) as [temp e1] eqn:E1.
  destruct (ParseFloat (nth 2 lines "")) as [u e2] eqn:E2.
  destruct (ParseFloat (nth 3 lines "")) as [v e3] eqn:E3.
  assert (Hidx : forall i, (i < 4)%nat -> i = 0%nat \/ i = 1%nat \/ i = 2%nat \/ i = 3%nat)
    by (intros; lia).
  split.
  - split.
    + intros [e He]. right.
      destruct e0. { exists 0%nat. rewrite E0. split; [lia | reflexivity]. }
      destruct e1. { exists 1%nat. rewrite E1. split; [lia | reflexivity]. }
      destruct e2. { exists 2%nat. rewrite E2. split; [lia | reflexivity]. }
      destruct e3. { exists 3%nat. rewrite E3. split; [lia | reflexivity]. }
      discriminate.
    + intros [Hlt | (i & Hi & Hf)]; [lia|].
      destruct (Hidx i Hi) as [-> | [-> | [-> | ->]]].
      * rewrite E0 in Hf. simpl in Hf. subst e0. eauto.
      * rewrite E1 in Hf. simpl in Hf. subst e1. destruct e0; eauto.
      * rewrite E2 in Hf. simpl in Hf. subst e2. destruct e0, e1; eauto.
      * rewrite E3 in Hf. simpl in Hf. subst e3. destruct e0, e1, e2; eauto.
  - intros data. destruct e0, e1, e2, e3; try discriminate.
    intros [= <-]. simpl. auto.
Qed.

End Engine.

End IngestFacts.

(** *** The engine on the example worlds *)

Module IngestExamples.
Import GoStrings GoTime GoFloat Ingest TimeFacts IngestFacts Examples.

Lemma may1_in_range : clockInRange may1.
Proof. unfold clockInRange. split; apply Z.leb_le; vm_compute; reflexivity. Qed.

Lemma may1_in_years : 0 <= may1 < endOfYears.
Proof. split; [apply Z.leb_le | apply Z.ltb_lt]; vm_compute; reflexivity. Qed.

Lemma schedule_swap_ok : schedule_ok 2 [1; 0]%nat.
Proof. split; [apply Permutation_swap | reflexivity]. Qed.

(** The theorem of C3 on the three files of one cycle. *)
Lemma Ingest_sorted_strictly_witness :
  StronglySorted (fun a b => parsedTime a < parsedTime b) threeFilesOutput /\
  NoDup (oTimestamp <$> threeFilesOutput) /\
  Forall (fun o => exists t, oTimestamp o = FormatMinute t /\
                             parsedTime o = truncMinute t) threeFilesOutput.
Proof.
  apply (Ingest_sorted_strictly threeFiles [0; 1; 2]%nat 2 lon lat threeFilesOutput None).
  - intros file. exact may1_in_range.
  - vm_compute. reflexivity.
Defined.

(** The theorem of C10 on the three files of one cycle. *)
Lemma Ingest_error_is_nil_witness :
  (None : option IngestError) = None /\
  (forall lonText latText e,
     ParseFloat lonText = (lon, false) -> ParseFloat latText = (lat, false) ->
     handler threeFiles [0; 1; 2]%nat 2 lonText latText = Returns (StatusOK threeFilesOutput) /\
     handler threeFiles [0; 1; 2]%nat 2 lonText latText <> Returns (InternalServerError e)) /\
  Forall (fun o => exists file data,
            processGFSFile threeFiles file lon lat = Ok data /\
            toOutput 2 data = Returns o) threeFilesOutput.
Proof.
  apply (Ingest_error_is_nil threeFiles [0; 1; 2]%nat 2 lon lat threeFilesOutput None).
  vm_compute. reflexivity.
Defined.

(** C1, as stated, fails on the code. Hour 6 of the 00 cycle and hour 0
    of the 06 cycle resolve to the same timestamp. When the worker of the
    first reaches the append before the worker of the second, the one
    point of the output is that of the file with the smaller offset
    (10 degrees); in the other order it is that of the larger (20
    degrees). Both schedules are open to two workers. *)
Lemma Ingest_collision_smaller_offset_wins :
  schedule_ok 2 [1; 0]%nat /\ schedule_ok 2 [0; 1]%nat /\
  getForecastHour smallerOffset < getForecastHour largerOffset /\
  processGFSFile collision largerOffset lon lat = Ok largerSample /\
  processGFSFile collision smallerOffset lon lat = Ok smallerSample /\
  Timestamp largerSample = Timestamp smallerSample /\
  toOutput 2 largerSample = Returns largerOutput /\
  toOutput 2 smallerSample = Returns smallerOutput /\
  Ingest collision [1; 0]%nat 2 lon lat = Returns ([smallerOutput], None) /\
  Ingest collision [0; 1]%nat 2 lon lat = Returns ([largerOutput], None) /\
  (TempC smallerOutput <? TempC largerOutput)%float = true.
Proof.
  split; [exact schedule_swap_ok|].
  split; [split; reflexivity|].
  repeat split; vm_compute; reflexivity.
Qed.

(** The theorem of C1 on the two colliding files. *)
Lemma Ingest_collision_one_point_witness :
  exists o file data before after,
    filter (fun p => oTimestamp p = FormatMinute (Timestamp largerSample)) collisionOutput
      = [o] /\
    file ∈ [largerOffset; smallerOffset] /\
    processGFSFile collision file lon lat = Ok data /\
    FormatMinute (Timestamp data) = FormatMinute (Timestamp largerSample) /\
    toOutput 2 data = Returns o /\
    sortSlice (fun a b => Timestamp a <? Timestamp b)
      (collect collision
         (sortSlice (fun a b => getForecastHour a <? getForecastHour b)
            [largerOffset; smallerOffset])
         [1; 0]%nat lon lat) = (before ++ data :: after)%list /\
    Forall (fun d => FormatMinute (Timestamp d) <> FormatMinute (Timestamp largerSample))
      after.
Proof.
  refine (Ingest_collision_one_point collision [1; 0]%nat 2 lon lat
            [largerOffset; smallerOffset] collisionOutput None
            largerOffset smallerOffset largerSample smallerSample
            eq_refl schedule_swap_ok _ _ _ _ _ _ _).
  - left.
  - right. left.
  - vm_compute. discriminate.
  - vm_compute. reflexivity.
  - vm_compute. reflexivity.
  - reflexivity.
  - vm_compute. reflexivity.
Defined.

(** C5, as stated, fails on the code: the same file, processed a day
    later, gets a timestamp a day later. *)
Lemma processGFSFile_follows_the_clock :
  processGFSFile collision largerOffset lon lat = Ok largerSample /\
  processGFSFile (aDayLater collision) largerOffset lon lat
    = Ok {| Timestamp := Timestamp largerSample + Day;
            Temp2m := Temp2m largerSample; UWind10m := UWind10m largerSample;
            VWind10m := VWind10m largerSample; WindGust := WindGust largerSample;
            WindSpeed := 0; WindDir := 0 |} /\
  Timestamp largerSample + Day <> Timestamp largerSample.
Proof.
  repeat split; try (vm_compute; reflexivity). vm_compute. discriminate.
Qed.

(** The theorem of C5 on hour 6 of the 00 cycle. *)
Lemma processGFSFile_timestamp_witness :
  (exists hh,
     TrimSuffix (TrimPrefix (nth 1 (Split1 "." (Base largerOffset)) "") "t") "z"
       = pad2 hh "" /\
     0 <= hh < 24 /\ 0 <= getForecastHour largerOffset /\
     Timestamp largerSample
       = dayStart (clock collision largerOffset) + hh * Hour
         + hours (getForecastHour largerOffset) /\
     (getForecastHour largerOffset <= 2562047 ->
      Timestamp largerSample
        = dayStart (clock collision largerOffset)
          + (hh + getForecastHour largerOffset) * Hour)) /\
  (forall w' : World,
     decoder w' = decoder collision ->
     dayStart (clock w' largerOffset) = dayStart (clock collision largerOffset) ->
     processGFSFile w' largerOffset lon lat = Ok largerSample).
Proof.
  apply (processGFSFile_timestamp collision largerOffset lon lat largerSample).
  - exact may1_in_years.
  - vm_compute. reflexivity.
Defined.

(** C7, as stated, fails on the code: a first line that reads NaN is no
    finite literal, and the adapter returns a sample whose gust is NaN. *)
Lemma processGFSFile_accepts_NaN :
  processGFSFile nanGust "gfs_data/gfs.t00z.pgrb2.0p25.f000" lon lat
    = Ok {| Timestamp := Date 2024 5 1 0 0; Temp2m := 293.15; UWind10m := 2;
            VWind10m := -2; WindGust := nan; WindSpeed := 0; WindDir := 0 |} /\
  is_nan (fst (ParseFloat "NaN")) = true /\ snd (ParseFloat "NaN") = false.
Proof. repeat split; vm_compute; reflexivity. Qed.

(** The theorem of C7 on the first of the three files. *)
Lemma processGFSFile_parse_errors_witness :
  let lines := Split1 newline (TrimSpace (unlines ["5.0"; "293.15"; "2.0"; "-2.0"])) in
  ((exists e, processGFSFile threeFiles "gfs_data/gfs.t00z.pgrb2.0p25.f000" lon lat = Err e) <->
   ((length lines < 4)%nat \/
    exists i, (i < 4)%nat /\ snd (ParseFloat (nth i lines "")) = true)) /\
  (forall data,
     processGFSFile threeFiles "gfs_data/gfs.t00z.pgrb2.0p25.f000" lon lat = Ok data ->
     WindGust data = fst (ParseFloat (nth 0 lines "")) /\
     Temp2m data = fst (ParseFloat (nth 1 lines "")) /\
     UWind10m data = fst (ParseFloat (nth 2 lines "")) /\
     VWind10m data = fst (ParseFloat (nth 3 lines "")) /\
     Timestamp data = Add (Date 2024 5 1 0 0)
       (hours (getForecastHour "gfs_data/gfs.t00z.pgrb2.0p25.f000"))).
Proof.
  apply (processGFSFile_parse_errors threeFiles "gfs_data/gfs.t00z.pgrb2.0p25.f000"
           lon lat (Date 2024 5 1 0 0) (unlines ["5.0"; "293.15"; "2.0"; "-2.0"])).
  - vm_compute. lia.
  - vm_compute. reflexivity.
  - vm_compute. discriminate.
  - reflexivity.
Defined.

Lemma threeFiles_inTurn (file : string) (data : ForecastData) :
  processGFSFile threeFiles file lon lat = Ok data -> inTurn (windDirOf data).
Proof.
  intros (cycleTime & output & _ & _ & _ & Hd & Hp)%processGFSFile_inv.
  injection Hd as <-.
  generalize dependent (Add cycleTime (hours (getForecastHour file))). intros stamp Hp.
  vm_compute in Hp. injection Hp as <-.
  split; vm_compute; reflexivity.
Qed.

(** The theorem of X2 on the three files of one cycle. *)
Lemma Ingest_returns_witness :
  exists out, Ingest threeFiles [0; 1; 2]%nat 2 lon lat = Returns (out, None).
Proof.
  apply (Ingest_returns threeFiles [0; 1; 2]%nat 0 lon lat
           ["gfs_data/gfs.t00z.pgrb2.0p25.f000"; "gfs_data/gfs.t00z.pgrb2.0p25.f001";
            "gfs_data/gfs.t00z.pgrb2.0p25.f002"]).
  - reflexivity.
  - reflexivity.
  - exact threeFiles_inTurn.
Defined.

End IngestExamples.

(** *** The fetch orchestrator *)

Module DownloadFacts.
Import GoStrings GoTime Download.

Ltac mstep := unfold mbind at 1, M_bind at 1; cbv beta.

Ltac unfold_M := unfold mbind, M_bind, mret, M_ret, getFS, putFS, emit; simpl.

Lemma stat_staged (f0 : FS) (tmp : string) (d : Dir) (l : list Event) (name : string) :
  stat tmp name (staged f0 tmp d l) = (d !! name, staged f0 tmp d l).
Proof. unfold stat, staged. unfold_M. rewrite lookup_insert_eq. reflexivity. Qed.

Lemma create_staged (f0 : FS) (tmp : string) (d : Dir) (l : list Event) (name : string)
  (fails : bool) :
  create tmp name fails (staged f0 tmp d l) =
    if fails then (false, staged f0 tmp d l)
    else (true, staged f0 tmp (<[name := 0]> d) l).
Proof.
  unfold create, staged. unfold_M. rewrite lookup_insert_eq.
  destruct fails; [reflexivity|]. unfold_M. rewrite insert_insert_eq. reflexivity.
Qed.

Lemma write_staged (f0 : FS) (tmp : string) (d : Dir) (l : list Event) (name : string)
  (size : Z) :
  write tmp name size (staged f0 tmp d l) = (tt, staged f0 tmp (<[name := size]> d) l).
Proof.
  unfold write, staged. unfold_M. rewrite lookup_insert_eq. unfold_M.
  rewrite insert_insert_eq. reflexivity.
Qed.

Lemma remove_staged (f0 : FS) (tmp : string) (d : Dir) (l : list Event) (name : string) :
  remove tmp name (staged f0 tmp d l) = (tt, staged f0 tmp (delete name d) l).
Proof.
  unfold remove, staged. unfold_M. rewrite lookup_insert_eq. unfold_M.
  rewrite insert_insert_eq. reflexivity.
Qed.

Lemma rename_staged (f0 : FS) (tmp : string) (d : Dir) (l : list Event) (old new : string)
  (size : Z) (fails : bool) :
  d !! old = Some size ->
  rename tmp old new fails (staged f0 tmp d l) =
    if fails then (false, staged f0 tmp d l)
    else (true, staged f0 tmp (<[new := size]> (delete old d)) l).
Proof.
  intros H. unfold rename, staged. unfold_M. rewrite lookup_insert_eq, H.
  destruct fails; [reflexivity|]. unfold_M. rewrite insert_insert_eq. reflexivity.
Qed.

Lemma emit_staged (f0 : FS) (tmp : string) (d : Dir) (l : list Event) (e : Event) :
  emit e (staged f0 tmp d l) = (tt, staged f0 tmp d (l ++ [e])).
Proof. reflexivity. Qed.

(** What a call of [downloadFile] leaves in the staging directory. *)
Lemma downloadFile_staged (f0 : FS) (tmp : string) (d : Dir) (l : list Event)
  (url name : string) (a : Fetch) :
  downloadFile url tmp name a (staged f0 tmp d l) =
    match a with
    | RequestInvalid => (Some CreatingRequest, staged f0 tmp d l)
    | CreateFails => (Some CreatingOutputFile, staged f0 tmp d l)
    | TransportFails =>
        (Some MakingRequest, staged f0 tmp (<[name := 0]> d) (l ++ [Request url]))
    | Responds status body =>
        if status =? 200
        then (None, staged f0 tmp (<[name := body]> d) (l ++ [Request url]))
        else (Some (UnexpectedStatusCode status),
              staged f0 tmp (<[name := 0]> d) (l ++ [Request url]))
    | CopyFails written =>
        (Some DownloadingFile, staged f0 tmp (<[name := written]> d) (l ++ [Request url]))
    end.
Proof.
  destruct a as [| | |status body|written]; unfold downloadFile;
    try reflexivity; mstep; rewrite create_staged; cbn [negb]; try reflexivity.
  - mstep. rewrite emit_staged. cbn [negb].
    destruct (status =? 200); cbn [negb]; [|reflexivity].
    mstep. rewrite write_staged, insert_insert_eq. reflexivity.
  - mstep. rewrite emit_staged. cbn [negb].
    mstep. rewrite write_staged, insert_insert_eq. reflexivity.
Qed.


Lemma retry_O (w : World) (tmp url filename hour : string) (attempt : nat)
  (last : option DownloadError) (f0 : FS) (d : Dir) (l : list Event) :
  retry w tmp url filename hour 0 attempt last (staged f0 tmp d l) =
    (Some (FailedAfterAttempts hour maxRetries last),
     staged f0 tmp (delete (filename +:+ ".tmp") d) l).
Proof. cbn [retry]. mstep. rewrite remove_staged. reflexivity. Qed.

(** A failed attempt: the loop goes on, after a pause unless it was the
    last turn; only the temporary file may have changed, and what is
    outside the staging directory plays no part. *)
Lemma retry_bad (w : World) (tmp url filename hour : string) (k attempt : nat)
  (last : option DownloadError) (d : Dir) :
  good (net w hour attempt) = None ->
  exists d1 reqs e,
    (forall n, n <> filename +:+ ".tmp" -> d1 !! n = d !! n) /\
    (reqs = [] \/ reqs = [Request url]) /\
    forall (f0 : FS) (l : list Event),
      retry w tmp url filename hour (S k) attempt last (staged f0 tmp d l) =
      retry w tmp url filename hour k (S attempt) (Some e)
        (staged f0 tmp d1
           (l ++ reqs ++ if (attempt <? maxRetries)%nat then [Sleep retryDelay] else [])).
Proof.
  unfold good. intros Hbad.
  assert (Hsleep : forall f0 l d1 reqs e,
    (_ ← (if (attempt <? maxRetries)%nat then emit (Sleep retryDelay) else mret ());
     retry w tmp url filename hour k (S attempt) (Some e)) (staged f0 tmp d1 (l ++ reqs)) =
    retry w tmp url filename hour k (S attempt) (Some e)
      (staged f0 tmp d1
         (l ++ reqs ++ if (attempt <? maxRetries)%nat then [Sleep retryDelay] else []))).
  { intros f0 l d1 reqs e. mstep. destruct (attempt <? maxRetries)%nat.
    - rewrite emit_staged, <- app_assoc. reflexivity.
    - rewrite app_nil_r. reflexivity. }
  assert (Hins : forall (v : Z) n, n <> filename +:+ ".tmp" ->
            <[filename +:+ ".tmp" := v]> d !! n = d !! n).
  { intros v n Hn. apply lookup_insert_ne. congruence. }
  destruct (fetch (net w hour attempt)) as [| | |status body|written] eqn:Ef.
  - exists d, [], (DownloadFailed CreatingRequest). repeat split; auto.
    intros f0 l. cbn [retry]. mstep. rewrite downloadFile_staged, Ef. cbv beta iota.
    rewrite <- (Hsleep f0 l d []), app_nil_r. reflexivity.
  - exists d, [], (DownloadFailed CreatingOutputFile). repeat split; auto.
    intros f0 l. cbn [retry]. mstep. rewrite downloadFile_staged, Ef. cbv beta iota.
    rewrite <- (Hsleep f0 l d []), app_nil_r. reflexivity.
  - exists (<[filename +:+ ".tmp" := 0]> d), [Request url], (DownloadFailed MakingRequest).
    repeat split; auto.
    intros f0 l. cbn [retry]. mstep. rewrite downloadFile_staged, Ef. cbv beta iota.
    rewrite <- Hsleep. reflexivity.
  - destruct (Z.eqb_spec status 200) as [-> | Hs].
    + simpl in Hbad. destruct (minSize <? body) eqn:Hsize; [discriminate|].
      exists (<[filename +:+ ".tmp" := body]> d), [Request url], FileTooSmall.
      repeat split; auto.
      intros f0 l. cbn [retry]. mstep. rewrite downloadFile_staged, Ef.
      change (200 =? 200) with true. cbv beta iota.
      rewrite <- Hsleep. mstep. rewrite stat_staged, lookup_insert_eq. cbv beta iota.
      rewrite Hsize. reflexivity.
    + exists (<[filename +:+ ".tmp" := 0]> d), [Request url],
        (DownloadFailed (UnexpectedStatusCode status)).
      repeat split; auto.
      intros f0 l. cbn [retry]. mstep. rewrite downloadFile_staged, Ef.
      destruct (Z.eqb_spec status 200); [contradiction|]. cbv beta iota.
      rewrite <- Hsleep. reflexivity.
  - exists (<[filename +:+ ".tmp" := written]> d), [Request url], (DownloadFailed DownloadingFile).
    repeat split; auto.
    intros f0 l. cbn [retry]. mstep. rewrite downloadFile_staged, Ef. cbv beta iota.
    rewrite <- Hsleep. reflexivity.
Qed.

(** A good attempt ends the job: with the file in place, or, when the
    rename fails, with an error and without another turn. *)
Lemma retry_good (w : World) (tmp url filename hour : string) (k attempt : nat)
  (last : option DownloadError) (f0 : FS) (d : Dir) (l : list Event) (body : Z) :
  good (net w hour attempt) = Some body ->
  retry w tmp url filename hour (S k) attempt last (staged f0 tmp d l) =
    if renameFails (net w hour attempt)
    then (Some FailedToRenameTempFile,
          staged f0 tmp (delete (filename +:+ ".tmp") (<[filename +:+ ".tmp" := body]> d))
            (l ++ [Request url]))
    else (None,
          staged f0 tmp
            (<[filename := body]>
               (delete (filename +:+ ".tmp") (<[filename +:+ ".tmp" := body]> d)))
            (l ++ [Request url])).
Proof.
  unfold good. intros Hgood. cbn [retry]. mstep. rewrite downloadFile_staged.
  destruct (fetch (net w hour attempt)) as [| | |status b|written]; try discriminate.
  destruct (Z.eqb_spec status 200) as [-> | Hs]; [|discriminate]. simpl in Hgood.
  destruct (minSize <? b) eqn:Hsize; [|discriminate]. injection Hgood as ->.
  cbv beta iota. mstep. rewrite stat_staged, lookup_insert_eq. cbv beta iota. rewrite Hsize.
  mstep. rewrite (rename_staged _ _ _ _ _ _ body) by apply lookup_insert_eq.
  destruct (renameFails (net w hour attempt)); cbn [negb]; [|reflexivity].
  mstep. rewrite remove_staged. reflexivity.
Qed.


Lemma length_append (s t : string) :
  String.length (s +:+ t) = (String.length s + String.length t)%nat.
Proof.
  induction s as [|c s IH]; [reflexivity|].
  change (String c s +:+ t) with (String c (s +:+ t)). simpl. rewrite IH. reflexivity.
Qed.

Lemma temp_name_differs (filename : string) : filename <> filename +:+ ".tmp".
Proof.
  intros E. apply (f_equal String.length) in E. rewrite length_append in E. simpl in E. lia.
Qed.

(** The directory after a failed job, and after a completed one. *)
Lemma dir_restored (d d1 : Dir) (temp : string) :
  (forall n, n <> temp -> d1 !! n = d !! n) -> d !! temp = None -> delete temp d1 = d.
Proof.
  intros Hagree Hnone. apply map_eq. intros n.
  destruct (decide (n = temp)) as [-> | Hne].
  - rewrite lookup_delete_eq. congruence.
  - rewrite lookup_delete_ne by congruence. apply Hagree, Hne.
Qed.

Lemma dir_restored_after_write (d d1 : Dir) (temp : string) (b : Z) :
  (forall n, n <> temp -> d1 !! n = d !! n) -> d !! temp = None ->
  delete temp (<[temp := b]> d1) = d.
Proof. intros Hagree Hnone. rewrite delete_insert_eq. apply dir_restored; assumption. Qed.

Lemma good_size (a : Attempt) (b : Z) : good a = Some b -> minSize < b.
Proof.
  unfold good. destruct (fetch a) as [| | |status body|]; try discriminate.
  destruct (status =? 200); [|discriminate].
  destruct (minSize <? body) eqn:E; [|discriminate].
  intros [= <-]. apply Z.ltb_lt, E.
Qed.

Lemma reqs_facts (url : string) (reqs : list Event) :
  reqs = [] \/ reqs = [Request url] ->
  pauses reqs = [] /\ (requests reqs <= 1)%nat /\ Forall jobEvent reqs.
Proof. intros [-> | ->]; repeat split; simpl; try lia; repeat constructor. Qed.

Lemma pauses_app (l1 l2 : list Event) : pauses (l1 ++ l2) = (pauses l1 ++ pauses l2)%list.
Proof. apply flat_map_app. Qed.

Lemma requests_app (l1 l2 : list Event) : requests (l1 ++ l2) = (requests l1 + requests l2)%nat.
Proof. unfold requests. rewrite flat_map_app, length_app. reflexivity. Qed.

Ltac logcalc url :=
  change (requests [Sleep retryDelay]) with 0%nat;
  change (requests [Request url]) with 1%nat;
  change (pauses [Sleep retryDelay]) with [retryDelay];
  change (pauses [Request url]) with (@nil Duration);
  change (requests []) with 0%nat;
  change (pauses []) with (@nil Duration);
  repeat split; try reflexivity; try lia.

(** The outcome of a job that does not find its file complete, by the
    first good attempt among the three; it is the same whatever lies
    outside the staging directory. *)
Lemma downloadWithRetry_cases (w : World) (tmp date cycle hour : string) (d : Dir) :
  complete d (filenameOf cycle hour) = false ->
  d !! (filenameOf cycle hour +:+ ".tmp") = None ->
  exists r d' evs,
    (forall (f0 : FS) (l : list Event),
       downloadWithRetry w tmp date cycle hour (staged f0 tmp d l)
         = (r, staged f0 tmp d' (l ++ evs))) /\
    Forall jobEvent evs /\
    match good (net w hour 1), good (net w hour 2), good (net w hour 3) with
    | Some b, _, _ => endsAt w hour (filenameOf cycle hour) 1 b d r d' evs
    | None, Some b, _ => endsAt w hour (filenameOf cycle hour) 2 b d r d' evs
    | None, None, Some b => endsAt w hour (filenameOf cycle hour) 3 b d r d' evs
    | None, None, None => givesUp hour d r d' evs
    end.
Proof.
  intros Hskip Htemp.
  set (filename := filenameOf cycle hour) in *.
  set (url := urlOf date cycle filename).
  assert (Hstart : forall f0 l,
            downloadWithRetry w tmp date cycle hour (staged f0 tmp d l)
            = retry w tmp url filename hour 3 1 None (staged f0 tmp d l)).
  { intros f0 l. unfold downloadWithRetry. mstep. rewrite stat_staged. cbv beta iota.
    fold filename. fold url.
    unfold complete in Hskip. destruct (d !! filename); [rewrite Hskip|]; reflexivity. }
  assert (Hne : filename <> filename +:+ ".tmp") by apply temp_name_differs.
  assert (Hdone : forall d1 b, (forall n, n <> filename +:+ ".tmp" -> d1 !! n = d !! n) ->
            <[filename := b]> (delete (filename +:+ ".tmp") (<[filename +:+ ".tmp" := b]> d1))
            = <[filename := b]> d).
  { intros d1 b Hagree. f_equal. apply dir_restored_after_write; assumption. }
  destruct (good (net w hour 1)) as [b1|] eqn:G1.
  { unfold endsAt. destruct (renameFails (net w hour 1)) eqn:Rn; do 3 eexists;
      (split; [intros f0 l; rewrite Hstart, (retry_good _ _ _ _ _ _ _ _ _ _ _ b1 G1), Rn;
               reflexivity|]);
      (split; [repeat constructor|]); logcalc url.
    - apply dir_restored_after_write; auto.
    - apply Hdone. auto. }
  destruct (retry_bad w tmp url filename hour 2 1 None d G1)
    as (d1 & reqs1 & e1 & A1 & R1 & E1).
  change (1 <? maxRetries)%nat with true in E1. cbv iota in E1.
  destruct (reqs_facts url reqs1 R1) as (P1 & Q1 & J1).
  destruct (good (net w hour 2)) as [b2|] eqn:G2.
  { unfold endsAt. destruct (renameFails (net w hour 2)) eqn:Rn; do 3 eexists;
      (split; [intros f0 l;
               rewrite Hstart, E1, (retry_good _ _ _ _ _ _ _ _ _ _ _ b2 G2), Rn,
                 <- app_assoc; reflexivity|]);
      (split; [repeat (apply Forall_app; split); repeat constructor; assumption|]);
      rewrite !pauses_app, !requests_app, P1; logcalc url.
    - apply dir_restored_after_write; auto.
    - apply Hdone. auto. }
  destruct (retry_bad w tmp url filename hour 1 2 (Some e1) d1 G2)
    as (d2 & reqs2 & e2 & A2 & R2 & E2).
  change (2 <? maxRetries)%nat with true in E2. cbv iota in E2.
  destruct (reqs_facts url reqs2 R2) as (P2 & Q2 & J2).
  assert (A12 : forall n, n <> filename +:+ ".tmp" -> d2 !! n = d !! n).
  { intros n Hn. rewrite A2, A1 by assumption. reflexivity. }
  destruct (good (net w hour 3)) as [b3|] eqn:G3.
  { unfold endsAt. destruct (renameFails (net w hour 3)) eqn:Rn; do 3 eexists;
      (split; [intros f0 l;
               rewrite Hstart, E1, E2, (retry_good _ _ _ _ _ _ _ _ _ _ _ b3 G3), Rn,
                 <- !app_assoc; reflexivity|]);
      (split; [repeat (apply Forall_app; split); repeat constructor; assumption|]);
      rewrite !pauses_app, !requests_app, P1, P2; logcalc url.
    - apply dir_restored_after_write; auto.
    - apply Hdone. auto. }
  destruct (retry_bad w tmp url filename hour 0 3 (Some e2) d2 G3)
    as (d3 & reqs3 & e3 & A3 & R3 & E3).
  change (3 <? maxRetries)%nat with false in E3. cbv iota in E3.
  destruct (reqs_facts url reqs3 R3) as (P3 & Q3 & J3).
  unfold givesUp.
  do 3 eexists. split; [intros f0 l; rewrite Hstart, E1, E2, E3, retry_O, <- !app_assoc;
                        reflexivity|].
  split; [repeat (apply Forall_app; split); repeat constructor; assumption|].
  rewrite !pauses_app, !requests_app, P1, P2, P3.
  logcalc url; eauto.
  apply dir_restored; [|assumption].
  intros n Hn. rewrite A3, A12 by assumption. reflexivity.
Qed.

(** C8, amended. A job that does not find its file complete in the
    staging directory makes up to three attempts. An attempt fails when
    the request cannot be built, the temporary file cannot be created, the
    transport fails, the status is not 200, the copy fails or the file is
    not above the threshold; each failed attempt but the third is followed
    by a pause of five seconds and another attempt. The first good attempt
    ends the job: the file is renamed into place, or, when the rename
    fails, the job fails at once. After three failed attempts the job
    reports an error. In every failing case the temporary file is gone
    and the staging directory is as it was. *)
Theorem downloadWithRetry_attempts (w : World) (tmp date cycle hour : string)
  (f0 : FS) (d : Dir) (l : list Event) :
  complete d (filenameOf cycle hour) = false ->
  d !! (filenameOf cycle hour +:+ ".tmp") = None ->
  exists r d' evs,
    downloadWithRetry w tmp date cycle hour (staged f0 tmp d l)
      = (r, staged f0 tmp d' (l ++ evs)) /\
    Forall jobEvent evs /\
    match good (net w hour 1), good (net w hour 2), good (net w hour 3) with
    | Some b, _, _ => endsAt w hour (filenameOf cycle hour) 1 b d r d' evs
    | None, Some b, _ => endsAt w hour (filenameOf cycle hour) 2 b d r d' evs
    | None, None, Some b => endsAt w hour (filenameOf cycle hour) 3 b d r d' evs
    | None, None, None => givesUp hour d r d' evs
    end.
Proof.
  intros Hskip Htemp.
  destruct (downloadWithRetry_cases w tmp date cycle hour d Hskip Htemp)
    as (r & d' & evs & E & J & C).
  exists r, d', evs. auto.
Qed.

(** C6, amended. A job skips its download, reports success and touches
    nothing when the staging directory already holds the file of its
    hour with more than 1 MiB. What the published directory holds plays
    no part: a job that does not find its file in the staging directory
    ends the same way whatever lies outside it, and when it reports
    success it has sent a request and put the file it fetched in the
    staging directory. *)
Theorem downloadWithRetry_skips (w : World) (tmp date cycle hour : string) (d : Dir) :
  (complete d (filenameOf cycle hour) = true ->
   forall (f0 : FS) (l : list Event),
     downloadWithRetry w tmp date cycle hour (staged f0 tmp d l)
       = (None, staged f0 tmp d l)) /\
  (complete d (filenameOf cycle hour) = false ->
   d !! (filenameOf cycle hour +:+ ".tmp") = None ->
   exists r d' evs,
     (forall (f0 : FS) (l : list Event),
        downloadWithRetry w tmp date cycle hour (staged f0 tmp d l)
          = (r, staged f0 tmp d' (l ++ evs))) /\
     (r = None ->
      (1 <= requests evs)%nat /\
      exists b, minSize < b /\ d' = <[filenameOf cycle hour := b]> d)).
Proof.
  split.
  - intros Hc f0 l. unfold downloadWithRetry. mstep. rewrite stat_staged. cbv beta iota.
    unfold complete in Hc. destruct (d !! filenameOf cycle hour); [|discriminate].
    rewrite Hc. reflexivity.
  - intros Hskip Htemp.
    destruct (downloadWithRetry_cases w tmp date cycle hour d Hskip Htemp)
      as (r & d' & evs & E & _ & C).
    exists r, d', evs. split; [exact E|]. intros ->.
    unfold endsAt, givesUp in C.
    destruct (good (net w hour 1)) as [b|] eqn:G1;
      [|destruct (good (net w hour 2)) as [b|] eqn:G2;
        [|destruct (good (net w hour 3)) as [b|] eqn:G3]].
    1-3: destruct C as (_ & [Hr _] & C); (split; [exact Hr|]); exists b;
      (split; [eapply good_size; eassumption|]);
      match type of C with context [renameFails ?a] => destruct (renameFails a) end;
      destruct C as [C1 C2]; [discriminate | exact C2].
    destruct C as ((e & C) & _). discriminate.
Qed.


Lemma filenameOf_inj (cycle h h' : string) : filenameOf cycle h = filenameOf cycle h' -> h = h'.
Proof.
  unfold filenameOf. intros E.
  repeat (apply (inj (String.app _)) in E). exact E.
Qed.

Lemma length_filenameOf (cycle h : string) :
  String.length (filenameOf cycle h) = (String.length cycle + String.length h + 19)%nat.
Proof. unfold filenameOf. rewrite !length_append. simpl. lia. Qed.

Lemma job_summary (w : World) (hour filename : string) (d d' : Dir)
  (r : option DownloadError) (evs : list Event) :
  match good (net w hour 1), good (net w hour 2), good (net w hour 3) with
  | Some b, _, _ => endsAt w hour filename 1 b d r d' evs
  | None, Some b, _ => endsAt w hour filename 2 b d r d' evs
  | None, None, Some b => endsAt w hour filename 3 b d r d' evs
  | None, None, None => givesUp hour d r d' evs
  end ->
  (d' = d \/ exists b, d' = <[filename := b]> d) /\ (allFail w hour -> is_Some r).
Proof.
  unfold allFail, endsAt, givesUp.
  destruct (good (net w hour 1)); [|destruct (good (net w hour 2));
    [|destruct (good (net w hour 3))]].
  1-3: intros (_ & _ & H);
    match type of H with context [renameFails ?a] => destruct (renameFails a) end;
    destruct H as [-> ->]; (split; [eauto | intros (? & ? & ?); discriminate]).
  intros ((e & ->) & _ & _ & ->). split; [auto | eauto].
Qed.

Lemma countFailed_cons (r : option DownloadError) (rs : list (option DownloadError)) :
  countFailed (r :: rs) =
    ((if r is Some _ then 1 else 0) + countFailed rs)%nat.
Proof.
  unfold countFailed. destruct r.
  - rewrite filter_cons_True by eauto. reflexivity.
  - rewrite filter_cons_False by (intros [? ?]; discriminate). reflexivity.
Qed.

(** The jobs of a run: they touch the staging directory only, add
    requests and pauses to the log, and count a failure for every hour
    whose attempts all fail. *)
Lemma runJobs_spec (w : World) (tmp date cycle : string) (hours : list string) :
  forall (done : list string) (d : Dir),
    NoDup hours ->
    (forall h, h ∈ hours -> h ∉ done) ->
    (forall h, h ∈ hours \/ h ∈ done -> String.length h = 3%nat) ->
    onlyFilesOf cycle done d ->
    exists rs d' evs,
      (forall (f0 : FS) (l : list Event),
         runJobs w tmp date cycle hours (staged f0 tmp d l)
           = (rs, staged f0 tmp d' (l ++ evs))) /\
      Forall jobEvent evs /\
      (forall h, h ∈ hours -> allFail w h -> (0 < countFailed rs)%nat).
Proof.
  induction hours as [|h hours IH]; intros done d ND Hfresh Hlen Hinv.
  - exists [], d, []. repeat split.
    + intros f0 l. rewrite app_nil_r. reflexivity.
    + constructor.
    + intros h Hh. inversion Hh.
  - apply NoDup_cons in ND as [Hh ND].
    assert (Hfile : d !! filenameOf cycle h = None).
    { destruct (d !! filenameOf cycle h) as [size|] eqn:E; [|reflexivity].
      destruct (Hinv (filenameOf cycle h)) as (h' & Hin & Heq); [eauto|].
      apply filenameOf_inj in Heq. subst h'.
      exfalso. apply (Hfresh h); [left | assumption]. }
    assert (Htemp : d !! (filenameOf cycle h +:+ ".tmp") = None).
    { destruct (d !! (filenameOf cycle h +:+ ".tmp")) as [size|] eqn:E; [|reflexivity].
      destruct (Hinv (filenameOf cycle h +:+ ".tmp")) as (h' & Hin & Heq); [eauto|].
      apply (f_equal String.length) in Heq.
      rewrite length_append, !length_filenameOf in Heq.
      rewrite (Hlen h), (Hlen h') in Heq by (auto; left; left). simpl in Heq. lia. }
    assert (Hc : complete d (filenameOf cycle h) = false).
    { unfold complete. rewrite Hfile. reflexivity. }
    destruct (downloadWithRetry_cases w tmp date cycle h d Hc Htemp)
      as (r & d1 & evs1 & E1 & J1 & C1).
    apply job_summary in C1 as [Hd1 Hfail].
    destruct (IH (h :: done) d1) as (rs & d' & evs & E & J & F).
    + exact ND.
    + intros h' Hin [-> | Hd]%elem_of_cons; [contradiction|].
      apply (Hfresh h'); [right|]; assumption.
    + intros h' [Hin | [-> | Hin]%elem_of_cons]; apply Hlen; auto.
      * left. right. assumption.
      * left. left.
    + intros n Hn. destruct Hd1 as [-> | [b ->]].
      * destruct (Hinv n Hn) as (h' & Hin & ->). exists h'. split; [right|]; auto.
      * destruct (decide (n = filenameOf cycle h)) as [-> | Hne].
        -- exists h. split; [left | reflexivity].
        -- rewrite lookup_insert_ne in Hn by congruence.
           destruct (Hinv n Hn) as (h' & Hin & ->). exists h'. split; [right|]; auto.
    + exists (r :: rs), d', (evs1 ++ evs)%list. repeat split.
      * intros f0 l. cbn [runJobs]. mstep. rewrite E1. cbv beta iota.
        mstep. rewrite E. cbv beta iota. rewrite <- app_assoc. reflexivity.
      * apply Forall_app. split; assumption.
      * intros h' [-> | Hin]%elem_of_cons Hall; rewrite countFailed_cons.
        -- destruct (Hfail Hall) as [e ->]. lia.
        -- pose proof (F h' Hin Hall). lia.
Qed.

Lemma forecastHours_NoDup : NoDup forecastHours.
Proof. apply (bool_decide_unpack _). vm_compute. reflexivity. Qed.

Lemma forecastHours_length (h : string) : h ∈ forecastHours -> String.length h = 3%nat.
Proof.
  intros H. assert (F : Forall (fun h => String.length h = 3%nat) forecastHours)
    by (repeat constructor).
  rewrite Forall_forall in F. apply F, H.
Qed.

Lemma jobEvent_keeps_output (e : Event) : jobEvent e -> ~ touchesOutput e.
Proof. destruct e; simpl; intros H [E | [src E]]; try discriminate; contradiction. Qed.

(** C2. When the attempts of some forecast hour all fail, [run] returns
    the error that counts the failed downloads, and the file system is
    exactly what it was before the run: the staging directory is gone and
    the published directory was neither removed nor renamed over. *)
Theorem run_failure_leaves_output (w : World) (f0 : FS) (l0 : list Event)
  (tmp hour : string) :
  mkdirAllFails w = false ->
  mkdirTemp w = Some tmp ->
  f0 !! tmp = None ->
  tmp <> outputDir ->
  hour ∈ forecastHours ->
  allFail w hour ->
  exists failed evs,
    run w {| fs := f0; log := l0 |}
      = (Some (DownloadsFailed failed), {| fs := f0; log := l0 ++ evs |}) /\
    (0 < failed)%nat /\
    Forall (fun e => ~ touchesOutput e) evs.
Proof.
  intros HmkAll HmkTemp Hfresh Hne Hhour Hfail.
  unfold run. rewrite HmkAll, HmkTemp.
  destruct (getCurrentCycle (now w)) as [date cycle] eqn:Ecycle.
  destruct (runJobs_spec w tmp date cycle forecastHours [] ∅) as (rs & d' & evs & E & J & F).
  - exact forecastHours_NoDup.
  - intros h _ Hin. inversion Hin.
  - intros h [Hin | Hin]; [apply forecastHours_length, Hin | inversion Hin].
  - intros n [x Hn]. rewrite lookup_empty in Hn. discriminate.
  - pose proof (F hour Hhour Hfail) as Hpos.
    exists (countFailed rs), (evs ++ [RemovedAll tmp])%list. repeat split.
    + mstep. unfold getFS at 1. cbv beta iota. mstep. unfold putFS at 1. cbv beta iota.
      change {| fs := <[tmp := ∅]> (fs {| fs := f0; log := l0 |});
                log := log {| fs := f0; log := l0 |} |} with (staged f0 tmp ∅ l0).
      mstep. unfold publish. rewrite Ecycle. mstep. rewrite E. cbv beta iota.
      destruct (Nat.ltb_spec 0 (countFailed rs)) as [_ | Hc]; [|lia].
      unfold mret at 1, M_ret at 1. cbv beta iota.
      mstep. unfold getFS at 1. cbv beta iota. unfold staged at 1. cbn [fs].
      rewrite lookup_insert_eq. mstep. unfold removeAll. mstep.
      unfold getFS at 1. cbv beta iota. mstep. unfold putFS at 1. cbv beta iota.
      unfold emit, mret, M_ret, staged. cbn [fs log].
      rewrite delete_insert_id by assumption. rewrite <- app_assoc. reflexivity.
    + exact Hpos.
    + apply Forall_app. split.
      * eapply Forall_impl; [exact J|]. apply jobEvent_keeps_output.
      * repeat constructor. intros [E' | [src E']]; [|discriminate].
        injection E' as E'. contradiction.
Qed.

End DownloadFacts.

(** *** The orchestrator on the example worlds *)

Module DownloadExamples.
Import GoStrings GoTime Download DownloadFacts FetchWorlds.

(** C6, as stated, fails on the code: the published directory holds the
    file of hour 000 with five MiB, and the job of hour 000 downloads it
    all the same, into the fresh staging directory. *)
Lemma downloadWithRetry_ignores_published :
  published !! outputDir ≫= (fun d => d !! hour000) = Some (5 * MiB) /\
  minSize < 5 * MiB /\
  downloadWithRetry allFine staging "20240501" "00" "000" (staged published staging ∅ [])
    = (None, staged published staging {[ hour000 := 2 * MiB ]} [Request url000]).
Proof. repeat split; vm_compute; reflexivity. Qed.

(** The theorem of C6 on a staging directory that holds the file, and on
    an empty one. *)
Lemma downloadWithRetry_skips_witness :
  downloadWithRetry allFine staging "20240501" "00" "000"
    (staged published staging {[ hour000 := 2 * MiB ]} [])
  = (None, staged published staging {[ hour000 := 2 * MiB ]} []) /\
  exists r d' evs,
    (forall (f0 : FS) (l : list Event),
       downloadWithRetry allFine staging "20240501" "00" "000" (staged f0 staging ∅ l)
         = (r, staged f0 staging d' (l ++ evs))) /\
    (r = None ->
     (1 <= requests evs)%nat /\
     exists b, minSize < b /\ d' = <[hour000 := b]> ∅).
Proof.
  split.
  - apply (proj1 (downloadWithRetry_skips allFine staging "20240501" "00" "000"
                    {[ hour000 := 2 * MiB ]})).
    vm_compute. reflexivity.
  - exact (proj2 (downloadWithRetry_skips allFine staging "20240501" "00" "000" ∅)
             eq_refl eq_refl).
Defined.

(** C8, as stated, fails on the code: the temporary file cannot be
    created at the first attempt, and the job does not fail; it pauses,
    tries again and succeeds. *)
Lemma downloadWithRetry_retries_create_failure :
  fetch (net createFailsOnce "000" 1) = CreateFails /\
  downloadWithRetry createFailsOnce staging "20240501" "00" "000"
    (staged published staging ∅ [])
  = (None, staged published staging {[ hour000 := 2 * MiB ]}
             [Sleep retryDelay; Request url000]).
Proof. split; vm_compute; reflexivity. Qed.

(** The theorem of C8 on the job whose first attempt cannot create its
    file. *)
Lemma downloadWithRetry_attempts_witness :
  exists r d' evs,
    downloadWithRetry createFailsOnce staging "20240501" "00" "000"
      (staged published staging ∅ [])
      = (r, staged published staging d' ([] ++ evs)) /\
    Forall jobEvent evs /\
    endsAt createFailsOnce "000" hour000 2 (2 * MiB) ∅ r d' evs.
Proof.
  exact (downloadWithRetry_attempts createFailsOnce staging "20240501" "00" "000"
           published ∅ [] eq_refl eq_refl).
Defined.

Lemma hour007_listed : "007" ∈ forecastHours.
Proof. apply (list_elem_of_lookup_2 _ 7%nat). reflexivity. Qed.

(** The theorem of C2 on the run in which hour 007 never answers. *)
Lemma run_failure_leaves_output_witness :
  exists failed evs,
    run oneHourDown {| fs := published; log := [] |}
      = (Some (DownloadsFailed failed), {| fs := published; log := [] ++ evs |}) /\
    (0 < failed)%nat /\
    Forall (fun e => ~ touchesOutput e) evs.
Proof.
  apply (run_failure_leaves_output oneHourDown published [] staging "007").
  - reflexivity.
  - reflexivity.
  - vm_compute. reflexivity.
  - discriminate.
  - exact hour007_listed.
  - repeat split.
Defined.

End DownloadExamples.

(** *** The fetch run as a whole *)

Module RunFacts.
Import GoStrings GoTime Download DownloadFacts.

(** A job, by what it delivers. *)
Lemma downloadWithRetry_delivers (w : World) (tmp date cycle hour : string) (d : Dir) :
  complete d (filenameOf cycle hour) = false ->
  d !! (filenameOf cycle hour +:+ ".tmp") = None ->
  exists r d' evs,
    (forall (f0 : FS) (l : list Event),
       downloadWithRetry w tmp date cycle hour (staged f0 tmp d l)
         = (r, staged f0 tmp d' (l ++ evs))) /\
    Forall jobEvent evs /\
    (requests evs <= 3)%nat /\
    (length (pauses evs) <= 2)%nat /\
    match delivered w hour with
    | Some b => r = None /\ d' = <[filenameOf cycle hour := b]> d /\ minSize < b
    | None => is_Some r /\ d' = d
    end.
Proof.
  intros Hskip Htemp.
  destruct (downloadWithRetry_cases w tmp date cycle hour d Hskip Htemp)
    as (r & d' & evs & E & J & C).
  exists r, d', evs. split; [exact E|]. split; [exact J|].
  unfold delivered, endsAt, givesUp in *.
  destruct (good (net w hour 1)) as [b|] eqn:G1;
    [|destruct (good (net w hour 2)) as [b|] eqn:G2;
      [|destruct (good (net w hour 3)) as [b|] eqn:G3]].
  1-3: destruct C as (P & [_ R] & C); rewrite P, length_replicate;
    (split; [lia|]); (split; [simpl; lia|]);
    match type of C with context [renameFails ?a] => destruct (renameFails a) end;
    destruct C as [-> ->]; [split; [eauto | reflexivity]|];
    (split; [reflexivity|]); (split; [reflexivity|]); eapply good_size; eassumption.
  destruct C as ((e & ->) & P & R & ->). rewrite P. simpl. repeat split; eauto; lia.
Qed.

Lemma stagedFiles_cons (w : World) (cycle h : string) (hours : list string) (d : Dir) :
  stagedFiles w cycle (h :: hours) d =
    stagedFiles w cycle hours
      (match delivered w h with Some b => <[filenameOf cycle h := b]> d | None => d end).
Proof. reflexivity. Qed.

Lemma onlyFilesOf_step (w : World) (cycle h : string) (done : list string) (d : Dir) :
  onlyFilesOf cycle done d ->
  onlyFilesOf cycle (h :: done)
    (match delivered w h with Some b => <[filenameOf cycle h := b]> d | None => d end).
Proof.
  intros Hinv n Hn. destruct (delivered w h) as [b|].
  - destruct (decide (n = filenameOf cycle h)) as [-> | Hne].
    + exists h. split; [left | reflexivity].
    + rewrite lookup_insert_ne in Hn by congruence.
      destruct (Hinv n Hn) as (h' & Hin & ->). exists h'. split; [right|]; auto.
  - destruct (Hinv n Hn) as (h' & Hin & ->). exists h'. split; [right|]; auto.
Qed.

(** The hours not yet done have neither their file nor their temporary
    file in a staging directory that holds files of done hours only. *)
Lemma onlyFilesOf_fresh (cycle h : string) (done : list string) (d : Dir) :
  onlyFilesOf cycle done d -> h ∉ done ->
  (forall h', h' = h \/ h' ∈ done -> String.length h' = 3%nat) ->
  complete d (filenameOf cycle h) = false /\
  d !! (filenameOf cycle h +:+ ".tmp") = None.
Proof.
  intros Hinv Hfresh Hlen. split.
  - unfold complete. destruct (d !! filenameOf cycle h) as [size|] eqn:E; [|reflexivity].
    destruct (Hinv (filenameOf cycle h)) as (h' & Hin & Heq); [eauto|].
    apply filenameOf_inj in Heq. subst h'. contradiction.
  - destruct (d !! (filenameOf cycle h +:+ ".tmp")) as [size|] eqn:E; [|reflexivity].
    destruct (Hinv (filenameOf cycle h +:+ ".tmp")) as (h' & Hin & Heq); [eauto|].
    apply (f_equal String.length) in Heq.
    rewrite length_append, !length_filenameOf in Heq.
    rewrite (Hlen h), (Hlen h') in Heq by auto. simpl in Heq. lia.
Qed.

(** The jobs of a run, in full: what they leave in the staging directory,
    how many requests and pauses they make at most, and when none fails. *)
Lemma runJobs_full (w : World) (tmp date cycle : string) (hours : list string) :
  forall (done : list string) (d : Dir),
    NoDup hours ->
    (forall h, h ∈ hours -> h ∉ done) ->
    (forall h, h ∈ hours \/ h ∈ done -> String.length h = 3%nat) ->
    onlyFilesOf cycle done d ->
    exists rs evs,
      (forall (f0 : FS) (l : list Event),
         runJobs w tmp date cycle hours (staged f0 tmp d l)
           = (rs, staged f0 tmp (stagedFiles w cycle hours d) (l ++ evs))) /\
      Forall jobEvent evs /\
      (requests evs <= 3 * length hours)%nat /\
      (length (pauses evs) <= 2 * length hours)%nat /\
      (countFailed rs = 0%nat <-> Forall (fun h => is_Some (delivered w h)) hours).
Proof.
  induction hours as [|h hours IH]; intros done d ND Hfresh Hlen Hinv.
  - exists [], []. repeat split; try (simpl; lia); try constructor.
    intros f0 l. rewrite app_nil_r. reflexivity.
  - apply NoDup_cons in ND as [Hh ND].
    destruct (onlyFilesOf_fresh cycle h done d Hinv) as [Hc Htemp].
    { apply Hfresh. left. }
    { intros h' [-> | Hin]; apply Hlen; [left; left | right; assumption]. }
    destruct (downloadWithRetry_delivers w tmp date cycle h d Hc Htemp)
      as (r & d1 & evs1 & E1 & J1 & R1 & P1 & D1).
    assert (Hd1 : d1 = match delivered w h with
                       | Some b => <[filenameOf cycle h := b]> d
                       | None => d
                       end).
    { destruct (delivered w h); tauto. }
    destruct (IH (h :: done) d1) as (rs & evs & E & J & R & P & F).
    + exact ND.
    + intros h' Hin [-> | Hd]%elem_of_cons; [contradiction|].
      apply (Hfresh h'); [right|]; assumption.
    + intros h' [Hin | [-> | Hin]%elem_of_cons]; apply Hlen; auto.
      * left. right. assumption.
      * left. left.
    + rewrite Hd1. apply onlyFilesOf_step, Hinv.
    + exists (r :: rs), (evs1 ++ evs)%list. split; [|split; [|split; [|split]]].
      * intros f0 l. cbn [runJobs]. mstep. rewrite E1. cbv beta iota.
        mstep. rewrite E. cbv beta iota. rewrite <- app_assoc.
        rewrite stagedFiles_cons, <- Hd1. reflexivity.
      * apply Forall_app. split; assumption.
      * rewrite requests_app. simpl length. lia.
      * rewrite pauses_app, length_app. simpl length. lia.
      * rewrite countFailed_cons, Forall_cons.
        destruct (delivered w h) as [b|].
        -- destruct D1 as (-> & _). rewrite <- F. split; [intros H; split; [eauto | lia] | intros [_ H]; lia].
        -- destruct D1 as ([e ->] & _). split; [lia | intros [[x Hx] _]; discriminate].
Qed.

Lemma fs_after_move (f0 : FS) (tmp : string) (new : Dir) :
  f0 !! tmp = None -> tmp <> outputDir ->
  <[outputDir := new]> (delete tmp (delete outputDir (<[tmp := new]> f0)))
    = <[outputDir := new]> f0 /\
  <[outputDir := new]> (delete tmp (<[tmp := new]> f0)) = <[outputDir := new]> f0 /\
  delete tmp (delete outputDir (<[tmp := new]> f0)) = delete outputDir f0.
Proof.
  intros Hfresh Hne.
  assert (Hne' : outputDir <> tmp) by congruence.
  repeat split; apply map_eq; intros i;
    (destruct (decide (i = outputDir)) as [Eo | No];
     [subst i | destruct (decide (i = tmp)) as [Et | Nt]; [subst i|]]);
    repeat first [rewrite lookup_insert_eq | rewrite lookup_delete_eq
                 | rewrite lookup_insert_ne by congruence
                 | rewrite lookup_delete_ne by congruence];
    try reflexivity; try (symmetry; assumption); try assumption.
Qed.

Lemma fs_after_partial (f0 : FS) (tmp : string) (new left : Dir) :
  f0 !! tmp = None -> tmp <> outputDir ->
  delete tmp (<[outputDir := left]> (<[tmp := new]> f0)) = <[outputDir := left]> f0.
Proof.
  intros Hfresh Hne.
  assert (Hne' : outputDir <> tmp) by congruence.
  apply map_eq; intros i;
    (destruct (decide (i = outputDir)) as [Eo | No];
     [subst i | destruct (decide (i = tmp)) as [Et | Nt]; [subst i|]]);
    repeat first [rewrite lookup_insert_eq | rewrite lookup_delete_eq
                 | rewrite lookup_insert_ne by congruence
                 | rewrite lookup_delete_ne by congruence];
    try reflexivity; try (symmetry; assumption); try assumption.
Qed.

Ltac run_M :=
  cbv [mbind M_bind mret M_ret getFS putFS emit removeAll removePartly renameDir
       staged fs log].

(** The whole of [run] once the staging directory exists: the jobs, then
    the publication or the reason it is given up, then the clean-up. *)
Lemma run_shape (w : World) (f0 : FS) (l0 : list Event) (tmp : string) :
  mkdirAllFails w = false ->
  mkdirTemp w = Some tmp ->
  f0 !! tmp = None ->
  tmp <> outputDir ->
  exists rs evs,
    Forall jobEvent evs /\
    (requests evs <= 75)%nat /\
    (length (pauses evs) <= 50)%nat /\
    (countFailed rs = 0%nat <->
     Forall (fun h => is_Some (delivered w h)) forecastHours) /\
    run w {| fs := f0; log := l0 |} =
      let new := stagedFiles w (getCurrentCycle (now w)).2 forecastHours ∅ in
      if (0 <? countFailed rs)%nat
      then (Some (DownloadsFailed (countFailed rs)),
            {| fs := f0; log := l0 ++ evs ++ [RemovedAll tmp] |})
      else
        match f0 !! outputDir with
        | Some old =>
            if removeOldFails w
            then (Some FailedToRemoveOldOutputDirectory,
                  {| fs := <[outputDir := removeFiles (removedFirst w) old]> f0;
                     log := l0 ++ evs ++ [RemovedAll tmp] |})
            else if moveFails w
            then (Some FailedToMoveTempDirectory,
                  {| fs := delete outputDir f0;
                     log := l0 ++ evs ++ [RemovedAll outputDir; RemovedAll tmp] |})
            else (None,
                  {| fs := <[outputDir := new]> f0;
                     log := l0 ++ evs ++ [RemovedAll outputDir; RenamedDir tmp outputDir] |})
        | None =>
            if moveFails w
            then (Some FailedToMoveTempDirectory,
                  {| fs := f0; log := l0 ++ evs ++ [RemovedAll tmp] |})
            else (None,
                  {| fs := <[outputDir := new]> f0;
                     log := l0 ++ evs ++ [RenamedDir tmp outputDir] |})
        end.
Proof.
  intros HmkAll HmkTemp Hfresh Hne.
  unfold run. rewrite HmkAll, HmkTemp.
  destruct (getCurrentCycle (now w)) as [date cycle] eqn:Ecycle.
  destruct (runJobs_full w tmp date cycle forecastHours [] ∅) as (rs & evs & E & J & R & P & F).
  - exact forecastHours_NoDup.
  - intros h _ Hin. inversion Hin.
  - intros h [Hin | Hin]; [apply forecastHours_length, Hin | inversion Hin].
  - intros n [x Hn]. rewrite lookup_empty in Hn. discriminate.
  - exists rs, evs. split; [exact J|]. split; [exact R|]. split; [exact P|]. split; [exact F|].
    cbn [snd]. cbv zeta.
    set (new := stagedFiles w cycle forecastHours ∅) in *.
    destruct (fs_after_move f0 tmp new Hfresh Hne) as (M1 & M2 & M3).
    mstep. unfold getFS at 1. cbv beta iota. mstep. unfold putFS at 1. cbv beta iota.
    change {| fs := <[tmp := ∅]> (fs {| fs := f0; log := l0 |});
              log := log {| fs := f0; log := l0 |} |} with (staged f0 tmp ∅ l0).
    mstep. unfold publish. rewrite Ecycle. mstep. rewrite E. cbv beta iota. fold new.
    destruct (0 <? countFailed rs)%nat.
    + run_M. rewrite lookup_insert_eq. run_M.
      rewrite delete_insert_id by assumption. rewrite <- app_assoc. reflexivity.
    + run_M. rewrite lookup_insert_ne by assumption.
      destruct (f0 !! outputDir) as [old|] eqn:Eold.
      * destruct (removeOldFails w).
        -- run_M. rewrite lookup_insert_ne by assumption. rewrite Eold. run_M.
           rewrite lookup_insert_ne by congruence. rewrite lookup_insert_eq. run_M.
           rewrite fs_after_partial by assumption. rewrite <- app_assoc. reflexivity.
        -- run_M. destruct (moveFails w).
           ++ run_M. rewrite lookup_delete_ne by congruence.
              rewrite lookup_insert_eq. run_M.
              rewrite M3. rewrite <- !app_assoc. reflexivity.
           ++ run_M. rewrite lookup_delete_ne by congruence. rewrite lookup_insert_eq.
              run_M. rewrite lookup_insert_ne by congruence.
              rewrite lookup_delete_eq. rewrite M1. rewrite <- !app_assoc. reflexivity.
      * destruct (moveFails w).
        -- run_M. rewrite lookup_insert_eq. run_M.
           rewrite delete_insert_id by assumption. rewrite <- app_assoc. reflexivity.
        -- run_M. rewrite lookup_insert_eq. run_M.
           rewrite lookup_insert_ne by congruence. rewrite lookup_delete_eq.
           rewrite M2. rewrite <- !app_assoc. reflexivity.
Qed.

Lemma requests_tail (evs tail : list Event) :
  Forall (fun e => ~ jobEvent e) tail ->
  requests (evs ++ tail) = requests evs /\ pauses (evs ++ tail) = pauses evs.
Proof.
  intros H. rewrite requests_app, pauses_app.
  assert (requests tail = 0%nat /\ pauses tail = []) as [-> ->].
  { induction H as [|e tail He _ [IH1 IH2]]; [split; reflexivity|].
    destruct e; simpl in He; try (exfalso; apply He; exact I).
    - split; [exact IH1 | exact IH2].
    - split; [exact IH1 | exact IH2]. }
  rewrite Nat.add_0_r, app_nil_r. auto.
Qed.

Lemma stagedFiles_other (w : World) (cycle : string) (hours : list string) (d : Dir)
  (n : string) :
  (forall h, h ∈ hours -> n <> filenameOf cycle h) ->
  stagedFiles w cycle hours d !! n = d !! n.
Proof.
  revert d. induction hours as [|h hours IH]; intros d Hn; [reflexivity|].
  rewrite stagedFiles_cons.
  rewrite IH by (intros h' Hin; apply Hn; right; exact Hin).
  destruct (delivered w h); [|reflexivity].
  apply lookup_insert_ne. intros E. apply (Hn h); [left | congruence].
Qed.

(** The files of the staging directory after the jobs: one for each hour
    that delivers, of the size delivered, and nothing else. *)
Lemma stagedFiles_lookup (w : World) (cycle : string) (hours : list string)
  (n : string) (b : Z) :
  NoDup hours ->
  stagedFiles w cycle hours ∅ !! n = Some b <->
  exists h, h ∈ hours /\ n = filenameOf cycle h /\ delivered w h = Some b.
Proof.
  intros ND.
  assert (G : forall d,
    stagedFiles w cycle hours d !! n = Some b <->
    (exists h, h ∈ hours /\ n = filenameOf cycle h /\ delivered w h = Some b) \/
    (d !! n = Some b /\
     forall h, h ∈ hours -> is_Some (delivered w h) -> n <> filenameOf cycle h)).
  { induction hours as [|h hours IH]; intros d.
    - simpl. split.
      + intros H. right. split; [exact H|]. intros h Hin. inversion Hin.
      + intros [(h & Hin & _) | [H _]]; [inversion Hin | exact H].
    - apply NoDup_cons in ND as [Hh ND]. specialize (IH ND).
      rewrite stagedFiles_cons, IH. clear IH. split.
      + intros [(h' & Hin & E & D) | [Hd Hrest]].
        * left. exists h'. split; [right; exact Hin | auto].
        * destruct (delivered w h) as [b'|] eqn:D.
          -- destruct (decide (n = filenameOf cycle h)) as [-> | Hne].
             ++ rewrite lookup_insert_eq in Hd. injection Hd as ->.
                left. exists h. split; [left | auto].
             ++ rewrite lookup_insert_ne in Hd by congruence.
                right. split; [exact Hd|].
                intros h' [-> | Hin]%elem_of_cons Hs; [exact Hne | apply Hrest; assumption].
          -- right. split; [exact Hd|].
             intros h' [-> | Hin]%elem_of_cons Hs;
               [rewrite D in Hs; destruct Hs; discriminate | apply Hrest; assumption].
      + intros [(h' & [-> | Hin]%elem_of_cons & E & D) | [Hd Hrest]].
        * right. rewrite D, E. split; [apply lookup_insert_eq|].
          intros h' Hin _ Heq. apply filenameOf_inj in Heq. subst h'. contradiction.
        * left. eauto.
        * right. split.
          -- destruct (delivered w h) as [b'|] eqn:D; [|exact Hd].
             rewrite lookup_insert_ne; [exact Hd|].
             intros Heq. apply (Hrest h); [left | rewrite D; eauto | congruence].
          -- intros h' Hin. apply Hrest. right. exact Hin. }
  rewrite G. split; [|auto].
  intros [H | [H _]]; [exact H|]. rewrite lookup_empty in H. discriminate.
Qed.

Lemma delivered_size (w : World) (hour : string) (b : Z) :
  delivered w hour = Some b -> minSize < b.
Proof.
  unfold delivered.
  destruct (good (net w hour 1)) as [b1|] eqn:G1;
    [|destruct (good (net w hour 2)) as [b2|] eqn:G2;
      [|destruct (good (net w hour 3)) as [b3|] eqn:G3; [|discriminate]]].
  all: match goal with |- context [renameFails ?a] => destruct (renameFails a) end;
    [discriminate|]; intros [= <-]; eapply good_size; eassumption.
Qed.

(** X3. In the file system of this model, where the removals whose error
    the code drops (that of a temporary file, and the deferred one of the
    staging directory) succeed: whatever the network answers, and
    whichever of the file creations, the renames, the removal of the old
    directory and the final move fail, [run] leaves no staging directory
    behind and changes no directory but the published one; it sends at
    most 75 requests and pauses at most 50 times; and it returns without
    error only when every hour has delivered its file and the published
    directory holds the files of this run. *)
Theorem run_cleans_up (w : World) (f0 : FS) (l0 : list Event) (tmp : string) :
  mkdirAllFails w = false ->
  mkdirTemp w = Some tmp ->
  f0 !! tmp = None ->
  tmp <> outputDir ->
  exists r f' evs,
    run w {| fs := f0; log := l0 |} = (r, {| fs := f'; log := l0 ++ evs |}) /\
    f' !! tmp = None /\
    (forall dir, dir <> outputDir -> f' !! dir = f0 !! dir) /\
    (requests evs <= 75)%nat /\
    (length (pauses evs) <= 50)%nat /\
    (r = None ->
     Forall (fun h => is_Some (delivered w h)) forecastHours /\
     f' !! outputDir
       = Some (stagedFiles w (getCurrentCycle (now w)).2 forecastHours ∅)).
Proof.
  intros HmkAll HmkTemp Hfresh Hne.
  destruct (run_shape w f0 l0 tmp HmkAll HmkTemp Hfresh Hne)
    as (rs & evs & J & R & P & F & E).
  cbv zeta in E.
  assert (T1 : forall tail, Forall (fun e => ~ jobEvent e) tail ->
            (requests (evs ++ tail) <= 75)%nat /\ (length (pauses (evs ++ tail)) <= 50)%nat).
  { intros tail H. destruct (requests_tail evs tail H) as [-> ->]. auto. }
  assert (Hkeep : forall (new : Dir) dir, dir <> outputDir ->
            (<[outputDir := new]> f0) !! dir = f0 !! dir).
  { intros new dir Hd. apply lookup_insert_ne. congruence. }
  assert (Hdel : forall dir, dir <> outputDir -> delete outputDir f0 !! dir = f0 !! dir).
  { intros dir Hd. apply lookup_delete_ne. congruence. }
  destruct (Nat.ltb_spec 0 (countFailed rs)) as [Hpos | Hzero].
  { exists (Some (DownloadsFailed (countFailed rs))), f0, (evs ++ [RemovedAll tmp])%list.
    destruct (T1 [RemovedAll tmp]) as [T R']; [repeat constructor; simpl; tauto|].
    repeat split; try assumption; try discriminate. }
  assert (Hall : Forall (fun h => is_Some (delivered w h)) forecastHours)
    by (apply F; lia).
  destruct (f0 !! outputDir) as [old|] eqn:Eold.
  - destruct (removeOldFails w).
    { exists (Some FailedToRemoveOldOutputDirectory),
        (<[outputDir := removeFiles (removedFirst w) old]> f0),
        (evs ++ [RemovedAll tmp])%list.
      destruct (T1 [RemovedAll tmp]) as [T R']; [repeat constructor; simpl; tauto|].
      repeat split; try assumption; try discriminate; auto.
      rewrite lookup_insert_ne by congruence. assumption. }
    destruct (moveFails w).
    { exists (Some FailedToMoveTempDirectory), (delete outputDir f0),
        (evs ++ [RemovedAll outputDir; RemovedAll tmp])%list.
      destruct (T1 [RemovedAll outputDir; RemovedAll tmp]) as [T R'];
        [repeat constructor; simpl; tauto|].
      repeat split; try assumption; try discriminate.
      rewrite lookup_delete_ne by congruence. assumption. }
    exists None, (<[outputDir := stagedFiles w (getCurrentCycle (now w)).2 forecastHours ∅]> f0),
      (evs ++ [RemovedAll outputDir; RenamedDir tmp outputDir])%list.
    destruct (T1 [RemovedAll outputDir; RenamedDir tmp outputDir]) as [T R'];
      [repeat constructor; simpl; tauto|].
    repeat split; try assumption; auto.
    + rewrite lookup_insert_ne by congruence. assumption.
    + apply lookup_insert_eq.
  - destruct (moveFails w).
    { exists (Some FailedToMoveTempDirectory), f0, (evs ++ [RemovedAll tmp])%list.
      destruct (T1 [RemovedAll tmp]) as [T R']; [repeat constructor; simpl; tauto|].
      repeat split; try assumption; try discriminate. }
    exists None, (<[outputDir := stagedFiles w (getCurrentCycle (now w)).2 forecastHours ∅]> f0),
      (evs ++ [RenamedDir tmp outputDir])%list.
    destruct (T1 [RenamedDir tmp outputDir]) as [T R'];
      [repeat constructor; simpl; tauto|].
    repeat split; try assumption; auto.
    + rewrite lookup_insert_ne by congruence. assumption.
    + apply lookup_insert_eq.
Qed.

(** X4. When every hour delivers its file and neither the removal of the
    old directory nor the move fails, [run] returns without error and the
    published directory holds exactly the files of the 25 hours of the
    current cycle, each of the size downloaded and above 1 MiB: nothing of
    the directory published before remains, and no temporary file. *)
Theorem run_success_publishes (w : World) (f0 : FS) (l0 : list Event) (tmp : string) :
  mkdirAllFails w = false ->
  mkdirTemp w = Some tmp ->
  f0 !! tmp = None ->
  tmp <> outputDir ->
  Forall (fun h => is_Some (delivered w h)) forecastHours ->
  removeOldFails w = false ->
  moveFails w = false ->
  exists new evs,
    run w {| fs := f0; log := l0 |}
      = (None, {| fs := <[outputDir := new]> f0; log := l0 ++ evs |}) /\
    (forall n b, new !! n = Some b <->
       exists h, h ∈ forecastHours /\
                 n = filenameOf (getCurrentCycle (now w)).2 h /\
                 delivered w h = Some b) /\
    (forall n b, new !! n = Some b -> minSize < b) /\
    last evs = Some (RenamedDir tmp outputDir).
Proof.
  intros HmkAll HmkTemp Hfresh Hne Hall Hrm Hmv.
  destruct (run_shape w f0 l0 tmp HmkAll HmkTemp Hfresh Hne)
    as (rs & evs & J & R & P & F & E).
  cbv zeta in E. rewrite Hrm, Hmv in E.
  apply F in Hall. rewrite Hall in E. change (0 <? 0)%nat with false in E. cbv iota in E.
  set (new := stagedFiles w (getCurrentCycle (now w)).2 forecastHours ∅) in *.
  assert (Hlook : forall n b, new !! n = Some b <->
            exists h, h ∈ forecastHours /\
                      n = filenameOf (getCurrentCycle (now w)).2 h /\
                      delivered w h = Some b).
  { intros n b. apply stagedFiles_lookup, forecastHours_NoDup. }
  assert (Hsize : forall n b, new !! n = Some b -> minSize < b).
  { intros n b (h & _ & _ & D)%Hlook. eapply delivered_size, D. }
  destruct (f0 !! outputDir) as [old|].
  - exists new, (evs ++ [RemovedAll outputDir; RenamedDir tmp outputDir])%list.
    split; [exact E|]. split; [exact Hlook|]. split; [exact Hsize|].
    change [RemovedAll outputDir; RenamedDir tmp outputDir]
      with ([RemovedAll outputDir] ++ [RenamedDir tmp outputDir])%list.
    rewrite app_assoc. apply last_snoc.
  - exists new, (evs ++ [RenamedDir tmp outputDir])%list.
    split; [exact E|]. split; [exact Hlook|]. split; [exact Hsize|].
    apply last_snoc.
Qed.

Lemma removeFiles_lookup (names : list string) (d : Dir) (n : string) (b : Z) :
  removeFiles names d !! n = Some b <-> d !! n = Some b /\ n ∉ names.
Proof.
  unfold removeFiles. induction names as [|x names IH]; simpl.
  - split; [intros H; split; [exact H | apply not_elem_of_nil] | tauto].
  - rewrite not_elem_of_cons. destruct (decide (n = x)) as [-> | Hne].
    + rewrite lookup_delete_eq. split; [discriminate | tauto].
    + rewrite lookup_delete_ne by congruence. rewrite IH. tauto.
Qed.

(** X5. When every hour has delivered its file and a directory is
    published already, a failure of the publication leaves the run with
    an error and nothing of the new files published. If the removal of
    the old directory fails, the published directory is left with those
    of its files that the removal had not deleted before its error: all,
    some or none of them. If the removal succeeds and the move then
    fails, the old published directory is gone and the new files are
    discarded with the staging directory: nothing is published any
    more. *)
Theorem run_publish_failure (w : World) (f0 : FS) (l0 : list Event) (tmp : string)
  (old : Dir) :
  mkdirAllFails w = false ->
  mkdirTemp w = Some tmp ->
  f0 !! tmp = None ->
  tmp <> outputDir ->
  Forall (fun h => is_Some (delivered w h)) forecastHours ->
  f0 !! outputDir = Some old ->
  removeOldFails w = true \/ moveFails w = true ->
  exists r f' evs,
    run w {| fs := f0; log := l0 |} = (Some r, {| fs := f'; log := l0 ++ evs |}) /\
    f' !! tmp = None /\
    (forall dir, dir <> outputDir -> f' !! dir = f0 !! dir) /\
    if removeOldFails w
    then r = FailedToRemoveOldOutputDirectory /\
         exists left, f' !! outputDir = Some left /\
           forall n b, left !! n = Some b <-> old !! n = Some b /\ n ∉ removedFirst w
    else r = FailedToMoveTempDirectory /\ f' !! outputDir = None.
Proof.
  intros HmkAll HmkTemp Hfresh Hne Hall Hold Hfail.
  destruct (run_shape w f0 l0 tmp HmkAll HmkTemp Hfresh Hne)
    as (rs & evs & J & R & P & F & E).
  cbv zeta in E. rewrite Hold in E.
  apply F in Hall. rewrite Hall in E. change (0 <? 0)%nat with false in E. cbv iota in E.
  destruct (removeOldFails w).
  - exists FailedToRemoveOldOutputDirectory,
      (<[outputDir := removeFiles (removedFirst w) old]> f0), (evs ++ [RemovedAll tmp])%list.
    split; [exact E|]. split; [rewrite lookup_insert_ne by congruence; exact Hfresh|].
    split; [intros dir Hd; apply lookup_insert_ne; congruence|].
    split; [reflexivity|]. exists (removeFiles (removedFirst w) old).
    split; [apply lookup_insert_eq | apply removeFiles_lookup].
  - destruct Hfail as [Hfail | Hfail]; [discriminate|]. rewrite Hfail in E.
    exists FailedToMoveTempDirectory, (delete outputDir f0),
      (evs ++ [RemovedAll outputDir; RemovedAll tmp])%list.
    split; [exact E|]. split; [rewrite lookup_delete_ne by congruence; exact Hfresh|].
    split; [intros dir Hd; apply lookup_delete_ne; congruence|].
    split; [reflexivity | apply lookup_delete_eq].
Qed.

(** A job whose file is complete in the staging directory. *)
Lemma downloadWithRetry_complete (w : World) (tmp date cycle hour : string) (d : Dir)
  (f0 : FS) (l : list Event) :
  complete d (filenameOf cycle hour) = true ->
  downloadWithRetry w tmp date cycle hour (staged f0 tmp d l) = (None, staged f0 tmp d l).
Proof.
  intros Hc. unfold downloadWithRetry. mstep. rewrite stat_staged. cbv beta iota.
  unfold complete in Hc. destruct (d !! filenameOf cycle hour); [|discriminate].
  rewrite Hc. reflexivity.
Qed.

(** X6. A job that has succeeded is not done twice: run again on the
    state it left, for the same hour and cycle, in any world and for any
    date, it returns without error, sends no request and changes
    nothing. *)
Theorem downloadWithRetry_again (w w' : World) (tmp date date' cycle hour : string)
  (f0 : FS) (d : Dir) (l : list Event) (st : State) :
  complete d (filenameOf cycle hour) = false ->
  d !! (filenameOf cycle hour +:+ ".tmp") = None ->
  downloadWithRetry w tmp date cycle hour (staged f0 tmp d l) = (None, st) ->
  downloadWithRetry w' tmp date' cycle hour st = (None, st).
Proof.
  intros Hskip Htemp H.
  destruct (downloadWithRetry_delivers w tmp date cycle hour d Hskip Htemp)
    as (r & d' & evs & E & _ & _ & _ & D).
  rewrite E in H. injection H as -> <-.
  destruct (delivered w hour) as [b|].
  - destruct D as (_ & -> & Hb). apply downloadWithRetry_complete.
    unfold complete. rewrite lookup_insert_eq. apply Z.ltb_lt, Hb.
  - destruct D as ([e He] & _). discriminate.
Qed.

End RunFacts.

Module LogFacts.
Import GoStrings GoTime Download DownloadFacts.

Lemma appends_ret {A : Type} (P : Event -> Prop) (a : A) : appends P (mret a).
Proof. intros st. exists []. rewrite app_nil_r. split; [reflexivity | constructor]. Qed.

Lemma appends_bind {A B : Type} (P : Event -> Prop) (m : M A) (k : A -> M B) :
  appends P m -> (forall a, appends P (k a)) -> appends P (m ≫= k).
Proof.
  intros Hm Hk st. unfold mbind, M_bind.
  destruct (Hm st) as (e1 & E1 & F1). destruct (m st) as [a st1]. simpl in E1.
  destruct (Hk a st1) as (e2 & E2 & F2).
  exists (e1 ++ e2)%list. rewrite E2, E1, app_assoc. split; [reflexivity|].
  apply Forall_app. auto.
Qed.

Lemma appends_emit (P : Event -> Prop) (e : Event) : P e -> appends P (emit e).
Proof. intros H st. exists [e]. split; [reflexivity | repeat constructor; exact H]. Qed.

Lemma appends_getFS (P : Event -> Prop) : appends P getFS.
Proof. intros st. exists []. rewrite app_nil_r. split; [reflexivity | constructor]. Qed.

Lemma appends_putFS (P : Event -> Prop) (f : FS) : appends P (putFS f).
Proof. intros st. exists []. rewrite app_nil_r. split; [reflexivity | constructor]. Qed.

Lemma appends_impl {A : Type} (P Q : Event -> Prop) (m : M A) :
  (forall e, P e -> Q e) -> appends P m -> appends Q m.
Proof.
  intros H Hm st. destruct (Hm st) as (evs & E & F). exists evs. split; [exact E|].
  eapply Forall_impl; eauto.
Qed.

Ltac appends_tac :=
  repeat first
    [ apply appends_ret
    | apply appends_getFS
    | apply appends_putFS
    | apply appends_bind; [|intros ?]
    | match goal with
      | |- appends _ (match ?x with _ => _ end) => destruct x
      | |- appends _ (if ?x then _ else _) => destruct x
      end ].

Lemma appends_stat (P : Event -> Prop) (dir name : string) : appends P (stat dir name).
Proof. unfold stat. appends_tac. Qed.

Lemma appends_create (P : Event -> Prop) (dir name : string) (fails : bool) :
  appends P (create dir name fails).
Proof. unfold create. appends_tac. Qed.

Lemma appends_write (P : Event -> Prop) (dir name : string) (size : Z) :
  appends P (write dir name size).
Proof. unfold write. appends_tac. Qed.

Lemma appends_remove (P : Event -> Prop) (dir name : string) : appends P (remove dir name).
Proof. unfold remove. appends_tac. Qed.

Lemma appends_rename (P : Event -> Prop) (dir old new : string) (fails : bool) :
  appends P (rename dir old new fails).
Proof. unfold rename. appends_tac. Qed.

Lemma appends_downloadFile (P : Event -> Prop) (url dir name : string) (a : Fetch) :
  P (Request url) -> appends P (downloadFile url dir name a).
Proof.
  intros H. unfold downloadFile.
  destruct a; try apply appends_ret;
    (apply appends_bind; [apply appends_create|]); intros created;
    (destruct (negb created); [apply appends_ret|]);
    (apply appends_bind; [apply appends_emit, H|]); intros _;
    try apply appends_ret.
  - destruct (negb (status =? 200)); [apply appends_ret|].
    apply appends_bind; [apply appends_write | intros; apply appends_ret].
  - apply appends_bind; [apply appends_write | intros; apply appends_ret].
Qed.

Lemma appends_retry (P : Event -> Prop) (w : World) (tmp url filename hour : string)
  (remaining : nat) :
  P (Request url) -> P (Sleep retryDelay) ->
  forall attempt lastErr, appends P (retry w tmp url filename hour remaining attempt lastErr).
Proof.
  intros Hr Hs. induction remaining as [|k IH]; intros attempt lastErr; cbn [retry].
  - apply appends_bind; [apply appends_remove | intros; apply appends_ret].
  - assert (Hagain : forall e,
      appends P (_ ← (if (attempt <? maxRetries)%nat then emit (Sleep retryDelay) else mret tt);
                 retry w tmp url filename hour k (S attempt) (Some e))).
    { intros e. apply appends_bind; [|intros; apply IH].
      destruct (attempt <? maxRetries)%nat; [apply appends_emit, Hs | apply appends_ret]. }
    apply appends_bind; [apply appends_downloadFile, Hr|]. intros [e|]; [apply Hagain|].
    apply appends_bind; [apply appends_stat|]. intros [size|]; [|apply Hagain].
    destruct (minSize <? size); [|apply Hagain].
    apply appends_bind; [apply appends_rename|]. intros renamed.
    destruct (negb renamed); [|apply appends_ret].
    apply appends_bind; [apply appends_remove | intros; apply appends_ret].
Qed.

Lemma appends_downloadWithRetry (P : Event -> Prop) (w : World)
  (tmp date cycle hour : string) :
  P (Request (urlOf date cycle (filenameOf cycle hour))) -> P (Sleep retryDelay) ->
  appends P (downloadWithRetry w tmp date cycle hour).
Proof.
  intros Hr Hs. unfold downloadWithRetry.
  apply appends_bind; [apply appends_stat|]. intros [size|].
  - destruct (minSize <? size); [apply appends_ret | apply appends_retry; assumption].
  - apply appends_retry; assumption.
Qed.

Lemma appends_runJobs (P : Event -> Prop) (w : World) (tmp date cycle : string)
  (hours : list string) :
  (forall h, h ∈ hours -> P (Request (urlOf date cycle (filenameOf cycle h)))) ->
  P (Sleep retryDelay) ->
  appends P (runJobs w tmp date cycle hours).
Proof.
  intros Hr Hs. induction hours as [|h hours IH]; cbn [runJobs]; [apply appends_ret|].
  apply appends_bind; [apply appends_downloadWithRetry; [apply Hr; left | exact Hs]|].
  intros r. apply appends_bind; [|intros; apply appends_ret].
  apply IH. intros h' Hin. apply Hr. right. exact Hin.
Qed.

Lemma appends_removeAll (P : Event -> Prop) (dir : string) :
  P (RemovedAll dir) -> appends P (removeAll dir).
Proof.
  intros H. unfold removeAll. apply appends_bind; [apply appends_getFS|]. intros f.
  apply appends_bind; [apply appends_putFS|]. intros _. apply appends_emit, H.
Qed.

Lemma appends_renameDir (P : Event -> Prop) (src dst : string) :
  P (RenamedDir src dst) -> appends P (renameDir src dst).
Proof.
  intros H. unfold renameDir. apply appends_bind; [apply appends_getFS|]. intros f.
  destruct (f !! src); [|apply appends_ret].
  apply appends_bind; [apply appends_putFS|]. intros _. apply appends_emit, H.
Qed.

Lemma appends_removePartly (P : Event -> Prop) (dir : string) (names : list string) :
  appends P (removePartly dir names).
Proof. unfold removePartly. appends_tac. Qed.

(** X13. The requests and the pauses of [run], from any state and in any
    world: every URL it requests is that of one of the 25 files of the
    current cycle, and every pause it makes is of five seconds. *)
Theorem run_requests (w : World) (st : State) :
  exists evs, log (run w st).2 = (log st ++ evs)%list /\ Forall (fetchEvent w) evs.
Proof.
  revert st. change (appends (fetchEvent w) (run w)).
  assert (Hother : forall e, match e with Request _ | Sleep _ => False | _ => True end ->
                             fetchEvent w e).
  { intros e He. unfold fetchEvent. destruct (getCurrentCycle (now w)).
    destruct e; try exact I; contradiction. }
  unfold run. destruct (mkdirAllFails w); [apply appends_ret|].
  destruct (mkdirTemp w) as [tmp|] eqn:Etmp; [|apply appends_ret].
  apply appends_bind; [apply appends_getFS|]. intros f.
  apply appends_bind; [apply appends_putFS|]. intros _.
  apply appends_bind.
  - unfold publish.
    assert (Hjobs : appends (fetchEvent w)
              (runJobs w tmp (getCurrentCycle (now w)).1 (getCurrentCycle (now w)).2
                 forecastHours)).
    { apply appends_runJobs.
      - intros h Hin. unfold fetchEvent. destruct (getCurrentCycle (now w)). eauto.
      - unfold fetchEvent. destruct (getCurrentCycle (now w)). reflexivity. }
    destruct (getCurrentCycle (now w)) as [date cycle] eqn:Ecycle. cbn [fst snd] in Hjobs.
    apply appends_bind; [exact Hjobs|]. intros results.
    destruct (0 <? countFailed results)%nat; [apply appends_ret|].
    apply appends_bind; [apply appends_getFS|]. intros f1.
    assert (Hmove : appends (fetchEvent w)
              (if moveFails w then mret (Some FailedToMoveTempDirectory)
               else _ ← renameDir tmp outputDir; mret None)).
    { destruct (moveFails w); [apply appends_ret|].
      apply appends_bind; [apply appends_renameDir, Hother, I | intros; apply appends_ret]. }
    destruct (f1 !! outputDir); [|exact Hmove].
    destruct (removeOldFails w).
    + apply appends_bind; [apply appends_removePartly | intros; apply appends_ret].
    + apply appends_bind; [apply appends_removeAll, Hother, I | intros; exact Hmove].
  - intros r. apply appends_bind; [apply appends_getFS|]. intros f1.
    apply appends_bind; [|intros; apply appends_ret].
    destruct (f1 !! tmp); [apply appends_removeAll, Hother, I | apply appends_ret].
Qed.

End LogFacts.

(** *** The size in a log line *)

Module SizeFacts.
Import GoStrings GoTime Download TimeFacts.

(** The loop of [formatSize]: it stops at the first power of 1024 that
    the number is below, and multiplies the divisor as often. *)
Lemma unitLoop_spec (j : nat) :
  forall (fuel : nat) (n div : Z) (exp : nat),
    (j < fuel)%nat ->
    1 <= n < 1024 ^ (Z.of_nat j + 1) ->
    0 < div -> div * 1024 ^ Z.of_nat j < 2 ^ 63 ->
    exists i : nat,
      (i <= j)%nat /\
      unitLoop fuel n div exp = Some (div * 1024 ^ Z.of_nat i, (exp + i)%nat) /\
      1024 ^ Z.of_nat i <= n < 1024 ^ (Z.of_nat i + 1).
Proof.
  induction j as [|j IH]; intros fuel n div exp Hf Hn Hd Hb;
    (destruct fuel as [|fuel]; [lia|]); cbn [unitLoop].
  - change (1024 ^ (Z.of_nat 0 + 1)) with 1024 in Hn.
    destruct (Z.leb_spec 1024 n); [lia|].
    exists 0%nat. rewrite Nat.add_0_r. change (1024 ^ Z.of_nat 0) with 1.
    rewrite Z.mul_1_r. change (1024 ^ (0 + 1)) with 1024. repeat split; lia.
  - destruct (Z.leb_spec 1024 n) as [Hge | Hlt].
    + rewrite Z.quot_div_nonneg by lia.
      assert (Hp : 1024 ^ (Z.of_nat (S j) + 1) = 1024 * 1024 ^ (Z.of_nat j + 1)).
      { rewrite <- Z.pow_succ_r by lia. f_equal. lia. }
      assert (Hp' : 1024 ^ Z.of_nat (S j) = 1024 * 1024 ^ Z.of_nat j).
      { rewrite <- Z.pow_succ_r by lia. f_equal. lia. }
      assert (Hpos : 0 < 1024 ^ Z.of_nat j) by (apply Z.pow_pos_nonneg; lia).
      rewrite Hp in Hn. rewrite Hp' in Hb.
      assert (Hw : wrap64 (div * 1024) = div * 1024).
      { unfold wrap64. rewrite Z.mod_small; [lia|]. nia. }
      rewrite Hw.
      destruct (IH fuel (n / 1024) (div * 1024) (S exp)) as (i & Hi & E & Hr).
      * lia.
      * split; [zdiv|]. apply Z.div_lt_upper_bound; lia.
      * lia.
      * nia.
      * exists (S i). split; [lia|]. split.
        -- rewrite E. f_equal. f_equal; [|lia].
           replace (Z.of_nat (S i)) with (Z.succ (Z.of_nat i)) by lia.
           rewrite Z.pow_succ_r by lia. lia.
        -- replace (Z.of_nat (S i) + 1) with (Z.succ (Z.of_nat i + 1)) by lia.
           replace (Z.of_nat (S i)) with (Z.succ (Z.of_nat i)) by lia.
           rewrite !Z.pow_succ_r by lia.
           assert (0 < 1024 ^ Z.of_nat i) by (apply Z.pow_pos_nonneg; lia).
           assert (0 < 1024 ^ (Z.of_nat i + 1)) by (apply Z.pow_pos_nonneg; lia).
           destruct Hr as [Hr1 Hr2]. split; zdiv.
    + exists 0%nat. rewrite Nat.add_0_r. change (1024 ^ Z.of_nat 0) with 1.
      rewrite Z.mul_1_r. change (1024 ^ (0 + 1)) with 1024. repeat split; lia.
Qed.

(** X12. [formatSize] returns for every size: below 1024 the number of
    bytes, and from 1024 on a number with the unit that is the largest
    power of 1024 not above the size, which keeps the index into the six
    letters in range; six tests of the loop always suffice. *)
Theorem formatSize_unit (fuel : nat) (bytes : Z) :
  bytes <= maxInt64 ->
  (6 <= fuel)%nat ->
  (bytes < 1024 -> formatSize fuel bytes = Returns (sprintInt bytes +:+ " B")) /\
  (1024 <= bytes ->
   exists (i : nat) (c : ascii),
     nth_error unitLetters i = Some c /\
     1024 ^ (Z.of_nat i + 1) <= bytes < 1024 ^ (Z.of_nat i + 2) /\
     formatSize fuel bytes =
       Returns (sprintTenths (ofInt64 bytes / ofInt64 (1024 ^ (Z.of_nat i + 1)))%float
                +:+ " " +:+ String c "B")).
Proof.
  intros Hb Hf. unfold formatSize, maxInt64 in *. split.
  { intros Hlt. destruct (Z.ltb_spec bytes 1024); [reflexivity | lia]. }
  intros Hge.
  destruct (Z.ltb_spec bytes 1024); [lia|].
  rewrite Z.quot_div_nonneg by lia.
  destruct (unitLoop_spec 5 fuel (bytes / 1024) 1024 0) as (i & Hi & E & Hr).
  - lia.
  - change (1024 ^ (Z.of_nat 5 + 1)) with 1152921504606846976. zdiv.
  - lia.
  - reflexivity.
  - rewrite E. cbn [Nat.add].
    assert (Hc : exists c, nth_error unitLetters i = Some c).
    { do 6 (destruct i as [|i]; [simpl; eauto|]). lia. }
    destruct Hc as [c Hc]. exists i, c. rewrite Hc.
    assert (Hp : 1024 ^ (Z.of_nat i + 1) = 1024 * 1024 ^ Z.of_nat i).
    { rewrite <- Z.pow_succ_r by lia. reflexivity. }
    assert (Hp2 : 1024 ^ (Z.of_nat i + 2) = 1024 * 1024 ^ (Z.of_nat i + 1)).
    { rewrite <- Z.pow_succ_r by lia. f_equal. lia. }
    split; [reflexivity|]. split.
    + rewrite Hp2, Hp.
      assert (0 < 1024 ^ Z.of_nat i) by (apply Z.pow_pos_nonneg; lia).
      rewrite Hp in Hr. destruct Hr as [Hr1 Hr2]. split; zdiv.
    + rewrite Hp. reflexivity.
Qed.

End SizeFacts.

(** *** The cycle the orchestrator chooses, and the engine's reading of it *)

Module CycleFacts.
Import GoStrings GoTime TimeFacts.

(** Today's date followed by an hour of two digits and "00" parses to
    that hour of today. *)
Lemma ParseCompact_FormatDate (t : Time) (hh : Z) :
  0 <= t < endOfYears -> 0 <= hh < 24 ->
  ParseCompact (FormatDate t +:+ pad2 hh "" +:+ "00") = Some (dayStart t + hh * Hour).
Proof.
  intros Ht Hh. unfold FormatDate, ParseCompact.
  pose proof (minuteOf_day_range t Ht) as Hd.
  pose proof (civil_spec (minuteOf t / 1440)) as S.
  pose proof (civil_year_range _ Hd) as Y.
  pose proof (Date_dayStart t hh) as HD.
  destruct (civil (minuteOf t / 1440)) as [[y m] d]. simpl in Y.
  destruct S as (E & Hm & Hday).
  assert (d <= 31).
  { unfold daysIn in Hday. destruct (isLeap y);
      assert (m = 1 \/ m = 2 \/ m = 3 \/ m = 4 \/ m = 5 \/ m = 6 \/ m = 7 \/ m = 8 \/
              m = 9 \/ m = 10 \/ m = 11 \/ m = 12) as Hc by lia;
      repeat (destruct Hc as [-> | Hc]; [lia|]); subst m; lia. }
  rewrite pad4_app, !pad2_app by lia.
  rewrite getyear_pad4 by lia. step.
  rewrite getnum2_pad2 by lia. step.
  rewrite getnum2_pad2 by lia. step.
  change ("" +:+ pad2 hh ("" +:+ "00")) with (pad2 hh (pad2 0 "")).
  rewrite getnum12_pad2 by lia. step.
  rewrite getnum2_pad2 by lia. step.
  unfold fields_ok.
  repeat match goal with
  | |- context [?a <=? ?b] => destruct (Z.leb_spec a b); [|lia]
  | |- context [?a <? ?b] => destruct (Z.ltb_spec a b); [|lia]
  end. simpl. f_equal. exact HD.
Qed.

Lemma FormatDate_dayStart (t u : Time) :
  dayStart t = dayStart u -> FormatDate t = FormatDate u.
Proof.
  unfold dayStart, FormatDate, Day, Hour, Minute, Second. intros H.
  assert (minuteOf t / 1440 = minuteOf u / 1440) as -> by lia. reflexivity.
Qed.

Import Download.

(** The choice of [getCurrentCycle]: the cycle hour, the day whose date
    is returned, and the instant the two denote, which is the last
    multiple of six hours that lies five hours or more before [now]. *)
Lemma getCurrentCycle_cases (now : Time) :
  0 <= now ->
  exists hh,
    In hh [0; 6; 12; 18] /\
    (getCurrentCycle now).2 = pad2 hh "" /\
    (getCurrentCycle now).1
      = FormatDate (if hourOf now <? 5 then Add now (- 24 * Hour) else now) /\
    (now - 5 * Hour) / (6 * Hour) * (6 * Hour)
      = dayStart now + hh * Hour - (if hourOf now <? 5 then Day else 0).
Proof.
  intros Hn. unfold getCurrentCycle, hourOf.
  assert (HH : Hour = 3600000000000) by reflexivity.
  assert (Hsplit : now = dayStart now + (minuteOf now / 60 mod 24) * Hour
                         + (now - minuteOf now / 60 * Hour) /\
                   0 <= now - minuteOf now / 60 * Hour < Hour /\
                   0 <= minuteOf now / 60 mod 24 < 24).
  { unfold dayStart, minuteOf, Day, Hour, Minute, Second. zdiv. }
  destruct Hsplit as (Hs & Hr & Hh).
  set (h := minuteOf now / 60 mod 24) in *.
  set (r := now - minuteOf now / 60 * Hour) in *.
  clearbody h r.
  assert (Hm : exists q, dayStart now = q * (6 * Hour)).
  { exists (minuteOf now / 1440 * 4). unfold dayStart, Day. lia. }
  destruct Hm as [q Hq].
  assert (Hdiv : forall k,
            6 * k * Hour + 5 * Hour <= h * Hour + r < 6 * k * Hour + 11 * Hour ->
            (now - 5 * Hour) / (6 * Hour) * (6 * Hour) = dayStart now + 6 * k * Hour).
  { intros k Hb.
    assert (En : now - 5 * Hour
                 = (h * Hour + r - 5 * Hour - 6 * k * Hour) + (q + k) * (6 * Hour))
      by (rewrite HH in *; lia).
    rewrite En, Z.div_add by (rewrite HH; lia).
    rewrite Z.div_small by (rewrite HH in *; lia). rewrite Hq, HH. lia. }
  destruct (Z.ltb_spec h 5) as [H5 | H5].
  - destruct (Z.leb_spec 23 h); [lia|]. destruct (Z.leb_spec 17 h); [lia|].
    destruct (Z.leb_spec 11 h); [lia|]. destruct (Z.leb_spec 5 h); [lia|].
    exists 18. cbn [fst snd]. repeat split; [simpl; tauto|].
    rewrite (Hdiv (-1)) by (rewrite HH in *; lia). unfold Day. lia.
  - destruct (Z.leb_spec 23 h).
    { exists 18. cbn [fst snd]. repeat split; [simpl; tauto|].
      rewrite (Hdiv 3) by (rewrite HH in *; lia). lia. }
    destruct (Z.leb_spec 17 h).
    { exists 12. cbn [fst snd]. repeat split; [simpl; tauto|].
      rewrite (Hdiv 2) by (rewrite HH in *; lia). lia. }
    destruct (Z.leb_spec 11 h).
    { exists 6. cbn [fst snd]. repeat split; [simpl; tauto|].
      rewrite (Hdiv 1) by (rewrite HH in *; lia). lia. }
    destruct (Z.leb_spec 5 h); [|lia].
    exists 0. cbn [fst snd]. repeat split; [simpl; tauto|].
    rewrite (Hdiv 0) by (rewrite HH in *; lia). lia.
Qed.

Lemma dayStart_yesterday (now : Time) :
  dayStart (Add now (- 24 * Hour)) = dayStart now - Day.
Proof. unfold Add, dayStart, minuteOf, Day, Hour, Minute, Second. zdiv. Qed.

(** X7. The date and the cycle hour [getCurrentCycle] returns denote the
    last of the instants 00, 06, 12 and 18 UTC that lies five hours or
    more before now: read back with the cycle-time layout they give that
    instant, also when it falls on the day before. *)
Theorem getCurrentCycle_start (now : Time) :
  Day <= now < endOfYears ->
  In (getCurrentCycle now).2 cycles /\
  ParseCompact ((getCurrentCycle now).1 +:+ (getCurrentCycle now).2 +:+ "00")
    = Some ((now - 5 * Hour) / (6 * Hour) * (6 * Hour)).
Proof.
  intros Hn.
  assert (HD : Day = 86400000000000) by reflexivity.
  assert (HH : Hour = 3600000000000) by reflexivity.
  destruct (getCurrentCycle_cases now) as (hh & Hin & -> & -> & ->); [lia|].
  assert (Hh : 0 <= hh < 24) by (simpl in Hin; lia).
  split.
  - simpl in Hin. destruct Hin as [<- | [<- | [<- | [<- | []]]]]; simpl; tauto.
  - destruct (hourOf now <? 5).
    + rewrite ParseCompact_FormatDate by (unfold Add; lia).
      rewrite dayStart_yesterday. f_equal. lia.
    + rewrite ParseCompact_FormatDate by lia. f_equal. lia.
Qed.

End CycleFacts.

Module FetchedFacts.
Import GoStrings GoTime GoFloat Ingest TimeFacts CodecFacts IngestFacts CycleFacts.

Lemma pad2_inj (a b : Z) :
  0 <= a < 100 -> 0 <= b < 100 -> pad2 a "" = pad2 b "" -> a = b.
Proof.
  intros Ha Hb E. apply (f_equal getnum2) in E.
  rewrite !getnum2_pad2 in E by assumption. congruence.
Qed.

(** The cycle hour the engine reads in the name of a published file is
    the one the orchestrator wrote. *)
Lemma cycleHour_published (cycle : string) (i : nat) :
  In cycle Download.cycles -> (i < 25)%nat ->
  TrimSuffix (TrimPrefix (nth 1 (Split1 "." (Base ("gfs_data/" +:+
    Download.filenameOf cycle (nth i Download.forecastHours "")))) "") "t") "z" = cycle.
Proof.
  intros Hc Hi.
  assert (Hall : forallb (fun c =>
            forallb (fun i => String.eqb
               (TrimSuffix (TrimPrefix (nth 1 (Split1 "." (Base ("gfs_data/" +:+
                  Download.filenameOf c (nth i Download.forecastHours "")))) "") "t") "z") c)
              (seq 0 25)) Download.cycles = true) by (vm_compute; reflexivity).
  rewrite forallb_forall in Hall. specialize (Hall _ Hc).
  rewrite forallb_forall in Hall. apply String.eqb_eq, Hall, in_seq. lia.
Qed.

Section Fetched.
Context {lib : GoLib}.

(** X8. A file the orchestrator has fetched, ingested at the instant of
    the fetch.  The orchestrator reads the clock in UTC ([now]); the engine
    reads the wall clock of its host, [zone] ahead of UTC, and takes the
    date from it.  The sample is dated at the start of the cycle plus the
    forecast hours, plus the days the host's date is ahead of the UTC
    date, plus one day between 00:00 and 04:59 UTC, when the orchestrator
    fetches the 18 cycle of the day before.  On a host in UTC ([zone] 0)
    the second term vanishes and the third remains. *)
Theorem processGFSFile_of_fetched (w : World) (now zone : Z) (i : nat) (lon lat : float)
  (data : ForecastData) :
  Day <= now < endOfYears ->
  0 <= now + zone < endOfYears ->
  (i < 25)%nat ->
  let file := "gfs_data/" +:+
    Download.filenameOf (Download.getCurrentCycle now).2 (nth i Download.forecastHours "") in
  clock w file = now + zone ->
  processGFSFile w file lon lat = Ok data ->
  Timestamp data
    = (now - 5 * Hour) / (6 * Hour) * (6 * Hour) + Z.of_nat i * Hour
      + (dayStart (now + zone) - dayStart now)
      + (if hourOf now <? 5 then Day else 0).
Proof.
  intros Hn Hz Hi file Hclock Hp. subst file.
  set (file := "gfs_data/" +:+ Download.filenameOf (Download.getCurrentCycle now).2
                 (nth i Download.forecastHours "")) in *.
  assert (HD : Day = 86400000000000) by reflexivity.
  destruct (getCurrentCycle_cases now) as (hh & Hin & Ecycle & _ & ->); [lia|].
  assert (Hh : 0 <= hh < 24) by (simpl in Hin; lia).
  assert (Hc : In (Download.getCurrentCycle now).2 Download.cycles).
  { rewrite Ecycle. simpl in Hin.
    destruct Hin as [<- | [<- | [<- | [<- | []]]]]; simpl; tauto. }
  destruct (processGFSFile_stamp w file lon lat data) as (hh' & E' & Hh' & _ & ->);
    [rewrite Hclock; lia | exact Hp |].
  rewrite Hclock.
  unfold file in E'. rewrite (cycleHour_published _ i Hc Hi), Ecycle in E'.
  apply pad2_inj in E'; [|lia|lia]. subst hh'.
  unfold file. rewrite (getForecastHour_published _ i Hc Hi).
  rewrite hours_small by lia. destruct (hourOf now <? 5); lia.
Qed.

End Fetched.
End FetchedFacts.

(** *** More on the engine *)

Module EngineFacts.
Import GoStrings GoTime GoFloat Ingest TimeFacts CardinalFacts IngestFacts.

Section Engine2.
Context {lib : GoLib}.

Lemma toOutput_cases (fuel : nat) (f : ForecastData) :
  toOutput fuel f = Spins \/ exists o, toOutput fuel f = Returns o.
Proof.
  unfold toOutput.
  destruct (degreesToCardinal_cases fuel (windDirOf f)) as [-> | (s & -> & _)];
    simpl; eauto.
Qed.

Lemma mergeAll_cases (fuel : nat) (forecasts : list ForecastData)
  (m : gmap string ForecastOutput) :
  mergeAll fuel forecasts m = Spins \/ exists m', mergeAll fuel forecasts m = Returns m'.
Proof.
  revert m. induction forecasts as [|f rest IH]; intros m; simpl; [eauto|].
  destruct (toOutput_cases fuel f) as [-> | [o ->]]; simpl; [auto | apply IH].
Qed.

(** X9. [Ingest] never panics, whatever the decoder prints: no index
    leaves the sixteen labels. It ends the process exactly when wgrib2 is
    not found or the glob fails, and the handler does so exactly when,
    besides, both coordinates parse. *)
Theorem Ingest_never_panics (w : World) (sched : list nat) (fuel : nat) (lon lat : float)
  (lonText latText : string) :
  Ingest w sched fuel lon lat <> Panics /\
  (Ingest w sched fuel lon lat = Exits <-> lookPath_ok w = false \/ glob w = None) /\
  handler w sched fuel lonText latText <> Panics /\
  (handler w sched fuel lonText latText = Exits <->
   snd (ParseFloat lonText) = false /\ snd (ParseFloat latText) = false /\
   (lookPath_ok w = false \/ glob w = None)).
Proof.
  assert (HI : forall lon lat,
            Ingest w sched fuel lon lat <> Panics /\
            (Ingest w sched fuel lon lat = Exits <-> lookPath_ok w = false \/ glob w = None)).
  { intros lo la. unfold Ingest.
    destruct (lookPath_ok w); cbn [negb]; [|split; [discriminate | tauto]].
    destruct (glob w) as [files|]; [|split; [discriminate | tauto]].
    match goal with |- context [mergeAll ?a ?b ?c] =>
      destruct (mergeAll_cases a b c) as [-> | [m' ->]] end; simpl;
      (split; [discriminate|]); (split; [discriminate|]);
      intros [H | H]; discriminate. }
  split; [apply HI|]. split; [apply HI|].
  unfold handler.
  destruct (ParseFloat lonText) as [lo [|]]; cbn [snd].
  { split; [discriminate|]. split; [discriminate|]. intros (H & _). discriminate. }
  destruct (ParseFloat latText) as [la [|]]; cbn [snd].
  { split; [discriminate|]. split; [discriminate|]. intros (_ & H & _). discriminate. }
  destruct (HI lo la) as [Hp He].
  destruct (Ingest w sched fuel lo la) as [[out [e|]]| | |] eqn:E; simpl.
  - split; [discriminate|]. split; [discriminate|]. intros (_ & _ & H).
    apply He in H. discriminate.
  - split; [discriminate|]. split; [discriminate|]. intros (_ & _ & H).
    apply He in H. discriminate.
  - split; [discriminate|]. split; [intros _; repeat split; apply He; reflexivity | auto].
  - contradiction.
  - split; [discriminate|]. split; [discriminate|]. intros (_ & _ & H).
    apply He in H. discriminate.
Qed.

(** X10. The timestamps of the output are exactly the minutes of the
    files that were processed without error: no such file is dropped, no
    other timestamp appears, and there are no more points than files. *)
Theorem Ingest_timestamps (w : World) (sched : list nat) (fuel : nat) (lon lat : float)
  (files : list string) (out : list ForecastOutput) (err : option IngestError) :
  glob w = Some files ->
  schedule_ok (length files) sched ->
  Ingest w sched fuel lon lat = Returns (out, err) ->
  (forall k, k ∈ oTimestamp <$> out <->
     exists file data, file ∈ files /\ processGFSFile w file lon lat = Ok data /\
                       FormatMinute (Timestamp data) = k) /\
  (length out <= length files)%nat.
Proof.
  intros G [Hperm _] H.
  pose proof (Ingest_keys _ _ _ _ _ _ _ H) as ND.
  pose proof (Ingest_outputs _ _ _ _ _ _ _ files G H) as Hout.
  destruct (Ingest_inv _ _ _ _ _ _ _ H) as (files' & tm & _ & G' & M & Eout & _).
  assert (files' = files) as -> by congruence.
  apply mergeAll_inv in M as (outs & F & ->).
  set (sorted := sortSlice (fun a b => getForecastHour a <? getForecastHour b) files) in *.
  split.
  - intros k. split.
    + intros (o & -> & Ho)%list_elem_of_fmap.
      rewrite Forall_forall in Hout.
      destruct (Hout o Ho) as (i & file & data & _ & Hfile & _ & Hp & Hto).
      exists file, data. repeat split; try assumption.
      apply toOutput_inv in Hto as (E & _). congruence.
    + intros (file & data & Hfile & Hp & <-).
      assert (Hd : data ∈ collect w sorted sched lon lat).
      { apply elem_of_collect.
        assert (Hin : file ∈ sorted) by (unfold sorted; rewrite sortSlice_perm; exact Hfile).
        apply list_elem_of_lookup in Hin as [i Hi]. exists i, file.
        repeat split; try assumption.
        rewrite Hperm. apply list_elem_of_In, in_seq.
        apply lookup_lt_Some in Hi. unfold sorted in Hi.
        rewrite (Permutation_length (sortSlice_perm _ _ _)) in Hi. lia. }
      rewrite <- (sortSlice_perm _ (fun a b => Timestamp a <? Timestamp b)) in Hd.
      apply list_elem_of_lookup in Hd as [j Hj].
      destruct (Forall2_lookup_l _ _ _ _ _ F Hj) as (o1 & Ho1 & Ht1).
      apply toOutput_inv in Ht1 as (Hk1 & _).
      destruct (foldl_overwrite_covers outs ∅ (FormatMinute (Timestamp data))) as [o Ho].
      { right. exists o1. split; [eapply list_elem_of_lookup_2, Ho1 | exact Hk1]. }
      assert (Hk : oTimestamp o = FormatMinute (Timestamp data)).
      { apply foldl_overwrite_lookup in Ho as [[_ E] | Ho]; [exact E|].
        rewrite lookup_empty in Ho. discriminate. }
      rewrite <- Hk. apply list_elem_of_fmap. exists o. split; [reflexivity|].
      rewrite Eout, sortSlice_perm, mapRange_perm. apply list_elem_of_fmap.
      exists (FormatMinute (Timestamp data), o). split; [reflexivity|].
      apply elem_of_map_to_list, Ho.
  - rewrite Eout, (Permutation_length (sortSlice_perm _ _ _)), length_fmap,
      (Permutation_length (mapRange_perm _ _)).
    assert (Hsize : forall (l : list ForecastOutput) (m : gmap string ForecastOutput),
              (size (foldl overwrite m l) <= size m + length l)%nat).
    { induction l as [|o l IH]; intros m; simpl; [lia|].
      pose proof (IH (overwrite m o)) as IH'. change (size (overwrite m o)) with (size (<[oTimestamp o := o]> m)) in IH'.
      rewrite map_size_insert in IH'.
      destruct (m !! oTimestamp o); simpl in IH'; lia. }
    rewrite length_map_to_list.
    pose proof (Hsize outs ∅) as Hs. rewrite map_size_empty in Hs.
    rewrite <- (Forall2_length _ _ _ F) in Hs.
    rewrite (Permutation_length (sortSlice_perm _ _ _)) in Hs.
    assert (Hc : forall fs sch, (length (collect w fs sch lon lat) <= length sch)%nat).
    { intros fs sch. unfold collect. induction sch as [|i sch IH]; simpl; [lia|].
      rewrite length_app. destruct (fs !! i) as [f|]; simpl; [|lia].
      destruct (processGFSFile w f lon lat); simpl; lia. }
    pose proof (Hc sorted sched) as Hc'.
    rewrite (Permutation_length Hperm), length_seq in Hc'. lia.
Qed.

End Engine2.
End EngineFacts.

Module OrderFacts.
Import GoStrings GoTime GoFloat Ingest TimeFacts CardinalFacts IngestFacts.

Section OneLib.
Context {lib : GoLib}.

(** The output is in strictly ascending order of its parsed times. *)
Lemma Ingest_strict (w : World) (sched : list nat) (fuel : nat) (lon lat : float)
  (out : list ForecastOutput) (err : option IngestError) :
  (forall file, clockInRange (clock w file)) ->
  Ingest w sched fuel lon lat = Returns (out, err) ->
  StronglySorted (fun a b => parsedTime a < parsedTime b) out.
Proof.
  intros Hclock H.
  pose proof (Ingest_keys _ _ _ _ _ _ _ H) as ND.
  assert (Hfmt : Forall (fun o => exists t, oTimestamp o = FormatMinute t /\
                                            parsedTime o = truncMinute t) out).
  { destruct (Ingest_inv _ _ _ _ _ _ _ H) as (files & _ & _ & G & _).
    pose proof (Ingest_outputs _ _ _ _ _ _ _ files G H) as Hout.
    eapply Forall_impl; [exact Hout|]. simpl.
    intros o (i & file & data & _ & _ & _ & Hp & Ho).
    apply toOutput_inv in Ho as (Hts & _).
    exists (Timestamp data). split; [exact Hts|].
    unfold parsedTime. rewrite Hts, ParseMinute_FormatMinute; [reflexivity|].
    eapply processGFSFile_stamp_range; [apply Hclock | exact Hp]. }
  apply (strictly_sorted parsedTime oTimestamp); [|assumption|].
  - destruct (Ingest_inv _ _ _ _ _ _ _ H) as (files & tm & _ & _ & _ & -> & _).
    apply sortSlice_sorted.
  - intros a b Ha Hb E. rewrite Forall_forall in Hfmt.
    destruct (Hfmt a Ha) as (ta & -> & Pa). destruct (Hfmt b Hb) as (tb & -> & Pb).
    apply FormatMinute_minuteOf. rewrite Pa, Pb in E. unfold truncMinute, Minute, Second in E. lia.
Qed.

(** When no two files share a minute, the map of the merge loop holds,
    under each minute, the output record of the one file of that minute. *)
Lemma Ingest_map (w : World) (sched : list nat) (fuel : nat) (lon lat : float)
  (files : list string) (out : list ForecastOutput) (err : option IngestError) :
  glob w = Some files ->
  schedule_ok (length files) sched ->
  (forall f1 f2 d1 d2, f1 ∈ files -> f2 ∈ files ->
     processGFSFile w f1 lon lat = Ok d1 -> processGFSFile w f2 lon lat = Ok d2 ->
     FormatMinute (Timestamp d1) = FormatMinute (Timestamp d2) -> f1 = f2) ->
  Ingest w sched fuel lon lat = Returns (out, err) ->
  exists m : gmap string ForecastOutput,
    out ≡ₚ (map_to_list m).*2 /\
    forall k o, m !! k = Some o <->
      exists file data, file ∈ files /\ processGFSFile w file lon lat = Ok data /\
                        toOutput fuel data = Returns o /\
                        FormatMinute (Timestamp data) = k.
Proof.
  intros G [Hperm _] Hinj H.
  destruct (Ingest_inv _ _ _ _ _ _ _ H) as (files' & tm & _ & G' & M & Eout & _).
  assert (files' = files) as -> by congruence.
  apply mergeAll_inv in M as (outs & F & ->).
  set (sorted := sortSlice (fun a b => getForecastHour a <? getForecastHour b) files) in *.
  set (samples := sortSlice (fun a b => Timestamp a <? Timestamp b)
                    (collect w sorted sched lon lat)) in *.
  assert (Hfrom : forall k o, foldl overwrite ∅ outs !! k = Some o ->
            exists file data, file ∈ files /\ processGFSFile w file lon lat = Ok data /\
                              toOutput fuel data = Returns o /\
                              FormatMinute (Timestamp data) = k).
  { intros k o [[Hin Hk] | Hl]%foldl_overwrite_lookup;
      [|rewrite lookup_empty in Hl; discriminate].
    apply list_elem_of_lookup in Hin as [j Hj].
    destruct (Forall2_lookup_r _ _ _ _ _ F Hj) as (data & Hd & Ht).
    apply list_elem_of_lookup_2 in Hd. unfold samples in Hd. rewrite sortSlice_perm in Hd.
    apply elem_of_collect in Hd as (i & file & _ & Hf & Hp).
    apply list_elem_of_lookup_2 in Hf. unfold sorted in Hf. rewrite sortSlice_perm in Hf.
    exists file, data. repeat split; try assumption.
    apply toOutput_inv in Ht as (E & _). congruence. }
  exists (foldl overwrite ∅ outs). split.
  - rewrite Eout, sortSlice_perm, mapRange_perm. reflexivity.
  - intros k o. split; [apply Hfrom|].
    intros (file & data & Hfile & Hp & Hto & <-).
    assert (Hd : data ∈ samples).
    { unfold samples. rewrite sortSlice_perm. apply elem_of_collect.
      assert (Hin : file ∈ sorted) by (unfold sorted; rewrite sortSlice_perm; exact Hfile).
      apply list_elem_of_lookup in Hin as [i Hi]. exists i, file.
      repeat split; try assumption.
      rewrite Hperm. apply list_elem_of_In, in_seq.
      apply lookup_lt_Some in Hi. unfold sorted in Hi.
      rewrite (Permutation_length (sortSlice_perm _ _ _)) in Hi. lia. }
    apply list_elem_of_lookup in Hd as [j Hj].
    destruct (Forall2_lookup_l _ _ _ _ _ F Hj) as (o1 & Ho1 & Ht1).
    assert (o1 = o) as -> by congruence.
    pose proof (toOutput_inv _ _ _ Hto) as (Hk & _).
    destruct (foldl_overwrite_covers outs ∅ (FormatMinute (Timestamp data))) as [o' Ho'].
    { right. exists o. split; [eapply list_elem_of_lookup_2, Ho1 | exact Hk]. }
    rewrite Ho'. f_equal.
    destruct (Hfrom _ _ Ho') as (file' & data' & Hfile' & Hp' & Hto' & Hk').
    assert (file' = file) as -> by (eapply Hinj; eauto).
    congruence.
Qed.

End OneLib.

Lemma processGFSFile_lib (lib1 lib2 : GoLib) (w : World) (file : string) (lon lat : float) :
  @ParseFloat lib1 = @ParseFloat lib2 ->
  @processGFSFile lib1 w file lon lat = @processGFSFile lib2 w file lon lat.
Proof. intros E. unfold processGFSFile, parseOutput. rewrite E. reflexivity. Qed.

Lemma toOutput_lib (lib1 lib2 : GoLib) (fuel : nat) (f : ForecastData) :
  @Atan2 lib1 = @Atan2 lib2 -> @toOutput lib1 fuel f = @toOutput lib2 fuel f.
Proof. intros E. unfold toOutput, windDirOf. rewrite E. reflexivity. Qed.

(** X11. When no two files resolve to the same minute the output is
    determined: it is the same for every schedule of the workers, every
    tie-break of [sort.Slice] and every order in which [range] visits the
    map. *)
Theorem Ingest_deterministic (lib1 lib2 : GoLib) (w : World) (sched1 sched2 : list nat)
  (fuel : nat) (lon lat : float) (files : list string)
  (out1 out2 : list ForecastOutput) (err1 err2 : option IngestError) :
  @ParseFloat lib1 = @ParseFloat lib2 ->
  @Atan2 lib1 = @Atan2 lib2 ->
  glob w = Some files ->
  schedule_ok (length files) sched1 ->
  schedule_ok (length files) sched2 ->
  (forall file, clockInRange (clock w file)) ->
  (forall f1 f2 d1 d2, f1 ∈ files -> f2 ∈ files ->
     @processGFSFile lib1 w f1 lon lat = Ok d1 ->
     @processGFSFile lib1 w f2 lon lat = Ok d2 ->
     FormatMinute (Timestamp d1) = FormatMinute (Timestamp d2) -> f1 = f2) ->
  @Ingest lib1 w sched1 fuel lon lat = Returns (out1, err1) ->
  @Ingest lib2 w sched2 fuel lon lat = Returns (out2, err2) ->
  out1 = out2.
Proof.
  intros EP EA G S1 S2 Hclock Hinj H1 H2.
  pose proof (@Ingest_strict lib1 _ _ _ _ _ _ _ Hclock H1) as St1.
  pose proof (@Ingest_strict lib2 _ _ _ _ _ _ _ Hclock H2) as St2.
  destruct (@Ingest_map lib1 _ _ _ _ _ files _ _ G S1 Hinj H1) as (m1 & P1 & L1).
  assert (Hinj2 : forall f1 f2 d1 d2, f1 ∈ files -> f2 ∈ files ->
            @processGFSFile lib2 w f1 lon lat = Ok d1 ->
            @processGFSFile lib2 w f2 lon lat = Ok d2 ->
            FormatMinute (Timestamp d1) = FormatMinute (Timestamp d2) -> f1 = f2).
  { intros f1 f2 d1 d2 Hf1 Hf2 Hp1 Hp2.
    rewrite <- (processGFSFile_lib lib1 lib2) in Hp1, Hp2 by assumption. eauto. }
  destruct (@Ingest_map lib2 _ _ _ _ _ files _ _ G S2 Hinj2 H2) as (m2 & P2 & L2).
  assert (m1 = m2) as ->.
  { apply map_eq. intros k. apply option_eq. intros o. rewrite L1, L2.
    split; intros (file & data & Hf & Hp & Hto & Hk); exists file, data.
    - rewrite <- (processGFSFile_lib lib1 lib2), <- (toOutput_lib lib1 lib2) by assumption. auto.
    - rewrite (processGFSFile_lib lib1 lib2), (toOutput_lib lib1 lib2) by assumption. auto. }
  apply (StronglySorted_unique_strong (fun a b => parsedTime a < parsedTime b));
    try assumption.
  - intros a b _ _ Hab Hba. lia.
  - rewrite P1, P2. reflexivity.
Qed.

End OrderFacts.

(** *** Further examples *)

Module MoreExamples.
Import GoStrings GoTime GoFloat Ingest Examples TimeFacts IngestFacts IngestExamples.

(** A second instance of the library interface: the same functions, with
    [range] visiting the map in the opposite order. *)
Definition revLib : GoLib := {|
  ParseFloat := RefLib.parseFloat;
  Atan2 := RefLib.atan2;
  sortSlice := @RefLib.insertionSort;
  mapRange := fun V m => rev (map_to_list m);
  sortSlice_perm := @RefLibFacts.insertionSort_perm;
  sortSlice_sorted := @RefLibFacts.insertionSort_sorted;
  mapRange_perm := fun V m => Permutation_sym (Permutation_rev (map_to_list m))
|}.

Lemma may1early_in_range : Day <= may1early < endOfYears.
Proof. split; [apply Z.leb_le | apply Z.ltb_lt]; vm_compute; reflexivity. Qed.

(** The theorem of X7 at 03:00 of the first of May: the 18 cycle of the
    thirtieth of April. *)
Lemma getCurrentCycle_start_witness :
  In (Download.getCurrentCycle may1early).2 Download.cycles /\
  ParseCompact ((Download.getCurrentCycle may1early).1 +:+
                (Download.getCurrentCycle may1early).2 +:+ "00")
    = Some ((may1early - 5 * Hour) / (6 * Hour) * (6 * Hour)).
Proof. exact (CycleFacts.getCurrentCycle_start may1early may1early_in_range). Defined.

Lemma may1evening_in_range : Day <= may1evening < endOfYears.
Proof. split; [apply Z.leb_le | apply Z.ltb_lt]; vm_compute; reflexivity. Qed.

(** The theorem of X8 on hour 003 fetched and ingested at 03:00 UTC on a
    host in UTC, a day late, and on hour 003 fetched and ingested at 17:00
    UTC on a host eight hours east, a day late as well: 2024-05-02 15:00
    for the twelve cycle of the first of May. *)
Lemma processGFSFile_of_fetched_witness :
  Timestamp earlySample
    = (may1early - 5 * Hour) / (6 * Hour) * (6 * Hour) + Z.of_nat 3 * Hour
      + (dayStart (may1early + 0) - dayStart may1early)
      + (if hourOf may1early <? 5 then Day else 0) /\
  Timestamp eastSample
    = (may1evening - 5 * Hour) / (6 * Hour) * (6 * Hour) + Z.of_nat 3 * Hour
      + (dayStart (may1evening + eightEast) - dayStart may1evening)
      + (if hourOf may1evening <? 5 then Day else 0).
Proof.
  split.
  - apply (FetchedFacts.processGFSFile_of_fetched earlyFetch may1early 0 3 lon lat
             earlySample).
    + exact may1early_in_range.
    + split; [apply Z.leb_le | apply Z.ltb_lt]; vm_compute; reflexivity.
    + lia.
    + vm_compute. reflexivity.
    + vm_compute. reflexivity.
  - apply (FetchedFacts.processGFSFile_of_fetched eastFetch may1evening eightEast 3 lon lat
             eastSample).
    + exact may1evening_in_range.
    + split; [apply Z.leb_le | apply Z.ltb_lt]; vm_compute; reflexivity.
    + lia.
    + vm_compute. reflexivity.
    + vm_compute. reflexivity.
Defined.

(** The theorem of X10 on the three files of one cycle. *)
Lemma Ingest_timestamps_witness :
  (forall k, k ∈ oTimestamp <$> threeFilesOutput <->
     exists file data,
       file ∈ ["gfs_data/gfs.t00z.pgrb2.0p25.f000"; "gfs_data/gfs.t00z.pgrb2.0p25.f001";
               "gfs_data/gfs.t00z.pgrb2.0p25.f002"] /\
       processGFSFile threeFiles file lon lat = Ok data /\
       FormatMinute (Timestamp data) = k) /\
  (length threeFilesOutput <= 3)%nat.
Proof.
  apply (EngineFacts.Ingest_timestamps threeFiles [0; 1; 2]%nat 2 lon lat
           ["gfs_data/gfs.t00z.pgrb2.0p25.f000"; "gfs_data/gfs.t00z.pgrb2.0p25.f001";
            "gfs_data/gfs.t00z.pgrb2.0p25.f002"] threeFilesOutput None).
  - reflexivity.
  - split; reflexivity.
  - vm_compute. reflexivity.
Defined.

Lemma threeFiles_apart (f1 f2 : string) (d1 d2 : ForecastData) :
  f1 ∈ ["gfs_data/gfs.t00z.pgrb2.0p25.f000"; "gfs_data/gfs.t00z.pgrb2.0p25.f001";
        "gfs_data/gfs.t00z.pgrb2.0p25.f002"] ->
  f2 ∈ ["gfs_data/gfs.t00z.pgrb2.0p25.f000"; "gfs_data/gfs.t00z.pgrb2.0p25.f001";
        "gfs_data/gfs.t00z.pgrb2.0p25.f002"] ->
  processGFSFile threeFiles f1 lon lat = Ok d1 ->
  processGFSFile threeFiles f2 lon lat = Ok d2 ->
  FormatMinute (Timestamp d1) = FormatMinute (Timestamp d2) -> f1 = f2.
Proof.
  intros H1 H2.
  repeat (apply elem_of_cons in H1 as [-> | H1]); [| | | inversion H1];
    (repeat (apply elem_of_cons in H2 as [-> | H2]); [| | | inversion H2]);
    try reflexivity;
    intros P1 P2; vm_compute in P1; vm_compute in P2;
    injection P1 as <-; injection P2 as <-; vm_compute; discriminate.
Qed.

(** The theorem of X11 on the three files of one cycle, for two schedules
    and two orders of the map. *)
Lemma Ingest_deterministic_witness :
  @Ingest refLib threeFiles [0; 1; 2]%nat 2 lon lat = Returns (threeFilesOutput, None) /\
  @Ingest revLib threeFiles [2; 0; 1]%nat 2 lon lat = Returns (threeFilesOutput, None) /\
  threeFilesOutput = threeFilesOutput.
Proof.
  split; [vm_compute; reflexivity|]. split; [vm_compute; reflexivity|].
  apply (OrderFacts.Ingest_deterministic refLib revLib threeFiles
           [0; 1; 2]%nat [2; 0; 1]%nat 2 lon lat
           ["gfs_data/gfs.t00z.pgrb2.0p25.f000"; "gfs_data/gfs.t00z.pgrb2.0p25.f001";
            "gfs_data/gfs.t00z.pgrb2.0p25.f002"] threeFilesOutput threeFilesOutput None None).
  - reflexivity.
  - reflexivity.
  - reflexivity.
  - split; reflexivity.
  - split; [|reflexivity]. apply (bool_decide_unpack _). vm_compute. reflexivity.
  - intros file. exact may1_in_range.
  - exact threeFiles_apart.
  - vm_compute. reflexivity.
  - vm_compute. reflexivity.
Defined.

End MoreExamples.

Module MoreFetchExamples.
Import GoStrings GoTime Download DownloadFacts FetchWorlds RunFacts.

Lemma staging_fresh : published !! staging = None.
Proof. vm_compute. reflexivity. Qed.

Lemma allFine_delivers (w : World) :
  net w = net allFine -> Forall (fun h => is_Some (delivered w h)) forecastHours.
Proof.
  intros E. apply Forall_forall. intros h _. unfold delivered. rewrite E.
  exists (2 * MiB). reflexivity.
Qed.

(** The theorem of X3 on the run in which hour 007 never answers. *)
Lemma run_cleans_up_witness :
  exists r f' evs,
    run oneHourDown {| fs := published; log := [] |}
      = (r, {| fs := f'; log := [] ++ evs |}) /\
    f' !! staging = None /\
    (forall dir, dir <> outputDir -> f' !! dir = published !! dir) /\
    (requests evs <= 75)%nat /\
    (length (pauses evs) <= 50)%nat /\
    (r = None ->
     Forall (fun h => is_Some (delivered oneHourDown h)) forecastHours /\
     f' !! outputDir
       = Some (stagedFiles oneHourDown (getCurrentCycle (now oneHourDown)).2
                 forecastHours ∅)).
Proof.
  apply (run_cleans_up oneHourDown published [] staging);
    [reflexivity | reflexivity | exact staging_fresh | discriminate].
Defined.

(** The theorem of X4 on the run in which every download works. *)
Lemma run_success_publishes_witness :
  exists new evs,
    run allFine {| fs := published; log := [] |}
      = (None, {| fs := <[outputDir := new]> published; log := [] ++ evs |}) /\
    (forall n b, new !! n = Some b <->
       exists h, h ∈ forecastHours /\
                 n = filenameOf (getCurrentCycle (now allFine)).2 h /\
                 delivered allFine h = Some b) /\
    (forall n b, new !! n = Some b -> minSize < b) /\
    last evs = Some (RenamedDir staging outputDir).
Proof.
  apply (run_success_publishes allFine published [] staging);
    [reflexivity | reflexivity | exact staging_fresh | discriminate
    | apply allFine_delivers; reflexivity | reflexivity | reflexivity].
Defined.

(** The theorem of X5 on the run whose move into place fails, and on the
    run whose removal of the old directory fails half-way. *)
Lemma run_publish_failure_witness :
  (exists r f' evs,
     run moveBlocked {| fs := published; log := [] |}
       = (Some r, {| fs := f'; log := [] ++ evs |}) /\
     f' !! staging = None /\
     (forall dir, dir <> outputDir -> f' !! dir = published !! dir) /\
     r = FailedToMoveTempDirectory /\ f' !! outputDir = None) /\
  (exists r f' evs,
     run removeBlocked {| fs := published; log := [] |}
       = (Some r, {| fs := f'; log := [] ++ evs |}) /\
     f' !! staging = None /\
     (forall dir, dir <> outputDir -> f' !! dir = published !! dir) /\
     r = FailedToRemoveOldOutputDirectory /\
     exists left, f' !! outputDir = Some left /\
       forall n b, left !! n = Some b <->
         ({[ filenameOf "00" "000" := 5 * MiB ]} : Dir) !! n = Some b /\
         n ∉ [filenameOf "00" "000"]).
Proof.
  split.
  - apply (run_publish_failure moveBlocked published [] staging
             {[ filenameOf "00" "000" := 5 * MiB ]});
      [reflexivity | reflexivity | exact staging_fresh | discriminate
      | apply allFine_delivers; reflexivity | reflexivity | right; reflexivity].
  - apply (run_publish_failure removeBlocked published [] staging
             {[ filenameOf "00" "000" := 5 * MiB ]});
      [reflexivity | reflexivity | exact staging_fresh | discriminate
      | apply allFine_delivers; reflexivity | reflexivity | left; reflexivity].
Defined.

(** The theorem of X6 on the job of hour 000: done once, it is skipped
    the second time. *)
Lemma downloadWithRetry_again_witness :
  downloadWithRetry oneHourDown staging "20240502" "00" "000"
    (staged published staging {[ hour000 := 2 * MiB ]} [Request url000])
  = (None, staged published staging {[ hour000 := 2 * MiB ]} [Request url000]).
Proof.
  apply (downloadWithRetry_again allFine oneHourDown staging "20240501" "20240502" "00" "000"
           published ∅ []).
  - reflexivity.
  - reflexivity.
  - vm_compute. reflexivity.
Defined.

(** The theorem of X12 on 512 bytes and on five MiB, with what is
    printed for five MiB and for one byte less than a MiB. *)
Lemma formatSize_unit_witness :
  formatSize 6 512 = Returns (sprintInt 512 +:+ " B") /\
  (exists (i : nat) (c : ascii),
     nth_error unitLetters i = Some c /\
     1024 ^ (Z.of_nat i + 1) <= 5 * MiB < 1024 ^ (Z.of_nat i + 2) /\
     formatSize 6 (5 * MiB) =
       Returns (sprintTenths (ofInt64 (5 * MiB) / ofInt64 (1024 ^ (Z.of_nat i + 1)))%float
                +:+ " " +:+ String c "B")) /\
  formatSize 6 (5 * MiB) = Returns "5.0 MB" /\
  formatSize 6 (MiB - 1) = Returns "1024.0 KB".
Proof.
  split; [|split; [|split; vm_compute; reflexivity]].
  - apply (proj1 (SizeFacts.formatSize_unit 6 512 ltac:(vm_compute; discriminate)
                    ltac:(lia))). lia.
  - apply (proj2 (SizeFacts.formatSize_unit 6 (5 * MiB) ltac:(vm_compute; discriminate)
                    ltac:(lia))). vm_compute. discriminate.
Defined.

End MoreFetchExamples.
